(** * Chinese_NER: the OCR record builder and the PDF page renderers

    A shallow embedding of [convert_excel.py], [convert_image.py] and
    [Source/pdf_to_preprocessed_image.py], and the properties of the
    natural-language specification proved over it.

    Modelling conventions.
    - A Python [str] is a list of Unicode code points ([N]); literals are
      written with [u8], which decodes the UTF-8 bytes of a Rocq string.
    - A Python [int] is a [Z]; a Python [float] is a primitive binary64 float.
    - A raised exception is the [Raise] branch of [result].
    - Library collaborators that the repository only calls (the operations
      of pathlib, the json and csv codecs, the Unicode character database
      beyond ASCII) are the fields of the class [Library]; every definition
      and theorem is generic in it.
    - Calls that touch the outside world (stdin, the file system, PyMuPDF,
      PIL) are events of a program tree ([prog]); a run answers every event
      from a [world] and records the trace.
    - The interpreter's limit on the length of decimal conversions
      ([sys.set_int_max_str_digits]) is not modelled. *)

From Stdlib Require Import ZArith NArith List Bool Lia String Ascii Sorted.
From Stdlib Require Import Floats.PrimFloat.
Import ListNotations.

Set Implicit Arguments.
Local Open Scope Z_scope.

(** ** Python strings as code-point lists *)

Module Py.

Definition char := N.
Definition str := list char.

(** Decoding of the UTF-8 bytes of a source literal into code points. *)
Fixpoint utf8_decode (bs : list N) : str :=
  match bs with
  | [] => []
  | b :: r =>
      if (b <? 128)%N then b :: utf8_decode r
      else if (b <? 224)%N then
        match r with
        | c1 :: r' => ((b - 192) * 64 + (c1 - 128))%N :: utf8_decode r'
        | [] => [b]
        end
      else if (b <? 240)%N then
        match r with
        | c1 :: c2 :: r' =>
            ((b - 224) * 4096 + (c1 - 128) * 64 + (c2 - 128))%N :: utf8_decode r'
        | _ => [b]
        end
      else
        match r with
        | c1 :: c2 :: c3 :: r' =>
            ((b - 240) * 262144 + (c1 - 128) * 4096 + (c2 - 128) * 64 + (c3 - 128))%N
              :: utf8_decode r'
        | _ => [b]
        end
  end.

Definition u8 (s : string) : str :=
  utf8_decode (List.map N_of_ascii (list_ascii_of_string s)).

Definition str_eqb (a b : str) : bool :=
  if list_eq_dec N.eq_dec a b then true else false.

(** A [pathlib.Path], held as the string [str(p)] that the platform's
    pathlib gives it. *)
Definition path := str.

Definition path_str (p : path) : str := p.

(** [len(s)] as a Python int. *)
Definition len {A} (l : list A) : Z := Z.of_nat (List.length l).

(** *** Exceptions *)

Inductive exn_class :=
| TypeError | ValueError | KeyError | IndexError | AttributeError
| FileNotFoundError | OSError | ImportError | OtherError.

(** An exception: its class and, where the repository builds it, its message
    ([None] for a message composed by the interpreter or a library). *)
Record exn := Exn { exn_cls : exn_class; exn_msg : option str }.

Inductive result (A : Type) :=
| Ok (a : A)
| Raise (e : exn).
Arguments Ok {A} a.
Arguments Raise {A} e.

Definition bind {A B} (r : result A) (k : A -> result B) : result B :=
  match r with
  | Ok a => k a
  | Raise e => Raise e
  end.

Notation "x <- r ;; k" := (bind r (fun x => k))
  (at level 61, r at next level, right associativity).

Definition raise {A} (c : exn_class) : result A := Raise (Exn c None).

(** *** [str.strip]

    The characters [str.strip()] removes are those for which
    [Py_UNICODE_ISSPACE] holds. *)
Definition between (lo hi : N) (c : char) : bool :=
  ((lo <=? c) && negb (hi <? c))%N.

Definition isspace (c : char) : bool :=
  (between 9 13 c
   || between 28 32 c
   || (c =? 133) || (c =? 160) || (c =? 5760)
   || between 8192 8202 c
   || (c =? 8232) || (c =? 8233) || (c =? 8239) || (c =? 8287)
   || (c =? 12288))%N.

Fixpoint lstrip (s : str) : str :=
  match s with
  | [] => []
  | c :: r => if isspace c then lstrip r else s
  end.

Definition rstrip (s : str) : str := rev (lstrip (rev s)).

Definition strip (s : str) : str := rstrip (lstrip s).

(** *** [str.split] and [str.join] with a one-character separator *)

Fixpoint split (sep : char) (s : str) : list str :=
  match s with
  | [] => [[]]
  | c :: r =>
      if (c =? sep)%N then [] :: split sep r
      else match split sep r with
           | p :: ps => (c :: p) :: ps
           | [] => [[c]]
           end
  end.

Fixpoint join (sep : str) (parts : list str) : str :=
  match parts with
  | [] => []
  | p :: ps =>
      match ps with
      | [] => p
      | _ :: _ => p ++ sep ++ join sep ps
      end
  end.

(** *** [str(int)] and [str.zfill] *)

Definition digit_char (d : N) : char := (48 + d)%N.

Fixpoint digits_of (fuel : nat) (n : N) (acc : str) : str :=
  match fuel with
  | O => acc
  | S f =>
      let acc' := digit_char (n mod 10) :: acc in
      if (n <? 10)%N then acc' else digits_of f (n / 10) acc'
  end.

(** Decimal digits of a natural number, most significant first. *)
Definition str_N (n : N) : str := digits_of (S (N.to_nat (N.log2 n))) n [].

Definition minus_sign : char := 45%N.
Definition plus_sign : char := 43%N.
Definition zero_char : char := 48%N.

(** [str(z)] for a Python int. *)
Definition str_int (z : Z) : str :=
  match z with
  | Z0 => str_N 0
  | Zpos p => str_N (Npos p)
  | Zneg p => minus_sign :: str_N (Npos p)
  end.

(** [s.zfill(width)]: no change when [len(s) >= width]; otherwise zeros are
    inserted on the left, after a leading sign character if there is one. *)
Definition zfill (s : str) (width : Z) : str :=
  if len s >=? width then s
  else
    let fill := Z.to_nat (width - len s) in
    match s with
    | c :: r =>
        if (c =? plus_sign)%N || (c =? minus_sign)%N
        then c :: repeat zero_char fill ++ r
        else repeat zero_char fill ++ s
    | [] => repeat zero_char fill
    end.

(** [sys.int_info.default_max_str_digits]: [int] refuses a decimal string of
    more digits with [ValueError]. *)
Definition int_max_str_digits : Z := 4300.

End Py.

Import Py.

(** ** JSON values as [json.loads] builds them

    An object is a Python dict: its items in insertion order, the keys
    pairwise distinct. *)

#[warnings="-register-all"]
Inductive json :=
| JNull
| JBool (b : bool)
| JInt (z : Z)
| JFloat (f : float)
| JStr (s : str)
| JArr (l : list json)
| JObj (kvs : list (str * json)).

(** Truth value of an object ([if box], [x or y]). *)
Definition truthy (v : json) : bool :=
  match v with
  | JNull => false
  | JBool b => b
  | JInt z => negb (z =? 0)
  | JFloat f => negb (PrimFloat.eqb f 0%float)
  | JStr s => match s with [] => false | _ :: _ => true end
  | JArr l => match l with [] => false | _ :: _ => true end
  | JObj kvs => match kvs with [] => false | _ :: _ => true end
  end.

Fixpoint assoc (kvs : list (str * json)) (key : str) : option json :=
  match kvs with
  | [] => None
  | (k, v) :: r => if str_eqb k key then Some v else assoc r key
  end.

(** [d.get(key, default)]; only a dict has the method. *)
Definition dict_get (d : json) (key : str) (default : json) : result json :=
  match d with
  | JObj kvs =>
      match assoc kvs key with
      | Some v => Ok v
      | None => Ok default
      end
  | _ => raise AttributeError
  end.

(** The items [enumerate(v)] walks through: the elements of a list, the
    one-character strings of a str, the keys of a dict; other values are not
    iterable. *)
Definition py_iter (v : json) : result (list json) :=
  match v with
  | JArr l => Ok l
  | JStr s => Ok (List.map (fun c => JStr [c]) s)
  | JObj kvs => Ok (List.map (fun kv => JStr (fst kv)) kvs)
  | _ => raise TypeError
  end.

(** [len(v)]. *)
Definition py_len (v : json) : result Z :=
  match v with
  | JArr l => Ok (len l)
  | JStr s => Ok (len s)
  | JObj kvs => Ok (len kvs)
  | _ => raise TypeError
  end.

(** Indexing of a sequence by a Python int: a negative index counts from the
    end, an index outside the sequence raises [IndexError]. *)
Definition seq_getitem {A} (l : list A) (i : Z) : result A :=
  let j := if i <? 0 then i + len l else i in
  if j <? 0 then raise IndexError
  else match nth_error l (Z.to_nat j) with
       | Some x => Ok x
       | None => raise IndexError
       end.

(** [v[i]] for an int [i]; the keys of a JSON object are strings, so an int
    is never one of them. *)
Definition py_getitem (v : json) (i : Z) : result json :=
  match v with
  | JArr l => seq_getitem l i
  | JStr s => c <- seq_getitem s i ;; Ok (JStr [c])
  | JObj _ => raise KeyError
  | _ => raise TypeError
  end.

(** ** The libraries the scripts call *)

(** A cataloging row: the dict with the four fixed keys that [load_rows]
    builds. *)
Record row := Row {
  ID : str;
  Image_name : str;
  Han_Char : str;
  Image_Box : str
}.

Class Library := {
  (* [str.isdigit] on a code point beyond ASCII *)
  ucd_isdigit : char -> bool;
  (* the decimal value [int()] gives a code point beyond ASCII, if any *)
  ucd_decimal : char -> option Z;
  (* [pathlib] of the platform: [Path(s)], [p.stem], [p.parent], [p / name] *)
  Path : str -> path;
  path_stem : path -> str;
  path_parent : path -> path;
  path_join : path -> str -> path;
  (* [json.loads] and [json.dumps(_, ensure_ascii=False)] *)
  json_loads : str -> result json;
  json_dumps : json -> str;
  (* the text [csv.DictWriter] with the given field names produces for a
     header line followed by the rows *)
  csv_text : list str -> list row -> result str
}.

(** ** Programs with external calls *)

Section Prog.
Variable E : Type -> Type.

Inductive prog (A : Type) : Type :=
| Ret (a : A)
| Throw (e : exn)
| SysExit (msg : str)
| Vis (X : Type) (ev : E X) (k : X -> prog A).
Arguments Ret {A} a.
Arguments Throw {A} e.
Arguments SysExit {A} msg.

Fixpoint pbind {A B} (p : prog A) (f : A -> prog B) : prog B :=
  match p with
  | Ret a => f a
  | Throw e => Throw e
  | SysExit msg => SysExit msg
  | Vis ev k => Vis ev (fun x => pbind (k x) f)
  end.

(** An external call that returns. *)
Definition call {X} (ev : E X) : prog X := Vis ev (fun x => Ret x).

(** An external call that may raise. *)
Definition call_r {X} (ev : E (result X)) : prog X :=
  Vis ev (fun r => match r with Ok x => Ret x | Raise e => Throw e end).

(** A pure computation that may raise. *)
Definition lift {A} (r : result A) : prog A :=
  match r with Ok a => Ret a | Raise e => Throw e end.

(** [try: p except ...]: [h] gives the handler of the first matching
    clause; [sys.exit] is not an [Exception] and passes through. *)
Fixpoint try_except {A} (p : prog A) (h : exn -> option (prog A)) : prog A :=
  match p with
  | Ret a => Ret a
  | Throw e => match h e with Some q => q | None => Throw e end
  | SysExit msg => SysExit msg
  | Vis ev k => Vis ev (fun x => try_except (k x) h)
  end.

(** [try: p finally: f]. *)
Fixpoint try_finally {A} (p : prog A) (f : prog unit) : prog A :=
  match p with
  | Ret a => pbind f (fun _ => Ret a)
  | Throw e => pbind f (fun _ => Throw e)
  | SysExit msg => pbind f (fun _ => SysExit msg)
  | Vis ev k => Vis ev (fun x => try_finally (k x) f)
  end.

(** How a run ends. *)
Inductive outcome (A : Type) :=
| Returned (a : A)
| Raised (e : exn)
| Exited (msg : str).
Arguments Returned {A} a.
Arguments Raised {A} e.
Arguments Exited {A} msg.

(** One external call of a run, with the answer it got. *)
Inductive entry := Entry (X : Type) (ev : E X) (x : X).

(** The outside world answers every call. *)
Definition world := forall X, E X -> X.

Fixpoint run {A} (w : world) (p : prog A) : list entry * outcome A :=
  match p with
  | Ret a => ([], Returned a)
  | Throw e => ([], Raised e)
  | SysExit msg => ([], Exited msg)
  | Vis ev k =>
      let x := w _ ev in
      let (t, o) := run w (k x) in (Entry ev x :: t, o)
  end.
End Prog.

Arguments Ret {E A} a.
Arguments Throw {E A} e.
Arguments SysExit {E A} msg.
Arguments Returned {A} a.
Arguments Raised {A} e.
Arguments Exited {A} msg.
Arguments Vis {E A X} ev k.
Arguments call {E X} ev.
Arguments call_r {E X} ev.
Arguments lift E {A} r.
Arguments pbind {E A B} p f.
Arguments try_except {E A} p h.
Arguments try_finally {E A} p f.
Arguments run {E A} w p.
Arguments Entry {E X} ev x.

Notation "x <-- p ;; k" := (pbind p (fun x => k))
  (at level 61, p at next level, right associativity).
Notation "p ;;; k" := (pbind p (fun _ => k))
  (at level 61, right associativity).

(** ** [str.isdigit] and [int] *)

Section Unicode.
Context `{Library}.

Definition is_ascii_digit (c : char) : bool := between 48 57 c.

(** [Py_UNICODE_ISDIGIT]. *)
Definition isdigit_char (c : char) : bool :=
  if (c <? 128)%N then is_ascii_digit c else ucd_isdigit c.

(** [s.isdigit()]: at least one character, and all of them digits. *)
Definition isdigit (s : str) : bool :=
  match s with
  | [] => false
  | _ :: _ => forallb isdigit_char s
  end.

(** [Py_UNICODE_TODECIMAL]. *)
Definition decimal_char (c : char) : option Z :=
  if (c <? 128)%N
  then if is_ascii_digit c then Some (Z.of_N (c - 48)) else None
  else ucd_decimal c.

Fixpoint int_digits (s : str) (acc : Z) : result Z :=
  match s with
  | [] => Ok acc
  | c :: r =>
      match decimal_char c with
      | Some d => int_digits r (10 * acc + d)
      | None => raise ValueError
      end
  end.

(** [int(s)] for a string of digits (no sign, blank or underscore, which is
    how its one call site uses it): the base-10 value, [ValueError] when a
    character has no decimal value, when the string is empty, and when it
    has more than [int_max_str_digits] digits. *)
Definition py_int (s : str) : result Z :=
  match s with
  | [] => raise ValueError
  | _ :: _ =>
      value <- int_digits s 0 ;;
      if len s <=? int_max_str_digits then Ok value else raise ValueError
  end.
End Unicode.

(** ** convert_excel.py *)

Module Args.
(** What [parse_args] returns. *)
Record Namespace := {
  json_path : option path;
  book_code_arg : option str;
  book_code : option str;
  base_book_code : str;
  volume : option Z;
  page : Z;
  output_dir : path;
  include_empty : bool;
  write_excel : bool;
  volume_pad : Z;
  page_pad : Z;
  column_pad : Z
}.
End Args.

Module ConvertExcel.
Section WithLibrary.
Context `{Library}.

Definition DEFAULT_BASE_BOOK_CODE : str := u8 "BOOK_BASE".

Definition underscore : char := 95%N.

(** [not s] for a str. *)
Definition is_empty (s : str) : bool :=
  match s with [] => true | _ :: _ => false end.

(** [x or y] where [x] is a str or [None]. *)
Definition or_str (x : option str) (y : str) : str :=
  match x with
  | Some (c :: r) => c :: r
  | _ => y
  end.

(** Lines 125-126: [Path(json_data.get("input_path") or json_path.stem).stem]. *)
Definition candidate_stem (json_data : json) (json_path : path) : result str :=
  input_path <- dict_get json_data (u8 "input_path") JNull ;;
  let candidate_path :=
    if truthy input_path then input_path else JStr (path_stem json_path) in
  match candidate_path with
  | JStr s => Ok (path_stem (Path s))
  | _ => raise TypeError
  end.

Definition infer_book_and_volume (json_data : json) (json_path : path)
  : result (str * Z) :=
  candidate_stem <- candidate_stem json_data json_path ;;
  let parts := split underscore candidate_stem in
  let volume := 1 in
  if negb (len parts =? 0) && isdigit (last parts [])
  then
    volume <- py_int (last parts []) ;;
    let joined := join (u8 "_") (removelast parts) in
    let book_code := if is_empty joined then candidate_stem else joined in
    Ok (book_code, volume)
  else
    Ok (candidate_stem, volume).

Definition build_id (book_code : str) (volume page column_idx : Z)
    (volume_pad page_pad column_pad : Z) : str :=
  let volume_part := zfill (str_int volume) volume_pad in
  let page_part := zfill (str_int page) page_pad in
  let column_part := zfill (str_int column_idx) column_pad in
  book_code ++ u8 "." ++ volume_part ++ u8 "." ++ page_part ++ u8 "." ++ column_part.

Section Loop.
Variables (rec_polys : json) (book_code : str) (volume page : Z)
  (include_empty : bool) (volume_pad page_pad column_pad : Z)
  (image_name : str).

(** [text.strip() if isinstance(text, str) else ""]. *)
Definition cleaned_text (text : json) : str :=
  match text with
  | JStr s => strip s
  | _ => []
  end.

(** [rec_polys[idx - 1] if idx - 1 < len(rec_polys) else None]. *)
Definition box_at (idx : Z) : result json :=
  n <- py_len rec_polys ;;
  if idx - 1 <? n then py_getitem rec_polys (idx - 1) else Ok JNull.

(** The body of the [for] loop of [load_rows], over the items that
    [enumerate] has still to give, [idx] being the index of the first. *)
Fixpoint for_each (items : list json) (idx : Z) (rows : list row)
  : result (list row) :=
  match items with
  | [] => Ok rows
  | text :: rest =>
      let cleaned := cleaned_text text in
      if is_empty cleaned && negb include_empty
      then for_each rest (idx + 1) rows
      else
        box <- box_at idx ;;
        let row := {|
          ID := build_id book_code volume page idx
                  volume_pad page_pad column_pad;
          Image_name := image_name;
          Han_Char := cleaned;
          Image_Box := if truthy box then json_dumps box else []
        |} in
        for_each rest (idx + 1) (rows ++ [row])
  end.
End Loop.

Definition load_rows (json_data : json) (book_code : str) (volume page : Z)
    (include_empty : bool) (volume_pad page_pad column_pad : Z)
  : result (list row) :=
  rec_texts <- dict_get json_data (u8 "rec_texts") (JArr []) ;;
  rec_polys <- dict_get json_data (u8 "rec_polys") (JArr []) ;;
  let image_name :=
    book_code ++ u8 "_page_" ++ zfill (str_int page) page_pad ++ u8 ".png" in
  items <- py_iter rec_texts ;;
  for_each rec_polys book_code volume page include_empty
    volume_pad page_pad column_pad image_name items 1 [].

(** *** The entry point and its external calls *)

Inductive event : Type -> Type :=
| Input (prompt : str) : event (option str)
    (* [input(prompt)]; [None] when stdin is at its end ([EOFError]) *)
| Exists (p : path) : event bool
| ReadText (p : path) (encoding : str) : event (result str)
| Print (s : str) : event unit
| PrintErr (s : str) : event unit
| Mkdir (p : path) : event (result unit)
    (* [p.mkdir(parents=True, exist_ok=True)] *)
| OpenWrite (p : path) (encoding : str) : event (result unit)
    (* [p.open("w", ...)]: the file is created or emptied *)
| Write (p : path) (text : str) : event (result unit)
| ImportPandas : event (option str)
    (* [Some m] when the import raises [ImportError(m)] *)
| ToExcel (p : path) (columns : list str) (rows : list row)
    : event (result unit).

Definition ensure_json_path (args : Args.Namespace) : prog event path :=
  match Args.json_path args with
  | Some p => Ret p
  | None =>
      answer <-- call (Input
        (u8 "Enter path to OCR JSON (e.g. output/giam_cuong_7_res.json): ")) ;;
      let user_input :=
        match answer with Some s => strip s | None => [] end in
      if is_empty user_input
      then SysExit (u8 "JSON path is required to proceed.")
      else Ret (Path user_input)
  end.

Definition write_csv (rows : list row) (columns : list str)
    (output_path : path) : prog event unit :=
  call_r (Mkdir (path_parent output_path)) ;;;
  call_r (OpenWrite output_path (u8 "utf-8-sig")) ;;;
  text <-- lift event (csv_text columns rows) ;;
  call_r (Write output_path text).

Definition write_excel (rows : list row) (columns : list str)
    (output_path : path) : prog event unit :=
  imported <-- call ImportPandas ;;
  match imported with
  | Some exc =>
      call (PrintErr
        (u8 "[WARN] pandas is required to write Excel files (" ++ exc
           ++ u8 "). Skipping .xlsx export."))
  | None =>
      call_r (Mkdir (path_parent output_path)) ;;;
      call_r (ToExcel output_path columns rows)
  end.

Definition columns : list str :=
  [u8 "ID"; u8 "Image_name"; u8 "Han Char"; u8 "Image Box"].

Definition main (args : Args.Namespace) : prog event unit :=
  json_path <-- ensure_json_path args ;;
  found <-- call (Exists json_path) ;;
  if negb found
  then SysExit (u8 "Input JSON not found: " ++ path_str json_path)
  else
    text <-- call_r (ReadText json_path (u8 "utf-8")) ;;
    json_data <-- lift event (json_loads text) ;;
    inferred <-- lift event (infer_book_and_volume json_data json_path) ;;
    let inferred_book := fst inferred in
    let inferred_volume := snd inferred in
    let book_code :=
      or_str (Args.book_code args)
        (or_str (Args.book_code_arg args)
           (or_str (Some inferred_book) (Args.base_book_code args))) in
    let volume :=
      match Args.volume args with
      | Some v => v
      | None => inferred_volume
      end in
    let page := Args.page args in
    rows <-- lift event (load_rows json_data book_code volume page
               (Args.include_empty args) (Args.volume_pad args)
               (Args.page_pad args) (Args.column_pad args)) ;;
    match rows with
    | [] => call (PrintErr (u8 "No rows generated (all OCR entries were empty)."))
    | _ :: _ =>
        let base_name :=
          book_code ++ u8 "_" ++ zfill (str_int volume) (Args.volume_pad args) in
        let output_dir := Args.output_dir args in
        let csv_path := path_join output_dir (base_name ++ u8 ".csv") in
        let excel_path := path_join output_dir (base_name ++ u8 ".xlsx") in
        write_csv rows columns csv_path ;;;
        (if Args.write_excel args
         then write_excel rows columns excel_path
         else Ret tt) ;;;
        call (Print (u8 "CSV written to " ++ path_str csv_path)) ;;;
        if Args.write_excel args
        then call (Print (u8 "Excel written to " ++ path_str excel_path))
        else Ret tt
    end.
End WithLibrary.
End ConvertExcel.

(** ** PyMuPDF and PIL handles shared by the two PDF scripts *)

Module Fitz.
(** An open document; [len(doc)] is [page_count]. *)
Record document := { handle : N; page_count : Z }.
Definition page := N.
Definition pixmap := N.
Definition image := N.
Definition ndarray := N.

(** [str(e)] of a caught exception. *)
Definition exn_text (e : exn) : str :=
  match exn_msg e with
  | Some m => m
  | None => []
  end.
End Fitz.

(** ** convert_image.py *)

Module ConvertImage.
Import Fitz.

(** The calls of [convert_pdf_page_to_image]. [Print] is a [print] that
    the console takes: a console that refuses the text is not modelled
    here. *)
Inductive event : Type -> Type :=
| FitzOpen (pdf_path : str) : event (result document)
| LoadPage (doc : document) (page_number : Z) : event (result page)
| GetPixmap (pg : page) (zoom : float) : event (result pixmap)
| FromBytes (pix : pixmap) : event (result image)
| Save (img : image) (output_image_path : str) : event (result unit)
| Print (s : str) : event unit
| Close (doc : document) : event unit.

Definition convert_pdf_page_to_image (pdf_path : str) (page_number : Z)
    (output_image_path : str) (zoom : float) : prog event unit :=
  try_except
    (doc <-- call_r (FitzOpen pdf_path) ;;
     if (0 <=? page_number) && (page_number <? page_count doc)
     then
       page <-- call_r (LoadPage doc page_number) ;;
       pix <-- call_r (GetPixmap page zoom) ;;
       img <-- call_r (FromBytes pix) ;;
       call_r (Save img output_image_path) ;;;
       call (Print (u8 "Successfully converted page "
                      ++ str_int (page_number + 1) ++ u8 " to "
                      ++ output_image_path)) ;;;
       call (Close doc)
     else
       call (Print (u8 "Error: Page number " ++ str_int page_number
                      ++ u8 " is out of range.")))
    (fun e =>
       match exn_cls e with
       | FileNotFoundError =>
           Some (call (Print (u8 "Error: PDF file not found at " ++ pdf_path)))
       | _ =>
           Some (call (Print (u8 "An error occurred: " ++ exn_text e)))
       end).
End ConvertImage.

(** ** Source/pdf_to_preprocessed_image.py *)

Module PdfToPreprocessedImage.
Import Fitz.

Inductive event : Type -> Type :=
| OsPathExists (pdf_path : str) : event bool
| FitzOpen (pdf_path : str) : event (result document)
| LoadPage (doc : document) (page_num : Z) : event (result page)
| GetPixmap (pg : page) (zoom : float) : event (result pixmap)
| FromBytes (pix : pixmap) : event (result image)
| NpArray (img : image) : event (result ndarray)
| CvtColor (rgb_array : ndarray) : event (result ndarray)
| Close (doc : document) : event unit.

Definition convert_pdf_to_image (pdf_path : str) (page_num : Z)
    (zoom : float) : prog event ndarray :=
  found <-- call (OsPathExists pdf_path) ;;
  if negb found
  then Throw (Exn FileNotFoundError
                (Some (u8 "Không tìm thấy tệp PDF tại: " ++ pdf_path)))
  else if PrimFloat.leb zoom 0%float
  then Throw (Exn ValueError (Some (u8 "Giá trị zoom phải lớn hơn 0.")))
  else
    doc <-- call_r (FitzOpen pdf_path) ;;
    try_finally
      (if negb ((0 <=? page_num) && (page_num <? page_count doc))
       then Throw (Exn ValueError
              (Some (u8 "Số trang không hợp lệ. PDF có "
                       ++ str_int (page_count doc) ++ u8 " trang, "
                       ++ u8 "nhưng bạn yêu cầu trang "
                       ++ str_int (page_num + 1) ++ u8 ".")))
       else
         page <-- call_r (LoadPage doc page_num) ;;
         pix <-- call_r (GetPixmap page zoom) ;;
         img <-- call_r (FromBytes pix) ;;
         rgb_array <-- call_r (NpArray img) ;;
         bgr_array <-- call_r (CvtColor rgb_array) ;;
         Ret bgr_array)
      (call (Close doc)).
End PdfToPreprocessedImage.

(** ** A concrete library for evaluating the definitions

    POSIX-flavoured paths kept as strings, a table of a few code points
    beyond ASCII, and small codecs. It is one possible [Library]; the
    theorems hold for every one. *)

Module Sample.
Definition slash : char := 47%N.
Definition dot : char := 46%N.

(** Position of the last [c] in [s], counted from the left. *)
Fixpoint rfind (c : char) (s : str) (pos : nat) (found : option nat) : option nat :=
  match s with
  | [] => found
  | x :: r => rfind c r (S pos) (if (x =? c)%N then Some pos else found)
  end.

(** [PurePosixPath(s).name]: the last component that is neither empty nor
    a single dot. *)
Definition name (s : str) : str :=
  last (filter (fun p => negb (ConvertExcel.is_empty p || str_eqb p [dot]))
          (split slash s)) [].

(** [PurePosixPath(s).stem]: the name without its last suffix. *)
Definition stem (s : str) : str :=
  let n := name s in
  match rfind dot n 0%nat None with
  | Some i =>
      if (0 <? i)%nat && (i <? List.length n - 1)%nat then firstn i n else n
  | None => n
  end.

Definition parent (s : str) : str :=
  join [slash] (removelast (split slash s)).

(** Superscript two is a digit without a decimal value; the fullwidth
    digits have both. *)
Definition fullwidth_digits : list (char * Z) :=
  [ (65296%N, 0); (65297%N, 1); (65298%N, 2); (65299%N, 3); (65300%N, 4);
    (65301%N, 5); (65302%N, 6); (65303%N, 7); (65304%N, 8); (65305%N, 9) ].

Definition decimal_beyond_ascii (c : char) : option Z :=
  option_map snd (find (fun kv => (fst kv =? c)%N) fullwidth_digits).

Definition isdigit_beyond_ascii (c : char) : bool :=
  (178 =? c)%N
  || match decimal_beyond_ascii c with Some _ => true | None => false end.

(** Serialisation of nulls, booleans, integers and arrays of them, as
    [json.dumps] writes them. *)
Fixpoint dumps (v : json) : str :=
  match v with
  | JNull => u8 "null"
  | JBool true => u8 "true"
  | JBool false => u8 "false"
  | JInt z => str_int z
  | JArr l =>
      u8 "[" ++
      (fix items (l : list json) : str :=
         match l with
         | [] => []
         | x :: r =>
             match r with
             | [] => dumps x
             | _ :: _ => dumps x ++ u8 ", " ++ items r
             end
         end) l ++ u8 "]"
  | _ => []
  end.

Definition crlf : str := [13%N; 10%N].

(** Comma-separated lines without quoting. *)
Definition csv (columns : list str) (rows : list row) : result str :=
  Ok (join (u8 ",") columns ++ crlf ++
      flat_map (fun r =>
        join (u8 ",") [ID r; Image_name r; Han_Char r; Image_Box r] ++ crlf) rows).

(** The library whose [json.loads] gives [loads]. *)
Definition library (loads : str -> result json) : Library := {|
  ucd_isdigit := isdigit_beyond_ascii;
  ucd_decimal := decimal_beyond_ascii;
  Path := fun s => s;
  path_stem := stem;
  path_parent := parent;
  path_join := fun d n => d ++ [slash] ++ n;
  json_loads := loads;
  json_dumps := dumps;
  csv_text := csv
|}.

(** An OCR result with three lines, the second blank, and two polygons. *)
Definition ocr_json : json :=
  JObj [ (u8 "input_path", JStr (u8 "content/giam_cuong_7.png"));
         (u8 "rec_texts", JArr [JStr (u8 " 天地 "); JStr (u8 "  "); JStr (u8 "玄黃")]);
         (u8 "rec_polys", JArr [JArr [JArr [JInt 1; JInt 2]; JArr [JInt 3; JInt 4]];
                                JArr [JArr [JInt 5; JInt 6]]]) ].

(** An OCR result whose entries are all blank. *)
Definition blank_json : json :=
  JObj [ (u8 "rec_texts", JArr [JStr (u8 "   "); JNull]) ].

(** A string of 4301 digits, one more than [int] reads, and OCR results whose
    [input_path] is that string, alone and as the last segment. *)
Definition long_digits : str := repeat 55%N 4301.

Definition long_stem_json : json :=
  JObj [ (u8 "input_path", JStr long_digits) ].

Definition long_volume_json : json :=
  JObj [ (u8 "input_path", JStr (u8 "book_" ++ long_digits)) ].

(** The content of the input file in the sample worlds; the sample
    [json.loads] knows this one text. *)
Definition file_text : str := u8 "<OCR JSON>".

Definition loads_as (v : json) (text : str) : result json :=
  if str_eqb text file_text then Ok v else raise ValueError.

Definition lib : Library := library (loads_as ocr_json).
Definition blank_lib : Library := library (loads_as blank_json).

(** [convert_excel.py output/giam_cuong_7_res.json --book-code LSE_001
    --volume 4 --page 1], with or without [--write-excel]. *)
Definition args (excel : bool) : Args.Namespace :=
  Args.Build_Namespace
    (Some (u8 "output/giam_cuong_7_res.json"))  (* json_path *)
    None                                        (* book_code_arg *)
    (Some (u8 "LSE_001"))                       (* --book-code *)
    ConvertExcel.DEFAULT_BASE_BOOK_CODE         (* --base-book-code *)
    (Some 4)                                    (* --volume *)
    1                                           (* --page *)
    (u8 "output")                               (* --output-dir *)
    false                                       (* --include-empty *)
    excel                                       (* --write-excel *)
    3 3 2.                                      (* the three pads *)

(** A world where the input file exists or not, pandas is installed
    ([None]) or missing ([Some message]), and every output operation
    succeeds. *)
Definition world_of (found : bool) (pandas : option str)
  : world ConvertExcel.event :=
  fun X ev =>
    match ev in ConvertExcel.event X return X with
    | ConvertExcel.Input _ => None
    | ConvertExcel.Exists _ => found
    | ConvertExcel.ReadText _ _ =>
        if found then Ok file_text else raise FileNotFoundError
    | ConvertExcel.Print _ => tt
    | ConvertExcel.PrintErr _ => tt
    | ConvertExcel.Mkdir _ => Ok tt
    | ConvertExcel.OpenWrite _ _ => Ok tt
    | ConvertExcel.Write _ _ => Ok tt
    | ConvertExcel.ImportPandas => pandas
    | ConvertExcel.ToExcel _ _ _ => Ok tt
    end.

(** A PDF of five pages, and worlds where it opens. *)
Definition five_pages : Fitz.document :=
  {| Fitz.handle := 1%N; Fitz.page_count := 5 |}.

Definition pdf_world : world ConvertImage.event :=
  fun X ev =>
    match ev in ConvertImage.event X return X with
    | ConvertImage.FitzOpen _ => Ok five_pages
    | ConvertImage.LoadPage _ _ => Ok 1%N
    | ConvertImage.GetPixmap _ _ => Ok 1%N
    | ConvertImage.FromBytes _ => Ok 1%N
    | ConvertImage.Save _ _ => Ok tt
    | ConvertImage.Print _ => tt
    | ConvertImage.Close _ => tt
    end.

Definition pdf_array_world : world PdfToPreprocessedImage.event :=
  fun X ev =>
    match ev in PdfToPreprocessedImage.event X return X with
    | PdfToPreprocessedImage.OsPathExists _ => true
    | PdfToPreprocessedImage.FitzOpen _ => Ok five_pages
    | PdfToPreprocessedImage.LoadPage _ _ => Ok 1%N
    | PdfToPreprocessedImage.GetPixmap _ _ => Ok 1%N
    | PdfToPreprocessedImage.FromBytes _ => Ok 1%N
    | PdfToPreprocessedImage.NpArray _ => Ok 1%N
    | PdfToPreprocessedImage.CvtColor _ => Ok 1%N
    | PdfToPreprocessedImage.Close _ => tt
    end.
End Sample.

(** * Properties *)

(** ** Vocabulary of the specification *)

Module Spec.

(** The value a string of ASCII digits denotes in base ten. *)
Definition decimal_value (s : str) : Z :=
  fold_left (fun acc c => 10 * acc + (Z.of_N c - 48)) s 0.

Definition ascii_digits (s : str) : bool := forallb is_ascii_digit s.

(** A non-negative integer literal: one or more ASCII digits. *)
Definition nat_literal (s : str) : bool :=
  negb (ConvertExcel.is_empty s) && ascii_digits s.

(** The decimal rendering of [n], zero-padded on the left to [w] characters:
    the sign if any, then as many zeros as the width still asks for, then the
    digits. *)
Definition zero_padded (n w : Z) : str :=
  let sign := if n <? 0 then [minus_sign] else [] in
  let digits := str_N (Z.abs_N n) in
  sign ++ repeat zero_char (Z.to_nat (w - len sign - len digits)) ++ digits.

(** The inference rule as the specification words it. *)
Definition inferred_by_rule (stem : str) : str * Z :=
  let parts := split ConvertExcel.underscore stem in
  if nat_literal (last parts [])
  then (join (u8 "_") (removelast parts), decimal_value (last parts []))
  else (stem, 1).

(** [enumerate(l, start)]. *)
Fixpoint enumerate {A} (l : list A) (start : Z) : list (Z * A) :=
  match l with
  | [] => []
  | x :: r => (start, x) :: enumerate r (start + 1)
  end.

(** An entry that is a string whose trimmed text is not empty. *)
Definition has_text (v : json) : bool :=
  match v with
  | JStr s => negb (ConvertExcel.is_empty (strip s))
  | _ => false
  end.

Definition kept (include_empty : bool) (text : json) : bool :=
  include_empty || has_text text.

(** The entries that give a row, each with its 1-based position. *)
Definition survivors (include_empty : bool) (items : list json) : list (Z * json) :=
  filter (fun it => kept include_empty (snd it)) (enumerate items 1).

(** The items that [load_rows] walks through. *)
Definition items_of (json_data : json) : result (list json) :=
  rec_texts <- dict_get json_data (u8 "rec_texts") (JArr []) ;;
  py_iter rec_texts.

(** The polygon at 1-based position [i], [None] (JSON null) beyond the list. *)
Definition polygon_at (polys : list json) (i : Z) : json :=
  match nth_error polys (Z.to_nat (i - 1)) with
  | Some b => b
  | None => JNull
  end.

Section Rows.
Context `{Library}.

(** The row of the entry [it] = (position, text): its ID is built from the
    position, its polygon is whatever the guarded access [box_at] gives. *)
Definition row_for (rec_polys : json) (book_code : str) (volume page : Z)
    (volume_pad page_pad column_pad : Z) (image_name : str)
    (it : Z * json) (r : row) : Prop :=
  exists box,
    ConvertExcel.box_at rec_polys (fst it) = Ok box /\
    r = {| ID := ConvertExcel.build_id book_code volume page (fst it)
                   volume_pad page_pad column_pad;
           Image_name := image_name;
           Han_Char := ConvertExcel.cleaned_text (snd it);
           Image_Box := if truthy box then json_dumps box else [] |}.
End Rows.

Section Traces.
Context `{Library}.
Import ConvertExcel.

(** A call that reads or changes a file or a directory. *)
Definition touches_files (e : entry event) : bool :=
  match e with
  | Entry ev _ =>
      match ev with
      | ReadText _ _ | Mkdir _ | OpenWrite _ _ | Write _ _ | ToExcel _ _ _ => true
      | _ => false
      end
  end.

(** A call that creates or changes a file or a directory. *)
Definition writes_files (e : entry event) : bool :=
  match e with
  | Entry ev _ =>
      match ev with
      | Mkdir _ | OpenWrite _ _ | Write _ _ | ToExcel _ _ _ => true
      | _ => false
      end
  end.

(** What a run wrote through [csv.DictWriter]: each file with its text. *)
Definition csv_written (t : list (entry event)) : list (path * str) :=
  flat_map (fun e =>
    match e with
    | Entry ev _ =>
        match ev with
        | Write p text => [(p, text)]
        | _ => []
        end
    end) t.

(** The book code and the volume [main] settles on. *)
Definition chosen_book_code (args : Args.Namespace) (inferred_book : str) : str :=
  or_str (Args.book_code args)
    (or_str (Args.book_code_arg args)
       (or_str (Some inferred_book) (Args.base_book_code args))).

Definition chosen_volume (args : Args.Namespace) (inferred_volume : Z) : Z :=
  match Args.volume args with
  | Some v => v
  | None => inferred_volume
  end.
End Traces.

(** A call of [convert_pdf_page_to_image] that renders a page or saves an
    image. *)
Definition renders_or_saves (e : entry ConvertImage.event) : bool :=
  match e with
  | Entry ev _ =>
      match ev with
      | ConvertImage.LoadPage _ _ | ConvertImage.GetPixmap _ _
      | ConvertImage.FromBytes _ | ConvertImage.Save _ _ => true
      | _ => false
      end
  end.

(** A call of [convert_pdf_to_image] that renders a page. *)
Definition renders (e : entry PdfToPreprocessedImage.event) : bool :=
  match e with
  | Entry ev _ =>
      match ev with
      | PdfToPreprocessedImage.LoadPage _ _ | PdfToPreprocessedImage.GetPixmap _ _
      | PdfToPreprocessedImage.FromBytes _ | PdfToPreprocessedImage.NpArray _
      | PdfToPreprocessedImage.CvtColor _ => true
      | _ => false
      end
  end.

End Spec.

(** ** convert_image.py: all pages, and the script's entry point *)

Module ConvertImageAll.
Import Fitz.

(** The calls of [convert_all_pdf_pages_to_images]; [print] raises when the
    console cannot take the text. *)
Inductive event : Type -> Type :=
| OsPathExists (p : str) : event bool
| Makedirs (p : str) : event (result unit)
| FitzOpen (pdf_path : str) : event (result document)
| LoadPage (doc : document) (page_num : Z) : event (result page)
| GetPixmap (pg : page) (zoom : float) : event (result pixmap)
| FromBytes (pix : pixmap) : event (result image)
| Save (img : image) (output_filename : str) : event (result unit)
| Print (s : str) : event (result unit)
| Close (doc : document) : event unit.

(** [range(n)]. *)
Definition range (n : Z) : list Z := List.map Z.of_nat (seq 0 (Z.to_nat n)).

(** [for x in xs: body(x)]. *)
Fixpoint for_each {E : Type -> Type} {A : Type} (xs : list A)
    (body : A -> prog E unit) : prog E unit :=
  match xs with
  | [] => Ret tt
  | x :: rest => body x ;;; for_each rest body
  end.

Section WithOs.
(** [os.path.join] of the platform. *)
Variable os_path_join : str -> str -> str.

(** [f"page_{page_num + 1:03d}.{format}"] under the output folder. *)
Definition output_filename (output_folder format : str) (page_num : Z) : str :=
  os_path_join output_folder
    (u8 "page_" ++ zfill (str_int (page_num + 1)) 3 ++ u8 "." ++ format).

(** The body of the loop over the pages. *)
Definition save_page (doc : document) (output_folder format : str)
    (zoom : float) (page_num : Z) : prog event unit :=
  page <-- call_r (LoadPage doc page_num) ;;
  pix <-- call_r (GetPixmap page zoom) ;;
  img <-- call_r (FromBytes pix) ;;
  call_r (Save img (output_filename output_folder format page_num)) ;;;
  call_r (Print (u8 "Saved " ++ output_filename output_folder format page_num)).

Definition convert_all_pdf_pages_to_images (pdf_path output_folder format : str)
    (zoom : float) : prog event unit :=
  try_except
    (found <-- call (OsPathExists output_folder) ;;
     (if negb found then call_r (Makedirs output_folder) else Ret tt) ;;;
     doc <-- call_r (FitzOpen pdf_path) ;;
     for_each (range (page_count doc))
       (save_page doc output_folder format zoom) ;;;
     call (Close doc) ;;;
     call_r (Print (10%N :: u8 "All pages converted and saved in the '"
                      ++ output_folder ++ u8 "' folder.")))
    (fun e =>
       match exn_cls e with
       | FileNotFoundError =>
           Some (call_r (Print (u8 "Error: PDF file not found at " ++ pdf_path)))
       | _ =>
           Some (call_r (Print (u8 "An error occurred: " ++ exn_text e)))
       end).
End WithOs.

(** The configuration at the end of the script, and its [main]. *)
Definition PDF_FILE : str := u8 "data/giam_cuong.pdf".
Definition OUTPUT_FILE : str := u8 "content/giam_cuong.png".
Definition PAGE_TO_CONVERT : Z := 6.

Definition main : prog ConvertImage.event unit :=
  ConvertImage.convert_pdf_page_to_image PDF_FILE PAGE_TO_CONVERT OUTPUT_FILE 2%float.

End ConvertImageAll.

(** ** [int] on any string *)

Module PyInt.
Section WithLibrary.
Context `{Library}.

(** What a character is for the parser of [int(s)] in base ten, once the
    string is brought to ASCII: whitespace beyond ASCII becomes a blank, a
    decimal digit beyond ASCII the ASCII digit of its value, anything else
    beyond ASCII is invalid. *)
Inductive token :=
| Digit (d : Z)
| Sign (negative : bool)
| Underscore
| Blank
| Invalid.

(** The blanks of the C locale: tab, line feed, vertical tab, form feed,
    carriage return and space. *)
Definition c_isspace (c : char) : bool := between 9 13 c || (32 =? c)%N.

Definition token_of (c : char) : token :=
  if (c <? 127)%N then
    if is_ascii_digit c then Digit (Z.of_N (c - 48))
    else if (plus_sign =? c)%N then Sign false
    else if (minus_sign =? c)%N then Sign true
    else if (95 =? c)%N then Underscore
    else if c_isspace c then Blank
    else Invalid
  else if isspace c then Blank
  else match ucd_decimal c with
       | Some d => if (0 <=? d) && (d <=? 9) then Digit d else Invalid
       | None => Invalid
       end.

Definition is_blank (t : token) : bool :=
  match t with Blank => true | _ => false end.

Fixpoint skip_blanks (ts : list token) : list token :=
  match ts with
  | Blank :: r => skip_blanks r
  | _ => ts
  end.

(** After a first digit: more digits, each possibly preceded by one
    underscore, then blanks up to the end. *)
Fixpoint int_tail (ts : list token) (acc : Z) : option Z :=
  match ts with
  | [] => Some acc
  | Digit d :: r => int_tail r (10 * acc + d)
  | Underscore :: Digit d :: r => int_tail r (10 * acc + d)
  | Blank :: r => if forallb is_blank r then Some acc else None
  | _ => None
  end.

Definition int_body (ts : list token) : option Z :=
  match ts with
  | Digit d :: r => int_tail r d
  | _ => None
  end.

Definition int_signed (ts : list token) : option Z :=
  match ts with
  | Sign negative :: r =>
      option_map (fun v => if negative then - v else v) (int_body r)
  | _ => int_body ts
  end.

Definition is_digit (t : token) : bool :=
  match t with Digit _ => true | _ => false end.

(** The limit on the digits of a decimal literal. *)
Definition max_str_digits : Z := int_max_str_digits.

(** [int(s)] for a str: blanks, an optional sign, digits with single
    underscores between them, blanks; [ValueError] otherwise, and for more
    than [max_str_digits] digits. *)
Definition int_of_str (s : str) : result Z :=
  let ts := List.map token_of s in
  match int_signed (skip_blanks ts) with
  | Some v =>
      if len (filter is_digit ts) <=? max_str_digits then Ok v
      else raise ValueError
  | None => raise ValueError
  end.
End WithLibrary.
End PyInt.

(** ** Source/pdf_to_preprocessed_image.py: the prompt, the filters and the
    entry point *)

Module PdfMain.
Import Fitz.

(** The calls of the script: those of [convert_pdf_to_image], and the
    console, the directories, OpenCV and the image files. [Print] is a
    [print] that the console takes, and [Input] an [input] that ends with a
    line or at the end of the input: a console that refuses a text, and an
    interrupt at the prompt, are not modelled here. *)
Inductive event : Type -> Type :=
| Conv {X : Type} (ev : PdfToPreprocessedImage.event X) : event X
| Input (prompt : str) : event (option str)
| Print (s : str) : event unit
| Makedirs (p : str) : event (result unit)
| CvtGray (image_data : ndarray) : event (result ndarray)
| GaussianBlur (gray : ndarray) (ksize sigma : Z) : event (result ndarray)
| AdaptiveThreshold (blurred : ndarray) (max_value block_size c : Z)
    : event (result ndarray)
| GetStructuringElement (ksize : Z) : event (result ndarray)
| Dilate (binary kernel : ndarray) (iterations : Z) : event (result ndarray)
| Imwrite (filename : str) (img : ndarray) : event (result bool)
| Abspath (p : str) : event str.

(** A program over the calls of [convert_pdf_to_image], run among the calls
    of the script. *)
Fixpoint embed {A : Type} (p : prog PdfToPreprocessedImage.event A)
  : prog event A :=
  match p with
  | Ret a => Ret a
  | Throw e => Throw e
  | SysExit msg => SysExit msg
  | Vis ev k => Vis (Conv ev) (fun x => embed (k x))
  end.

(** [input()] at the end of stdin. *)
Definition EOFError : exn := Exn OtherError (Some (u8 "EOF when reading a line")).

Section WithLibrary.
Context `{Library}.

Definition _prompt_page_number (total_pages : Z) : prog event (option Z) :=
  try_except
    (answer <-- call (Input (u8 "Nhập số trang muốn chuyển đổi (1-"
                               ++ str_int total_pages ++ u8 "): ")) ;;
     match answer with
     | None => Throw EOFError
     | Some line =>
         let user_input := strip line in
         if ConvertExcel.is_empty user_input
         then call (Print (u8 "Bạn chưa nhập số trang.")) ;;; Ret None
         else
           page_number <-- lift event (PyInt.int_of_str user_input) ;;
           let page_index := page_number - 1 in
           if negb ((0 <=? page_index) && (page_index <? total_pages))
           then call (Print (u8 "Số trang nằm ngoài phạm vi cho phép.")) ;;;
                Ret None
           else Ret (Some page_index)
     end)
    (fun e =>
       match exn_cls e with
       | ValueError =>
           Some (call (Print
                   (u8 "Giá trị trang không hợp lệ. Vui lòng nhập số nguyên.")) ;;;
                 Ret None)
       | _ => None
       end).

Definition preprocess_image_for_ocr (image_data : option ndarray)
  : prog event ndarray :=
  match image_data with
  | None => Throw (Exn ValueError (Some (u8 "Dữ liệu ảnh đầu vào không hợp lệ.")))
  | Some image_data =>
      gray <-- call_r (CvtGray image_data) ;;
      blurred <-- call_r (GaussianBlur gray 9 0) ;;
      binary <-- call_r (AdaptiveThreshold blurred 255 21 8) ;;
      kernel <-- call_r (GetStructuringElement 3) ;;
      strengthened <-- call_r (Dilate binary kernel 1) ;;
      Ret strengthened
  end.

(** [os.path.join], [os.path.basename] and [os.path.splitext(_)[0]] of the
    platform. *)
Variables (os_path_join : str -> str -> str) (os_path_basename : str -> str)
  (os_path_splitext_root : str -> str).

Definition INPUT_PDF_PATH : str := os_path_join (u8 "data") (u8 "giam_cuong.pdf").

(** The names of the two output files for a page index. *)
Definition raw_filename (page_index : Z) : str :=
  os_path_splitext_root (os_path_basename INPUT_PDF_PATH)
    ++ u8 "_" ++ str_int (page_index + 1) ++ u8 ".png".

Definition raw_output_path (page_index : Z) : str :=
  os_path_join (u8 "content") (raw_filename page_index).

Definition processed_output_path (page_index : Z) : str :=
  os_path_join (u8 "Processed") (raw_filename page_index).

(** The [try] block at the end of [main]. *)
Definition convert_and_save (page_index : Z) : prog event unit :=
  try_except
    (image_data <-- embed (PdfToPreprocessedImage.convert_pdf_to_image
                             INPUT_PDF_PATH page_index 2%float) ;;
     processed_image <-- preprocess_image_for_ocr (Some image_data) ;;
     saved <-- call_r (Imwrite (raw_output_path page_index) image_data) ;;
     if negb saved
     then Throw (Exn OSError (Some (u8 "Không thể lưu ảnh gốc trước khi xử lý.")))
     else
       saved' <-- call_r (Imwrite (processed_output_path page_index)
                            processed_image) ;;
       if negb saved'
       then Throw (Exn OSError (Some (u8 "Không thể lưu ảnh đầu ra.")))
       else
         raw_abs <-- call (Abspath (raw_output_path page_index)) ;;
         processed_abs <-- call (Abspath (processed_output_path page_index)) ;;
         call (Print (u8 "Đã xử lý xong:" ++ 10%N :: u8 "- Ảnh gốc: " ++ raw_abs
                        ++ 10%N :: u8 "- Ảnh tiền xử lý: " ++ processed_abs)))
    (fun e =>
       match exn_cls e with
       | FileNotFoundError => Some (call (Print (u8 "Lỗi: " ++ exn_text e)))
       | ValueError => Some (call (Print (u8 "Lỗi: " ++ exn_text e)))
       | OSError => Some (call (Print (u8 "Lỗi khi lưu ảnh: " ++ exn_text e)))
       | _ => Some (call (Print (u8 "Đã xảy ra lỗi không xác định: "
                                   ++ exn_text e)))
       end).

(** [with fitz.open(pdf_path) as doc: total_pages = len(doc)], inside its
    [try]; [None] when the open failed and the error was printed. *)
Definition read_page_count : prog event (option Z) :=
  try_except
    (doc <-- call_r (Conv (PdfToPreprocessedImage.FitzOpen INPUT_PDF_PATH)) ;;
     call (Conv (PdfToPreprocessedImage.Close doc)) ;;;
     Ret (Some (page_count doc)))
    (fun exc =>
       Some (call (Print (u8 "Lỗi khi mở PDF: " ++ exn_text exc)) ;;; Ret None)).

Definition main : prog event unit :=
  found <-- call (Conv (PdfToPreprocessedImage.OsPathExists INPUT_PDF_PATH)) ;;
  if negb found
  then call (Print (u8 "Lỗi: Không tìm thấy tệp PDF tại: " ++ INPUT_PDF_PATH))
  else
    opened <-- read_page_count ;;
    match opened with
    | None => Ret tt
    | Some total_pages =>
        chosen <-- _prompt_page_number total_pages ;;
        match chosen with
        | None => Ret tt
        | Some page_index =>
            call_r (Makedirs (u8 "content")) ;;;
            call_r (Makedirs (u8 "Processed")) ;;;
            convert_and_save page_index
        end
    end.
End WithLibrary.
End PdfMain.

(** ** Further vocabulary *)

Module Extra.

(** The string has no occurrence of the character. *)
Definition lacks (c : char) (s : str) : bool :=
  forallb (fun x => negb (x =? c)%N) s.

(** A row whose text is not empty. *)
Definition has_han_char (r : row) : bool :=
  negb (ConvertExcel.is_empty (Han_Char r)).

(** A JSON value that has no length: [len(v)] raises [TypeError]. *)
Definition unsized (v : json) : bool :=
  match v with
  | JNull | JBool _ | JInt _ | JFloat _ => true
  | JStr _ | JArr _ | JObj _ => false
  end.

Section Paths.
Context `{Library}.

(** The name [main] gives its output files, without the extension. *)
Definition base_name (args : Args.Namespace) (book_code : str) (volume : Z) : str :=
  book_code ++ u8 "_" ++ zfill (str_int volume) (Args.volume_pad args).

Definition csv_path (args : Args.Namespace) (book_code : str) (volume : Z) : path :=
  path_join (Args.output_dir args) (base_name args book_code volume ++ u8 ".csv").

Definition excel_path (args : Args.Namespace) (book_code : str) (volume : Z) : path :=
  path_join (Args.output_dir args) (base_name args book_code volume ++ u8 ".xlsx").

(** The rows [main] computes from the parsed JSON and what was inferred. *)
Definition main_rows (args : Args.Namespace) (json_data : json)
    (inferred : str * Z) : result (list row) :=
  ConvertExcel.load_rows json_data
    (Spec.chosen_book_code args (fst inferred))
    (Spec.chosen_volume args (snd inferred)) (Args.page args)
    (Args.include_empty args) (Args.volume_pad args)
    (Args.page_pad args) (Args.column_pad args).

(** The calls of a run of [main] up to the rows: the existence test and the
    read of the input file. *)
Definition read_calls (p : path) (text : str) : list (entry ConvertExcel.event) :=
  [Entry (ConvertExcel.Exists p) true;
   Entry (ConvertExcel.ReadText p (u8 "utf-8")) (Ok text)].

(** The calls of a successful [write_csv]. *)
Definition csv_calls (p : path) (text : str) : list (entry ConvertExcel.event) :=
  [Entry (ConvertExcel.Mkdir (path_parent p)) (Ok tt);
   Entry (ConvertExcel.OpenWrite p (u8 "utf-8-sig")) (Ok tt);
   Entry (ConvertExcel.Write p text) (Ok tt)].
End Paths.

(** An OCR result whose [rec_polys] is null, with and without a line that
    survives. *)
Definition null_polys_json : json :=
  JObj [ (u8 "rec_texts", JArr [JStr (u8 "天")]); (u8 "rec_polys", JNull) ].

Definition null_polys_blank_json : json :=
  JObj [ (u8 "rec_texts", JArr [JStr (u8 "  "); JInt 7]); (u8 "rec_polys", JNull) ].

(** An OCR result whose [input_path] is a number. *)
Definition numeric_input_path_json : json :=
  JObj [ (u8 "input_path", JInt 5); (u8 "rec_texts", JArr [JStr (u8 "天")]) ].

Definition numeric_lib : Library :=
  Sample.library (Sample.loads_as numeric_input_path_json).

(** The parameters of [Sample.args] given differently: the book code as
    the positional argument, another output directory and another default
    book code, no spreadsheet. *)
Definition other_args : Args.Namespace :=
  Args.Build_Namespace (Some (u8 "output/giam_cuong_7_res.json"))
    (Some (u8 "LSE_001")) None (u8 "BOOK") (Some 4) 1 (u8 "elsewhere")
    false false 3 3 2.

(** [convert_excel.py] started without arguments. *)
Definition no_args : Args.Namespace :=
  Args.Build_Namespace None None None ConvertExcel.DEFAULT_BASE_BOOK_CODE
    None 1 (u8 "output") false false 3 3 2.

(** A world like [Sample.world_of true pandas] where [to_excel] fails. *)
Definition excel_failure : exn := Exn OSError (Some (u8 "disk full")).

Definition failing_excel_world : world ConvertExcel.event :=
  fun X ev =>
    match ev in ConvertExcel.event X return X with
    | ConvertExcel.ToExcel _ _ _ => Raise excel_failure
    | ev' => Sample.world_of true None ev'
    end.

(** A world like [Sample.world_of true None] where no directory can be
    created. *)
Definition mkdir_failure : exn := Exn OSError (Some (u8 "read-only file system")).

Definition readonly_world : world ConvertExcel.event :=
  fun X ev =>
    match ev in ConvertExcel.event X return X with
    | ConvertExcel.Mkdir _ => Raise mkdir_failure
    | ev' => Sample.world_of true None ev'
    end.

(** A world where stdin holds one line. *)
Definition stdin_world (line : option str) : world ConvertExcel.event :=
  fun X ev =>
    match ev in ConvertExcel.event X return X with
    | ConvertExcel.Input _ => line
    | ev' => Sample.world_of true None ev'
    end.

End Extra.

(** ** Vocabulary for the PDF scripts *)

Module PdfExtra.
Import Fitz.

(** A program that never calls [sys.exit]. *)
Fixpoint no_exit {E : Type -> Type} {A : Type} (p : prog E A) : Prop :=
  match p with
  | Ret _ => True
  | Throw _ => True
  | SysExit _ => False
  | Vis _ k => forall x, no_exit (k x)
  end.

(** How a run ended. *)
Definition returned {A : Type} (o : outcome A) : bool :=
  match o with Returned _ => true | _ => false end.

(** [convert_pdf_page_to_image]: the document was closed; the image was
    saved. *)
Definition page_closed (e : entry ConvertImage.event) : bool :=
  match e with
  | Entry ev _ => match ev with ConvertImage.Close _ => true | _ => false end
  end.

Definition page_saved (e : entry ConvertImage.event) : bool :=
  match e with
  | Entry ev x =>
      match ev in ConvertImage.event X return X -> bool with
      | ConvertImage.Save _ _ =>
          fun r => match r with Ok _ => true | Raise _ => false end
      | _ => fun _ => false
      end x
  end.

(** [convert_pdf_page_to_image]: the exception of the first call that
    raised; the texts printed, in order; what the handlers print for an
    exception. *)
Definition raised_of {X : Type} (r : result X) : option exn :=
  match r with Ok _ => None | Raise e => Some e end.

Fixpoint page_failure (t : list (entry ConvertImage.event)) : option exn :=
  match t with
  | [] => None
  | Entry ev x :: rest =>
      match
        match ev in ConvertImage.event X return X -> option exn with
        | ConvertImage.FitzOpen _ => raised_of
        | ConvertImage.LoadPage _ _ => raised_of
        | ConvertImage.GetPixmap _ _ => raised_of
        | ConvertImage.FromBytes _ => raised_of
        | ConvertImage.Save _ _ => raised_of
        | ConvertImage.Print _ => fun _ => None
        | ConvertImage.Close _ => fun _ => None
        end x
      with
      | Some e => Some e
      | None => page_failure rest
      end
  end.

Definition printed (t : list (entry ConvertImage.event)) : list str :=
  flat_map (fun e =>
    match e with
    | Entry ev _ => match ev with ConvertImage.Print s => [s] | _ => [] end
    end) t.

Definition page_report (pdf_path : str) (e : exn) : str :=
  match exn_cls e with
  | FileNotFoundError => u8 "Error: PDF file not found at " ++ pdf_path
  | _ => u8 "An error occurred: " ++ exn_text e
  end.

(** [convert_all_pdf_pages_to_images]: the files saved by a run, in order;
    whether the document was closed. *)
Definition saved_files (t : list (entry ConvertImageAll.event)) : list str :=
  flat_map (fun e =>
    match e with
    | Entry ev x =>
        match ev in ConvertImageAll.event X return X -> list str with
        | ConvertImageAll.Save _ name =>
            fun r => match r with Ok _ => [name] | Raise _ => [] end
        | _ => fun _ => []
        end x
    end) t.

Definition all_closed (t : list (entry ConvertImageAll.event)) : bool :=
  existsb (fun e =>
    match e with
    | Entry ev _ => match ev with ConvertImageAll.Close _ => true | _ => false end
    end) t.

(** The page is loaded, rendered and saved without an exception. *)
Definition page_ok (os_path_join : str -> str -> str)
    (w : world ConvertImageAll.event) (doc : document)
    (output_folder format : str) (zoom : float) (page_num : Z) : bool :=
  returned (snd (run w (ConvertImageAll.save_page os_path_join doc
                          output_folder format zoom page_num))).

(** The image of the page was saved, whether or not this was then
    printed. *)
Definition page_written (os_path_join : str -> str -> str)
    (w : world ConvertImageAll.event) (doc : document)
    (output_folder format : str) (zoom : float) (page_num : Z) : bool :=
  match saved_files (fst (run w (ConvertImageAll.save_page os_path_join doc
                                   output_folder format zoom page_num))) with
  | [] => false
  | _ :: _ => true
  end.

(** The pages up to the first one where a step fails: those before it, and
    that one too when it got as far as [written]. *)
Fixpoint saved_until {A : Type} (ok written : A -> bool) (l : list A) : list A :=
  match l with
  | [] => []
  | x :: r =>
      if ok x then x :: saved_until ok written r
      else if written x then [x] else []
  end.

(** [convert_pdf_to_image]: the number of documents opened, and the number
    of times a document was closed. *)
Definition opens (t : list (entry PdfToPreprocessedImage.event)) : nat :=
  List.length (filter (fun e =>
    match e with
    | Entry ev x =>
        match ev in PdfToPreprocessedImage.event X return X -> bool with
        | PdfToPreprocessedImage.FitzOpen _ =>
            fun r => match r with Ok _ => true | Raise _ => false end
        | _ => fun _ => false
        end x
    end) t).


Definition closes (t : list (entry PdfToPreprocessedImage.event)) : nat :=
  List.length (filter (fun e =>
    match e with
    | Entry ev _ =>
        match ev with PdfToPreprocessedImage.Close _ => true | _ => false end
    end) t).

(** The calls of [convert_pdf_to_image] as the script's world answers them,
    and as entries of the script's trace. *)
Definition conv_world (w : world PdfMain.event)
  : world PdfToPreprocessedImage.event :=
  fun X ev => w X (PdfMain.Conv ev).

Definition conv_entry (e : entry PdfToPreprocessedImage.event)
  : entry PdfMain.event :=
  match e with Entry ev x => Entry (PdfMain.Conv ev) x end.

(** The script's calls of [cv2.imwrite], in order: the file and whether it
    was written. *)
Definition imwrites (t : list (entry PdfMain.event)) : list (str * bool) :=
  flat_map (fun e =>
    match e with
    | Entry ev x =>
        match ev in PdfMain.event X return X -> list (str * bool) with
        | PdfMain.Imwrite name _ =>
            fun r => match r with
                     | Ok b => [(name, b)]
                     | Raise _ => [(name, false)]
                     end
        | _ => fun _ => []
        end x
    end) t.

(** The pages a run of the script loaded. *)
Definition loaded_pages (t : list (entry PdfMain.event)) : list Z :=
  flat_map (fun e =>
    match e with
    | Entry ev _ =>
        match ev with
        | PdfMain.Conv (PdfToPreprocessedImage.LoadPage _ n) => [n]
        | _ => []
        end
    end) t.

(** Sample worlds: a PDF of three pages where the second page cannot be
    saved; a PDF of seven pages; a console where the user types a page
    number. *)
Definition three_pages : document := {| handle := 2%N; page_count := 3 |}.

Definition sample_join (folder name : str) : str := folder ++ 47%N :: name.

Definition second_page_fails : world ConvertImageAll.event :=
  fun X ev =>
    match ev in ConvertImageAll.event X return X with
    | ConvertImageAll.OsPathExists _ => false
    | ConvertImageAll.Makedirs _ => Ok tt
    | ConvertImageAll.FitzOpen _ => Ok three_pages
    | ConvertImageAll.LoadPage _ n => Ok (Z.to_N n)
    | ConvertImageAll.GetPixmap pg _ => Ok pg
    | ConvertImageAll.FromBytes pix => Ok pix
    | ConvertImageAll.Save img _ =>
        if (1 =? img)%N then Raise (Exn OSError (Some (u8 "disk full")))
        else Ok tt
    | ConvertImageAll.Print _ => Ok tt
    | ConvertImageAll.Close _ => tt
    end.

(** The same PDF, where every image is saved and the console refuses the
    message about the second page. *)
Definition encode_error : exn :=
  Exn ValueError (Some (u8 "'ascii' codec can't encode character")).

Definition second_print_fails : world ConvertImageAll.event :=
  fun X ev =>
    match ev in ConvertImageAll.event X return X with
    | ConvertImageAll.OsPathExists _ => true
    | ConvertImageAll.Makedirs _ => Ok tt
    | ConvertImageAll.FitzOpen _ => Ok three_pages
    | ConvertImageAll.LoadPage _ n => Ok (Z.to_N n)
    | ConvertImageAll.GetPixmap pg _ => Ok pg
    | ConvertImageAll.FromBytes pix => Ok pix
    | ConvertImageAll.Save _ _ => Ok tt
    | ConvertImageAll.Print s =>
        if str_eqb s (u8 "Saved out/page_002.png") then Raise encode_error
        else Ok tt
    | ConvertImageAll.Close _ => tt
    end.

(** A PDF of five pages whose image cannot be saved: the folder of the
    output path is missing. *)
Definition missing_folder : exn :=
  Exn FileNotFoundError
    (Some (u8 "[Errno 2] No such file or directory: 'content/giam_cuong.png'")).

Definition missing_folder_world : world ConvertImage.event :=
  fun X ev =>
    match ev in ConvertImage.event X return X with
    | ConvertImage.FitzOpen _ => Ok Sample.five_pages
    | ConvertImage.LoadPage _ _ => Ok 1%N
    | ConvertImage.GetPixmap _ _ => Ok 1%N
    | ConvertImage.FromBytes _ => Ok 1%N
    | ConvertImage.Save _ _ => Raise missing_folder
    | ConvertImage.Print _ => tt
    | ConvertImage.Close _ => tt
    end.

Definition seven_pages : document := {| handle := 3%N; page_count := 7 |}.

Definition seven_pages_world : world ConvertImage.event :=
  fun X ev =>
    match ev in ConvertImage.event X return X with
    | ConvertImage.FitzOpen _ => Ok seven_pages
    | ConvertImage.LoadPage _ n => Ok (Z.to_N (n + 1))
    | ConvertImage.GetPixmap pg _ => Ok pg
    | ConvertImage.FromBytes pix => Ok pix
    | ConvertImage.Save _ _ => Ok tt
    | ConvertImage.Print _ => tt
    | ConvertImage.Close _ => tt
    end.

Definition console_world (line : option str) : world PdfMain.event :=
  fun X ev =>
    match ev in PdfMain.event X return X with
    | PdfMain.Conv ev' => Sample.pdf_array_world ev'
    | PdfMain.Input _ => line
    | PdfMain.Print _ => tt
    | PdfMain.Makedirs _ => Ok tt
    | PdfMain.CvtGray _ => Ok 2%N
    | PdfMain.GaussianBlur _ _ _ => Ok 3%N
    | PdfMain.AdaptiveThreshold _ _ _ _ => Ok 4%N
    | PdfMain.GetStructuringElement _ => Ok 5%N
    | PdfMain.Dilate _ _ _ => Ok 6%N
    | PdfMain.Imwrite _ _ => Ok true
    | PdfMain.Abspath p => u8 "/work/" ++ p
    end.

(** A console where the PDF is not there, and one where it does not open. *)
Definition absent_pdf : world PdfToPreprocessedImage.event :=
  fun X ev =>
    match ev in PdfToPreprocessedImage.event X return X with
    | PdfToPreprocessedImage.OsPathExists _ => false
    | PdfToPreprocessedImage.FitzOpen _ => raise FileNotFoundError
    | PdfToPreprocessedImage.LoadPage _ _ => Ok 1%N
    | PdfToPreprocessedImage.GetPixmap _ _ => Ok 1%N
    | PdfToPreprocessedImage.FromBytes _ => Ok 1%N
    | PdfToPreprocessedImage.NpArray _ => Ok 1%N
    | PdfToPreprocessedImage.CvtColor _ => Ok 1%N
    | PdfToPreprocessedImage.Close _ => tt
    end.

Definition broken_pdf_error : exn :=
  Exn OtherError (Some (u8 "Failed to open file 'data/giam_cuong.pdf'.")).

Definition broken_pdf : world PdfToPreprocessedImage.event :=
  fun X ev =>
    match ev in PdfToPreprocessedImage.event X return X with
    | PdfToPreprocessedImage.OsPathExists _ => true
    | PdfToPreprocessedImage.FitzOpen _ => Raise broken_pdf_error
    | PdfToPreprocessedImage.LoadPage _ _ => Ok 1%N
    | PdfToPreprocessedImage.GetPixmap _ _ => Ok 1%N
    | PdfToPreprocessedImage.FromBytes _ => Ok 1%N
    | PdfToPreprocessedImage.NpArray _ => Ok 1%N
    | PdfToPreprocessedImage.CvtColor _ => Ok 1%N
    | PdfToPreprocessedImage.Close _ => tt
    end.

Definition console_over (cw : world PdfToPreprocessedImage.event)
  : world PdfMain.event :=
  fun X ev =>
    match ev in PdfMain.event X return X with
    | PdfMain.Conv ev' => cw _ ev'
    | PdfMain.Input _ => Some (u8 "1")
    | PdfMain.Print _ => tt
    | PdfMain.Makedirs _ => Ok tt
    | PdfMain.CvtGray _ => Ok 2%N
    | PdfMain.GaussianBlur _ _ _ => Ok 3%N
    | PdfMain.AdaptiveThreshold _ _ _ _ => Ok 4%N
    | PdfMain.GetStructuringElement _ => Ok 5%N
    | PdfMain.Dilate _ _ _ => Ok 6%N
    | PdfMain.Imwrite _ _ => Ok true
    | PdfMain.Abspath p => u8 "/work/" ++ p
    end.

Definition sample_basename (p : str) : str := last (split 47%N p) [].

Definition sample_splitext_root (p : str) : str :=
  match Sample.rfind 46%N p 0%nat None with
  | Some i => firstn i p
  | None => p
  end.

End PdfExtra.



(** ** Facts about the string primitives *)

Module PyFacts.
Import Spec.

Lemma len_app {A} (a b : list A) : len (a ++ b) = len a + len b.
Proof. unfold len. rewrite length_app. lia. Qed.

Lemma len_cons {A} (x : A) (l : list A) : len (x :: l) = 1 + len l.
Proof. unfold len. simpl List.length. lia. Qed.

Lemma len_repeat {A} (x : A) (n : nat) : len (repeat x n) = Z.of_nat n.
Proof. unfold len. now rewrite repeat_length. Qed.

Lemma len_nonneg {A} (l : list A) : 0 <= len l.
Proof. unfold len. lia. Qed.

Lemma decimal_value_app (a b : str) :
  decimal_value (a ++ b) =
  fold_left (fun acc c => 10 * acc + (Z.of_N c - 48)) b (decimal_value a).
Proof. unfold decimal_value. now rewrite fold_left_app. Qed.

Lemma decimal_value_zeros (k : nat) (s : str) :
  decimal_value (repeat zero_char k ++ s) = decimal_value s.
Proof.
  rewrite decimal_value_app.
  replace (decimal_value (repeat zero_char k)) with 0; [reflexivity|].
  unfold decimal_value.
  assert (G : forall a, a = 0 ->
            fold_left (fun acc c => 10 * acc + (Z.of_N c - 48)) (repeat zero_char k) a = 0).
  { induction k as [|k IH]; intros a Ha; simpl; [assumption|].
    apply IH. subst a. reflexivity. }
  symmetry. now apply G.
Qed.

(** *** [str(int)] *)

Lemma digits_of_acc (fuel : nat) : forall n acc,
  digits_of fuel n acc = digits_of fuel n [] ++ acc.
Proof.
  induction fuel as [|f IH]; intros n acc; simpl.
  - reflexivity.
  - destruct (n <? 10)%N.
    + reflexivity.
    + rewrite IH. rewrite (IH _ [digit_char (n mod 10)]).
      now rewrite <- app_assoc.
Qed.

Lemma div10_fuel (n : N) (f : nat) :
  (n < 2 ^ N.of_nat (S f))%N -> (n / 10 < 2 ^ N.of_nat f)%N.
Proof.
  intros Hn.
  rewrite Nat2N.inj_succ, N.pow_succ_r' in Hn.
  apply N.Div0.div_lt_upper_bound.
  remember (2 ^ N.of_nat f)%N as m. lia.
Qed.

Lemma digits_of_value (fuel : nat) : forall n,
  (n < 2 ^ N.of_nat fuel)%N ->
  decimal_value (digits_of fuel n []) = Z.of_N n.
Proof.
  induction fuel as [|f IH]; intros n Hn.
  - simpl in Hn. assert (n = 0%N) by lia. subst. reflexivity.
  - simpl. destruct (N.ltb_spec n 10) as [Hlt|Hge].
    + rewrite N.mod_small by assumption.
      unfold decimal_value, digit_char. cbn [fold_left]. lia.
    + rewrite digits_of_acc, decimal_value_app, IH by now apply div10_fuel.
      cbn [fold_left]. unfold digit_char.
      pose proof (N.Div0.div_mod n 10) as Hdm.
      generalize dependent (n mod 10)%N. generalize dependent (n / 10)%N.
      intros q r Hdm. lia.
Qed.

Lemma is_ascii_digit_iff (c : char) :
  is_ascii_digit c = true <-> (48 <= c <= 57)%N.
Proof.
  unfold is_ascii_digit, between.
  rewrite andb_true_iff, negb_true_iff, N.ltb_ge, N.leb_le. tauto.
Qed.

Lemma digits_of_ascii (fuel : nat) : forall n,
  ascii_digits (digits_of fuel n []) = true.
Proof.
  induction fuel as [|f IH]; intros n; simpl.
  - reflexivity.
  - assert (Hd : is_ascii_digit (digit_char (n mod 10)) = true).
    { apply is_ascii_digit_iff. unfold digit_char.
      assert (Hub : (n mod 10 < 10)%N) by (apply N.mod_upper_bound; lia).
      generalize dependent (n mod 10)%N. intros r Hub. lia. }
    destruct (n <? 10)%N.
    + simpl. now rewrite Hd.
    + rewrite digits_of_acc. unfold ascii_digits.
      rewrite forallb_app. fold (ascii_digits (digits_of f (n / 10) [])).
      rewrite IH. simpl. now rewrite Hd.
Qed.

Lemma digits_of_nonempty (fuel : nat) (n : N) :
  digits_of (S fuel) n [] <> [].
Proof.
  simpl. destruct (n <? 10)%N; [discriminate|].
  rewrite digits_of_acc. intros E. apply app_eq_nil in E. destruct E; discriminate.
Qed.

Lemma str_N_fuel (n : N) : (n < 2 ^ N.of_nat (S (N.to_nat (N.log2 n))))%N.
Proof.
  rewrite Nat2N.inj_succ, N2Nat.id.
  destruct n as [|p]; [reflexivity|].
  apply N.log2_spec. lia.
Qed.

(** [str_N] writes the number in base ten. *)
Lemma str_N_value (n : N) : decimal_value (str_N n) = Z.of_N n.
Proof. apply digits_of_value, str_N_fuel. Qed.

Lemma str_N_ascii (n : N) : ascii_digits (str_N n) = true.
Proof. apply digits_of_ascii. Qed.

Lemma str_N_nonempty (n : N) : str_N n <> [].
Proof. apply digits_of_nonempty. Qed.

Lemma str_int_nonneg (z : Z) : 0 <= z -> str_int z = str_N (Z.to_N z).
Proof. destruct z; simpl; intros; try reflexivity; lia. Qed.

Lemma str_int_neg (z : Z) : z < 0 -> str_int z = minus_sign :: str_N (Z.abs_N z).
Proof. destruct z; simpl; intros; try reflexivity; lia. Qed.

Lemma ascii_digit_not_sign (c : char) :
  is_ascii_digit c = true -> ((c =? plus_sign) || (c =? minus_sign))%N = false.
Proof.
  unfold plus_sign, minus_sign. intros Hc. apply is_ascii_digit_iff in Hc.
  apply orb_false_iff; split; apply N.eqb_neq; lia.
Qed.

(** *** [str.zfill] *)

Lemma zfill_digits (s : str) (w : Z) :
  ascii_digits s = true ->
  zfill s w = repeat zero_char (Z.to_nat (w - len s)) ++ s.
Proof.
  intros Hs. unfold zfill.
  destruct (Z.geb_spec (len s) w) as [Hge|Hlt].
  - replace (Z.to_nat (w - len s)) with 0%nat by lia. reflexivity.
  - destruct s as [|c r].
    + now rewrite app_nil_r.
    + simpl in Hs. apply andb_true_iff in Hs. destruct Hs as [Hc _].
      now rewrite (ascii_digit_not_sign _ Hc).
Qed.

Lemma zfill_minus (r : str) (w : Z) :
  zfill (minus_sign :: r) w =
  minus_sign :: repeat zero_char (Z.to_nat (w - 1 - len r)) ++ r.
Proof.
  unfold zfill. rewrite len_cons.
  destruct (Z.geb_spec (1 + len r) w) as [Hge|Hlt].
  - replace (Z.to_nat (w - 1 - len r)) with 0%nat by lia. reflexivity.
  - replace (w - (1 + len r)) with (w - 1 - len r) by lia. reflexivity.
Qed.

Lemma zfill_len (s : str) (w : Z) : len (zfill s w) = Z.max w (len s).
Proof.
  unfold zfill.
  destruct (Z.geb_spec (len s) w) as [Hge|Hlt]; [lia|].
  destruct s as [|c r].
  - rewrite len_repeat. unfold len in *. simpl in *. lia.
  - destruct ((c =? plus_sign)%N || (c =? minus_sign)%N).
    + rewrite len_cons, len_app, len_repeat. rewrite len_cons in *. lia.
    + rewrite len_app, len_repeat. lia.
Qed.

(** Zero padding does not change the number a rendering denotes. *)
Lemma zfill_str_int_value (n w : Z) :
  0 <= n -> decimal_value (zfill (str_int n) w) = n.
Proof.
  intros Hn. rewrite str_int_nonneg by assumption.
  rewrite zfill_digits by apply str_N_ascii.
  rewrite decimal_value_zeros, str_N_value. lia.
Qed.

Lemma zfill_str_int_inj (i j w : Z) :
  0 <= i -> 0 <= j -> zfill (str_int i) w = zfill (str_int j) w -> i = j.
Proof.
  intros Hi Hj E.
  rewrite <- (zfill_str_int_value w Hi), <- (zfill_str_int_value w Hj).
  now rewrite E.
Qed.

(** *** [str.strip] *)

Lemma forallb_rev {A} (f : A -> bool) (l : list A) :
  forallb f (rev l) = forallb f l.
Proof.
  induction l as [|x l IH]; simpl; [reflexivity|].
  rewrite forallb_app, IH. simpl. rewrite andb_true_r. apply andb_comm.
Qed.

Lemma lstrip_nil_iff (s : str) : lstrip s = [] <-> forallb isspace s = true.
Proof.
  induction s as [|c r IH]; simpl.
  - tauto.
  - destruct (isspace c); simpl; [assumption|].
    split; discriminate.
Qed.

Lemma forallb_isspace_lstrip (s : str) :
  forallb isspace (lstrip s) = forallb isspace s.
Proof.
  induction s as [|c r IH]; simpl; [reflexivity|].
  destruct (isspace c) eqn:Hc; simpl; [assumption|].
  now rewrite Hc.
Qed.

(** Stripping leaves nothing exactly when every character is whitespace. *)
Lemma strip_nil_iff (s : str) : strip s = [] <-> forallb isspace s = true.
Proof.
  unfold strip, rstrip.
  rewrite <- forallb_isspace_lstrip, <- (forallb_rev isspace (lstrip s)).
  rewrite <- lstrip_nil_iff.
  split; intros E.
  - apply (f_equal (@rev char)) in E. now rewrite rev_involutive in E.
  - now rewrite E.
Qed.

(** *** [str.split] and [str.join] *)

Lemma split_nonempty (sep : char) (s : str) : split sep s <> [].
Proof.
  destruct s as [|c r]; simpl; [discriminate|].
  destruct (c =? sep)%N; [discriminate|].
  destruct (split sep r); discriminate.
Qed.

Lemma join_split (sep : char) (s : str) : join [sep] (split sep s) = s.
Proof.
  induction s as [|c r IH]; simpl; [reflexivity|].
  destruct (N.eqb_spec c sep) as [->|Hne].
  - pose proof (split_nonempty sep r) as Hn.
    destruct (split sep r) as [|p ps]; [contradiction|].
    simpl in *. now rewrite IH.
  - pose proof (split_nonempty sep r) as Hn.
    destruct (split sep r) as [|p ps]; [contradiction|].
    simpl in *. destruct ps; simpl in *; now rewrite <- IH.
Qed.

Lemma split_no_sep (sep : char) (s : str) :
  forallb (fun c => negb (c =? sep)%N) s = true -> split sep s = [s].
Proof.
  induction s as [|c r IH]; simpl; [reflexivity|].
  intros Hs. apply andb_true_iff in Hs. destruct Hs as [Hc Hr].
  apply negb_true_iff in Hc. rewrite Hc, (IH Hr). reflexivity.
Qed.

Lemma join_snoc (sep : str) (a : list str) (x : str) :
  a <> [] -> join sep (a ++ [x]) = join sep a ++ sep ++ x.
Proof.
  induction a as [|p ps IH]; [contradiction|]. intros _.
  destruct ps as [|q qs].
  - reflexivity.
  - change (join sep ((p :: q :: qs) ++ [x]))
      with (p ++ sep ++ join sep ((q :: qs) ++ [x])).
    rewrite IH by discriminate.
    change (join sep (p :: q :: qs)) with (p ++ sep ++ join sep (q :: qs)).
    now rewrite <- !app_assoc.
Qed.

(** A string splits into the parts before its last separator and the
    segment after it. *)
Lemma split_prefix_last (sep : char) (s : str) :
  let parts := split sep s in
  join [sep] (removelast parts) <> [] ->
  s = join [sep] (removelast parts) ++ [sep] ++ last parts [].
Proof.
  intros parts Hne.
  assert (Hr : removelast parts <> []).
  { intros E. rewrite E in Hne. now apply Hne. }
  rewrite <- join_snoc by assumption.
  rewrite <- app_removelast_last by apply split_nonempty.
  symmetry. apply join_split.
Qed.

(** *** [str.isdigit] and [int] on ASCII digits *)

Section Digits.
Context `{Library}.

Lemma ascii_digit_lt_128 (c : char) : is_ascii_digit c = true -> (c <? 128)%N = true.
Proof.
  intros Hc. apply is_ascii_digit_iff in Hc. apply N.ltb_lt. lia.
Qed.

Lemma isdigit_ascii (s : str) :
  s <> [] -> ascii_digits s = true -> isdigit s = true.
Proof.
  intros Hne Hs. destruct s as [|c r]; [contradiction|].
  unfold isdigit. clear Hne. revert Hs. generalize (c :: r). intros l.
  induction l as [|x l IH]; simpl; [reflexivity|].
  intros Hl. apply andb_true_iff in Hl. destruct Hl as [Hx Hl].
  unfold isdigit_char. rewrite (ascii_digit_lt_128 _ Hx), Hx. now apply IH.
Qed.

Lemma int_digits_ascii (s : str) : forall acc,
  ascii_digits s = true ->
  int_digits s acc =
  Ok (fold_left (fun a c => 10 * a + (Z.of_N c - 48)) s acc).
Proof.
  induction s as [|c r IH]; intros acc Hs; simpl; [reflexivity|].
  simpl in Hs. apply andb_true_iff in Hs. destruct Hs as [Hc Hr].
  unfold decimal_char. rewrite (ascii_digit_lt_128 _ Hc), Hc.
  rewrite IH by assumption. f_equal. f_equal.
  apply is_ascii_digit_iff in Hc. lia.
Qed.

Lemma py_int_ascii (s : str) :
  s <> [] -> ascii_digits s = true -> len s <= int_max_str_digits ->
  py_int s = Ok (decimal_value s).
Proof.
  intros Hne Hs Hlen. destruct s as [|c r]; [contradiction|].
  unfold py_int. rewrite int_digits_ascii by assumption. cbn [bind].
  destruct (Z.leb_spec (len (c :: r)) int_max_str_digits); [reflexivity|lia].
Qed.

(** Beyond the limit [int] raises, whatever the digits. *)
Lemma py_int_too_long (s : str) :
  int_max_str_digits < len s -> py_int s = raise ValueError.
Proof.
  intros Hlen. destruct s as [|c r]; [reflexivity|].
  unfold py_int. destruct (int_digits (c :: r) 0) as [v|e] eqn:E; cbn [bind].
  - destruct (Z.leb_spec (len (c :: r)) int_max_str_digits); [lia|reflexivity].
  - revert E. generalize 0. generalize (c :: r). clear.
    induction l as [|x l IH]; intros acc; cbn [int_digits]; [discriminate|].
    destruct (decimal_char x); [apply IH|now intros [= <-]].
Qed.

Lemma ascii_digits_no_underscore (s : str) :
  ascii_digits s = true ->
  forallb (fun c => negb (c =? ConvertExcel.underscore)%N) s = true.
Proof.
  induction s as [|c r IH]; simpl; [reflexivity|].
  intros Hs. apply andb_true_iff in Hs. destruct Hs as [Hc Hr].
  rewrite (IH Hr), andb_true_r. apply negb_true_iff, N.eqb_neq.
  apply is_ascii_digit_iff in Hc. unfold ConvertExcel.underscore. lia.
Qed.
End Digits.

End PyFacts.

(** ** The loop of [load_rows] *)

Module LoopFacts.
Import Spec PyFacts ConvertExcel.

Section ForEach.
Context `{Library}.
Variables (rec_polys : json) (book_code : str) (volume page : Z)
  (include_empty : bool) (volume_pad page_pad column_pad : Z)
  (image_name : str).

Lemma skip_iff_not_kept (text : json) :
  is_empty (cleaned_text text) && negb include_empty
  = negb (kept include_empty text).
Proof.
  unfold kept, has_text, cleaned_text.
  destruct include_empty, text; simpl; try reflexivity;
    try (now rewrite andb_false_r);
    try (now rewrite andb_true_r, negb_involutive).
Qed.

Local Abbreviation loop :=
  (for_each rec_polys book_code volume page include_empty
     volume_pad page_pad column_pad image_name).
Local Abbreviation row_of :=
  (row_for rec_polys book_code volume page
     volume_pad page_pad column_pad image_name).

Lemma for_each_ok (items : list json) : forall idx rows out,
  loop items idx rows = Ok out ->
  exists new,
    out = rows ++ new /\
    Forall2 row_of
      (filter (fun it => kept include_empty (snd it)) (enumerate items idx)) new.
Proof.
  induction items as [|text rest IH]; intros idx rows out E; simpl in E.
  - injection E as <-. exists []. rewrite app_nil_r. split; constructor.
  - rewrite skip_iff_not_kept in E. simpl.
    destruct (kept include_empty text); simpl in E.
    + destruct (box_at rec_polys idx) as [box|e] eqn:Hbox; simpl in E;
        [|discriminate].
      apply IH in E. destruct E as (new & -> & HF).
      eexists (_ :: new). rewrite <- app_assoc. split; [reflexivity|].
      constructor; [|assumption].
      exists box. split; [assumption|reflexivity].
    + now apply IH.
Qed.

Lemma for_each_total (items : list json) : forall idx rows,
  (forall i, idx <= i -> exists box, box_at rec_polys i = Ok box) ->
  exists out, loop items idx rows = Ok out.
Proof.
  induction items as [|text rest IH]; intros idx rows Hbox; simpl.
  - now exists rows.
  - destruct (is_empty (cleaned_text text) && negb include_empty).
    + apply IH. intros i Hi. apply Hbox. lia.
    + destruct (Hbox idx ltac:(lia)) as [box ->]. simpl.
      apply IH. intros i Hi. apply Hbox. lia.
Qed.
End ForEach.

Lemma box_at_list (polys : list json) (i : Z) :
  1 <= i -> box_at (JArr polys) i = Ok (polygon_at polys i).
Proof.
  intros Hi. unfold box_at, polygon_at, py_len, py_getitem, seq_getitem, len.
  simpl bind.
  destruct (Z.ltb_spec (i - 1) (Z.of_nat (List.length polys))) as [Hlt|Hge].
  - destruct (Z.ltb_spec (i - 1) 0) as [Hneg|_]; [lia|].
    destruct (Z.ltb_spec (i - 1) 0) as [Hneg|_]; [lia|].
    destruct (nth_error polys (Z.to_nat (i - 1))) eqn:E; [reflexivity|].
    apply nth_error_None in E. lia.
  - assert (E : nth_error polys (Z.to_nat (i - 1)) = None)
      by (apply nth_error_None; lia).
    now rewrite E.
Qed.

Lemma enumerate_length {A} (l : list A) : forall k,
  List.length (enumerate l k) = List.length l.
Proof. induction l; intros k; simpl; [reflexivity|]. now rewrite IHl. Qed.

Lemma survivors_count (P : json -> bool) (l : list json) : forall k,
  List.length (filter (fun it => P (snd it)) (enumerate l k))
  = List.length (filter P l).
Proof.
  induction l as [|x l IH]; intros k; simpl; [reflexivity|].
  destruct (P x); simpl; now rewrite IH.
Qed.

Lemma filter_all {A} (l : list A) : filter (fun _ => true) l = l.
Proof. induction l; simpl; [reflexivity|]. now rewrite IHl. Qed.

(** The positions of the surviving entries increase strictly, from [k] on. *)
Lemma positions_sorted (P : Z * json -> bool) (l : list json) : forall k,
  StronglySorted Z.lt (List.map fst (filter P (enumerate l k))) /\
  Forall (fun i => k <= i < k + len l) (List.map fst (filter P (enumerate l k))).
Proof.
  induction l as [|x l IH]; intros k; cbn [enumerate filter].
  - split; constructor.
  - destruct (IH (k + 1)) as [Hs Hf]. rewrite len_cons.
    assert (Hf' : Forall (fun i => k < i < k + (1 + len l))
                    (List.map fst (filter P (enumerate l (k + 1))))).
    { eapply Forall_impl; [|exact Hf]. cbv beta. intros; lia. }
    destruct (P (k, x)); cbn [List.map fst].
    + split.
      * constructor; [assumption|].
        eapply Forall_impl; [|exact Hf']. cbv beta. intros; lia.
      * constructor; [pose proof (len_nonneg l); lia|].
        eapply Forall_impl; [|exact Hf']. cbv beta. intros; lia.
    + split; [assumption|].
      eapply Forall_impl; [|exact Hf']. cbv beta. intros; lia.
Qed.

Lemma sorted_NoDup (l : list Z) : StronglySorted Z.lt l -> NoDup l.
Proof.
  induction 1 as [|x l Hs IH Hx]; constructor; [|assumption].
  intros Hin. rewrite Forall_forall in Hx. specialize (Hx _ Hin). lia.
Qed.

Lemma Forall2_map_eq {A B C} (R : A -> B -> Prop) (f : A -> C) (g : B -> C)
    (l : list A) (l' : list B) :
  (forall a b, R a b -> g b = f a) -> Forall2 R l l' ->
  List.map g l' = List.map f l.
Proof.
  intros HR HF. induction HF; simpl; [reflexivity|].
  f_equal; [now apply HR|assumption].
Qed.

End LoopFacts.

(** ** The record builder: IDs and rows *)

Module RecordBuilder.
Import Spec PyFacts LoopFacts ConvertExcel.

Lemma zfill_str_int_zero_padded (n w : Z) :
  zfill (str_int n) w = zero_padded n w.
Proof.
  unfold zero_padded. destruct (Z.ltb_spec n 0) as [Hneg|Hpos].
  - rewrite str_int_neg, zfill_minus by assumption.
    rewrite len_cons. change (len (@nil char)) with 0.
    replace (w - (1 + 0) - len (str_N (Z.abs_N n)))
      with (w - 1 - len (str_N (Z.abs_N n))) by lia.
    reflexivity.
  - rewrite str_int_nonneg, zfill_digits by (assumption || apply str_N_ascii).
    replace (Z.to_N n) with (Z.abs_N n) by (destruct n; simpl; try reflexivity; lia).
    change (len (@nil char)) with 0. rewrite Z.sub_0_r. reflexivity.
Qed.

Lemma str_int_sign_digits (n : Z) :
  str_int n = (if n <? 0 then [minus_sign] else []) ++ str_N (Z.abs_N n).
Proof. destruct n; reflexivity. Qed.

(** C3: [build_id] is the book code and the decimal renderings of volume,
    page and column, each zero-padded on the left to its own width, joined by
    dots. Padding only inserts zeros: the padded rendering has the sign and
    all the digits of the number, and its length is the larger of the width
    and the length of the plain rendering. With widths 3/3/2 the ID of book
    ["LSE_001"], volume 4, page 1, column 1 is ["LSE_001.004.001.01"], and
    columns 10 and 100 render as ["10"] and ["100"] at width 2. *)
Theorem build_id_format :
  (forall book_code volume page column_idx volume_pad page_pad column_pad,
     build_id book_code volume page column_idx volume_pad page_pad column_pad
     = book_code ++ u8 "." ++ zero_padded volume volume_pad
         ++ u8 "." ++ zero_padded page page_pad
         ++ u8 "." ++ zero_padded column_idx column_pad)
  /\ (forall n w, exists k,
        zero_padded n w
        = (if n <? 0 then [minus_sign] else []) ++ repeat zero_char k
            ++ str_N (Z.abs_N n)
        /\ str_int n = (if n <? 0 then [minus_sign] else []) ++ str_N (Z.abs_N n)
        /\ decimal_value (str_N (Z.abs_N n)) = Z.abs n)
  /\ (forall n w, len (zero_padded n w) = Z.max w (len (str_int n)))
  /\ build_id (u8 "LSE_001") 4 1 1 3 3 2 = u8 "LSE_001.004.001.01"
  /\ zero_padded 10 2 = u8 "10"
  /\ zero_padded 100 2 = u8 "100"
  /\ build_id (u8 "LSE_001") 4 1 10 3 3 2 = u8 "LSE_001.004.001.10"
  /\ build_id (u8 "LSE_001") 4 1 100 3 3 2 = u8 "LSE_001.004.001.100".
Proof.
  repeat split; try (vm_compute; reflexivity).
  - intros. unfold build_id. now rewrite !zfill_str_int_zero_padded.
  - intros n w. eexists. split; [reflexivity|]. split.
    + apply str_int_sign_digits.
    + rewrite str_N_value. apply N2Z.inj_abs_N.
  - intros n w. rewrite <- zfill_str_int_zero_padded. apply zfill_len.
Qed.

Lemma build_id_inj (book_code : str) (volume page vp pp cp i j : Z) :
  0 <= i -> 0 <= j ->
  build_id book_code volume page i vp pp cp
  = build_id book_code volume page j vp pp cp ->
  i = j.
Proof.
  intros Hi Hj E. unfold build_id in E.
  repeat apply app_inv_head in E.
  now apply zfill_str_int_inj in E.
Qed.

Section Rows.
Context `{Library}.
Variables (json_data : json) (book_code : str) (volume page : Z)
  (include_empty : bool) (volume_pad page_pad column_pad : Z).

Local Abbreviation rows_of :=
  (load_rows json_data book_code volume page include_empty
     volume_pad page_pad column_pad).
Local Abbreviation image_name :=
  (book_code ++ u8 "_page_" ++ zfill (str_int page) page_pad ++ u8 ".png").

(** Whenever [load_rows] returns, its rows are those of the surviving
    entries, in order. *)
Lemma load_rows_ok (rows : list row) :
  rows_of = Ok rows ->
  exists rec_polys items,
    items_of json_data = Ok items /\
    Forall2 (row_for rec_polys book_code volume page
               volume_pad page_pad column_pad image_name)
      (survivors include_empty items) rows.
Proof.
  unfold load_rows, items_of. intros E.
  destruct (dict_get json_data (u8 "rec_texts") (JArr [])) as [rec_texts|];
    [|discriminate].
  cbn [bind] in E |- *.
  destruct (dict_get json_data (u8 "rec_polys") (JArr [])) as [rec_polys|];
    [|discriminate].
  cbn [bind] in E.
  destruct (py_iter rec_texts) as [items|]; [|discriminate].
  cbn [bind] in E.
  apply for_each_ok in E. destruct E as (new & -> & HF).
  exists rec_polys, items. split; [reflexivity|exact HF].
Qed.

(** With lists under both keys [load_rows] returns. *)
Lemma load_rows_lists (texts polys : list json) :
  dict_get json_data (u8 "rec_texts") (JArr []) = Ok (JArr texts) ->
  dict_get json_data (u8 "rec_polys") (JArr []) = Ok (JArr polys) ->
  exists rows,
    rows_of = Ok rows /\
    Forall2 (row_for (JArr polys) book_code volume page
               volume_pad page_pad column_pad image_name)
      (survivors include_empty texts) rows.
Proof.
  intros Ht Hp. unfold load_rows. rewrite Ht. cbn [bind]. rewrite Hp.
  cbn [bind py_iter].
  destruct (@for_each_total _ (JArr polys) book_code volume page include_empty
              volume_pad page_pad column_pad image_name texts 1 [])
    as [out E].
  { intros i Hi. eexists. now apply box_at_list. }
  exists out. split; [exact E|].
  apply for_each_ok in E. destruct E as (new & -> & HF). exact HF.
Qed.
End Rows.

(** C1: for an OCR JSON whose [rec_texts] is a list of N entries (and whose
    [rec_polys], if present, is a list), [load_rows] returns; without the
    include-empty flag it gives as many rows as there are entries that are
    strings with non-empty trimmed text, and with the flag it gives N rows. *)
Theorem load_rows_count `{Library} (json_data : json) (texts polys : list json)
    (book_code : str) (volume page : Z) (include_empty : bool)
    (volume_pad page_pad column_pad : Z) :
  dict_get json_data (u8 "rec_texts") (JArr []) = Ok (JArr texts) ->
  dict_get json_data (u8 "rec_polys") (JArr []) = Ok (JArr polys) ->
  exists rows,
    load_rows json_data book_code volume page include_empty
      volume_pad page_pad column_pad = Ok rows /\
    List.length rows =
      if include_empty then List.length texts
      else List.length (filter has_text texts).
Proof.
  intros Ht Hp.
  destruct (@load_rows_lists _ json_data book_code volume page include_empty
              volume_pad page_pad column_pad texts polys Ht Hp) as (rows & E & HF).
  exists rows. split; [exact E|].
  apply Forall2_length in HF. rewrite <- HF. unfold survivors.
  rewrite (survivors_count (kept include_empty)).
  unfold kept. destruct include_empty; simpl.
  - now rewrite filter_all.
  - reflexivity.
Qed.

Lemma load_rows_count_witness :
  exists rows,
    load_rows (H := Sample.lib) Sample.ocr_json (u8 "LSE_001") 4 1 false 3 3 2
      = Ok rows /\
    List.length rows = 2%nat.
Proof.
  exact (@load_rows_count Sample.lib Sample.ocr_json
           [JStr (u8 " 天地 "); JStr (u8 "  "); JStr (u8 "玄黃")]
           [JArr [JArr [JInt 1; JInt 2]; JArr [JInt 3; JInt 4]];
            JArr [JArr [JInt 5; JInt 6]]]
           (u8 "LSE_001") 4 1 false 3 3 2 eq_refl eq_refl).
Defined.

(** C4: the IDs of the rows of one call of [load_rows] are pairwise distinct:
    they are the IDs built from the 1-based positions of the surviving
    entries, and these positions increase strictly along the output. *)
Theorem load_rows_ids_distinct `{Library} (json_data : json) (book_code : str)
    (volume page : Z) (include_empty : bool) (volume_pad page_pad column_pad : Z)
    (rows : list row) :
  load_rows json_data book_code volume page include_empty
    volume_pad page_pad column_pad = Ok rows ->
  NoDup (List.map ID rows) /\
  exists items,
    items_of json_data = Ok items /\
    List.map ID rows
    = List.map (fun i => build_id book_code volume page i
                           volume_pad page_pad column_pad)
        (List.map fst (survivors include_empty items)) /\
    StronglySorted Z.lt (List.map fst (survivors include_empty items)) /\
    Forall (fun i => 1 <= i <= len items)
      (List.map fst (survivors include_empty items)).
Proof.
  intros E. apply load_rows_ok in E. destruct E as (rec_polys & items & Hi & HF).
  destruct (positions_sorted (fun it => kept include_empty (snd it)) items 1)
    as [Hs Hr].
  fold (survivors include_empty items) in Hs, Hr.
  assert (Hids : List.map ID rows
                 = List.map (fun i => build_id book_code volume page i
                                        volume_pad page_pad column_pad)
                     (List.map fst (survivors include_empty items))).
  { rewrite map_map. eapply Forall2_map_eq; [|exact HF].
    intros it r (box & _ & ->). reflexivity. }
  split.
  - rewrite Hids. apply NoDup_map_NoDup_ForallPairs; [|now apply sorted_NoDup].
    intros i j Hin Hjn. rewrite Forall_forall in Hr.
    pose proof (Hr _ Hin). pose proof (Hr _ Hjn).
    apply build_id_inj; lia.
  - exists items. repeat split; try assumption.
    eapply Forall_impl; [|exact Hr]. cbv beta. intros; lia.
Qed.

Lemma load_rows_ids_distinct_witness :
  NoDup [u8 "LSE_001.004.001.01"; u8 "LSE_001.004.001.03"].
Proof.
  exact (proj1 (@load_rows_ids_distinct Sample.lib Sample.ocr_json
                  (u8 "LSE_001") 4 1 false 3 3 2 _ eq_refl)).
Defined.

(** C6: for lists [rec_texts] and [rec_polys] of any lengths [load_rows]
    returns. The guarded access gives the entry at 1-based position [i] the
    polygon [rec_polys[i-1]] when [i-1] is within the list and [None]
    otherwise, never an [IndexError]; the row's box is the serialised polygon,
    and the empty string where there is none. *)
Theorem load_rows_pairs_polygons `{Library} (json_data : json)
    (texts polys : list json) (book_code : str) (volume page : Z)
    (include_empty : bool) (volume_pad page_pad column_pad : Z) :
  dict_get json_data (u8 "rec_texts") (JArr []) = Ok (JArr texts) ->
  dict_get json_data (u8 "rec_polys") (JArr []) = Ok (JArr polys) ->
  (forall i, 1 <= i ->
     box_at (JArr polys) i
     = Ok (match nth_error polys (Z.to_nat (i - 1)) with
           | Some b => b
           | None => JNull
           end)) /\
  exists rows,
    load_rows json_data book_code volume page include_empty
      volume_pad page_pad column_pad = Ok rows /\
    Forall2 (fun it r =>
               ID r = build_id book_code volume page (fst it)
                        volume_pad page_pad column_pad /\
               Han_Char r = cleaned_text (snd it) /\
               Image_Box r =
                 match nth_error polys (Z.to_nat (fst it - 1)) with
                 | Some b => if truthy b then json_dumps b else []
                 | None => []
                 end)
      (survivors include_empty texts) rows.
Proof.
  intros Ht Hp. split; [intros i Hi; now apply box_at_list|].
  destruct (@load_rows_lists _ json_data book_code volume page include_empty
              volume_pad page_pad column_pad texts polys Ht Hp) as (rows & E & HF).
  exists rows. split; [exact E|].
  destruct (positions_sorted (fun it => kept include_empty (snd it)) texts 1)
    as [_ Hr].
  fold (survivors include_empty texts) in Hr.
  clear E. revert HF Hr. generalize (survivors include_empty texts). intros l HF.
  induction HF as [|it r l rows' (box & Hbox & ->) HF IH]; intros Hr;
    constructor.
  - cbn [List.map] in Hr. apply Forall_inv in Hr.
    rewrite box_at_list in Hbox by lia. injection Hbox as <-.
    cbn [ID Han_Char Image_Box]. repeat split.
    unfold polygon_at. now destruct (nth_error polys (Z.to_nat (fst it - 1))).
  - apply IH. cbn [List.map] in Hr. now apply Forall_inv_tail in Hr.
Qed.

Lemma load_rows_pairs_polygons_witness :
  exists rows,
    load_rows (H := Sample.lib) Sample.ocr_json (u8 "LSE_001") 4 1 true 3 3 2
      = Ok rows /\
    List.map Image_Box rows = [u8 "[[1, 2], [3, 4]]"; u8 "[[5, 6]]"; u8 ""].
Proof.
  destruct (proj2 (@load_rows_pairs_polygons Sample.lib Sample.ocr_json
             [JStr (u8 " 天地 "); JStr (u8 "  "); JStr (u8 "玄黃")]
             [JArr [JArr [JInt 1; JInt 2]; JArr [JInt 3; JInt 4]];
              JArr [JArr [JInt 5; JInt 6]]]
             (u8 "LSE_001") 4 1 true 3 3 2 eq_refl eq_refl)) as (rows & E & _).
  exists rows. split; [exact E|].
  vm_compute in E. injection E as <-. vm_compute. reflexivity.
Defined.

(** C9: every row that [load_rows] returns has the same image file name, the
    book code followed by ["_page_"], the zero-padded page number and
    [".png"]; it is a function of the book code, the page and the page width
    alone, whatever the input JSON holds. *)
Theorem load_rows_image_name `{Library} (json_data : json) (book_code : str)
    (volume page : Z) (include_empty : bool) (volume_pad page_pad column_pad : Z)
    (rows : list row) :
  load_rows json_data book_code volume page include_empty
    volume_pad page_pad column_pad = Ok rows ->
  Forall (fun r => Image_name r
                   = book_code ++ u8 "_page_" ++ zero_padded page page_pad
                       ++ u8 ".png") rows.
Proof.
  intros E. apply load_rows_ok in E. destruct E as (rec_polys & items & _ & HF).
  rewrite <- zfill_str_int_zero_padded.
  induction HF as [|it r l rows' (box & _ & ->) _ IH]; constructor.
  - reflexivity.
  - exact IH.
Qed.

Lemma load_rows_image_name_witness :
  Forall (fun r => Image_name r = u8 "LSE_001_page_001.png")
    [ {| ID := u8 "LSE_001.004.001.01"; Image_name := u8 "LSE_001_page_001.png";
         Han_Char := u8 "天地"; Image_Box := u8 "[[1, 2], [3, 4]]" |};
      {| ID := u8 "LSE_001.004.001.03"; Image_name := u8 "LSE_001_page_001.png";
         Han_Char := u8 "玄黃"; Image_Box := u8 "" |} ].
Proof.
  exact (@load_rows_image_name Sample.lib Sample.ocr_json
           (u8 "LSE_001") 4 1 false 3 3 2 _ eq_refl).
Defined.

End RecordBuilder.

(** ** The record builder: book code and volume inference *)

Module Inference.
Import Spec PyFacts ConvertExcel.

Section Infer.
Context `{Library}.
Variables (json_data : json) (json_path : path) (stem : str).
Hypothesis Hstem : candidate_stem json_data json_path = Ok stem.

Local Abbreviation parts := (split underscore stem).

(** The last segment is a literal: the volume is its value, the book code
    the joined prefix, or the whole stem when that prefix is empty. *)
Lemma infer_literal :
  nat_literal (last parts []) = true ->
  len (last parts []) <= int_max_str_digits ->
  infer_book_and_volume json_data json_path
  = Ok (if is_empty (join (u8 "_") (removelast parts)) then stem
        else join (u8 "_") (removelast parts),
        decimal_value (last parts [])).
Proof.
  unfold nat_literal. intros Hl Hmax. apply andb_true_iff in Hl.
  destruct Hl as [Hne Hd].
  assert (Hne' : last parts [] <> []).
  { intros E. rewrite E in Hne. discriminate. }
  unfold infer_book_and_volume. rewrite Hstem. cbn [bind].
  pose proof (split_nonempty underscore stem) as Hp.
  assert (Hlen : (len parts =? 0) = false).
  { apply Z.eqb_neq. unfold len. destruct parts; [contradiction|]. simpl. lia. }
  rewrite Hlen, (isdigit_ascii Hne' Hd). cbn [negb andb].
  rewrite (py_int_ascii Hne' Hd Hmax). reflexivity.
Qed.

(** The last segment is a literal of more digits than [int] reads: the
    inference raises. *)
Lemma infer_long_literal :
  nat_literal (last parts []) = true ->
  int_max_str_digits < len (last parts []) ->
  infer_book_and_volume json_data json_path = raise ValueError.
Proof.
  unfold nat_literal. intros Hl Hmax. apply andb_true_iff in Hl.
  destruct Hl as [Hne Hd].
  assert (Hne' : last parts [] <> []).
  { intros E. rewrite E in Hne. discriminate. }
  unfold infer_book_and_volume. rewrite Hstem. cbn [bind].
  pose proof (split_nonempty underscore stem) as Hp.
  assert (Hlen : (len parts =? 0) = false).
  { apply Z.eqb_neq. unfold len. destruct parts; [contradiction|]. simpl. lia. }
  rewrite Hlen, (isdigit_ascii Hne' Hd). cbn [negb andb].
  rewrite (py_int_too_long _ Hmax). reflexivity.
Qed.

(** The last segment is not made of digits: the whole stem, volume 1. *)
Lemma infer_no_digits :
  isdigit (last parts []) = false ->
  infer_book_and_volume json_data json_path = Ok (stem, 1).
Proof.
  intros Hl. unfold infer_book_and_volume. rewrite Hstem. cbn [bind].
  rewrite Hl, andb_false_r. reflexivity.
Qed.
End Infer.

(** C2, as the code has it: the stem is split on underscores. When the last
    segment is a non-negative integer literal of at most 4300 digits, the
    volume is that integer and the book code is the underscore-joined prefix
    before it, unless that prefix is empty, in which case the book code is
    the whole stem. When the literal has more than 4300 digits, [int] refuses
    it and the inference raises [ValueError]. When the last segment is not
    made of digits, the book code is the whole stem and the volume is 1. The
    stem ["giam_cuong_7"] gives (["giam_cuong"], 7) and the stem ["report"]
    gives (["report"], 1). *)
Theorem infer_book_and_volume_rule `{Library} (json_data : json)
    (json_path : path) (stem : str) :
  candidate_stem json_data json_path = Ok stem ->
  let parts := split underscore stem in
  let prefix := join (u8 "_") (removelast parts) in
  let last_segment := last parts [] in
  (nat_literal last_segment = true ->
     (len last_segment <= int_max_str_digits ->
        infer_book_and_volume json_data json_path
        = Ok (if is_empty prefix then stem else prefix,
              decimal_value last_segment))
     /\ (int_max_str_digits < len last_segment ->
          infer_book_and_volume json_data json_path = raise ValueError)
     /\ (is_empty prefix = false -> stem = prefix ++ u8 "_" ++ last_segment))
  /\ (isdigit last_segment = false ->
        infer_book_and_volume json_data json_path = Ok (stem, 1))
  /\ (stem = u8 "giam_cuong_7" ->
        infer_book_and_volume json_data json_path = Ok (u8 "giam_cuong", 7))
  /\ (stem = u8 "report" ->
        infer_book_and_volume json_data json_path = Ok (u8 "report", 1)).
Proof.
  intros Hstem parts prefix last_segment. repeat split.
  - now apply infer_literal.
  - now apply infer_long_literal.
  - intros Hp. apply (split_prefix_last underscore stem).
    fold parts. change [underscore] with (u8 "_"). fold prefix.
    intros E. rewrite E in Hp. discriminate.
  - now apply infer_no_digits.
  - intros ->.
    rewrite (infer_literal _ _ Hstem)
      by (vm_compute; solve [reflexivity | discriminate]).
    vm_compute. reflexivity.
  - intros ->. apply (infer_no_digits _ _ Hstem). reflexivity.
Qed.

Lemma infer_book_and_volume_rule_witness :
  (infer_book_and_volume (H := Sample.lib) Sample.ocr_json
     (u8 "output/giam_cuong_7_res.json") = Ok (u8 "giam_cuong", 7)
   /\ u8 "giam_cuong_7" = u8 "giam_cuong" ++ u8 "_" ++ u8 "7")
  /\ infer_book_and_volume (H := Sample.lib) Sample.long_volume_json (u8 "x.json")
     = raise ValueError
  /\ infer_book_and_volume (H := Sample.lib) (JObj []) (u8 "output/report.json")
     = Ok (u8 "report", 1)
  /\ infer_book_and_volume (H := Sample.lib) Sample.ocr_json
       (u8 "output/giam_cuong_7_res.json") = Ok (u8 "giam_cuong", 7)
  /\ infer_book_and_volume (H := Sample.lib) (JObj []) (u8 "output/report.json")
     = Ok (u8 "report", 1).
Proof.
  pose proof (@infer_book_and_volume_rule Sample.lib Sample.ocr_json
                (u8 "output/giam_cuong_7_res.json") (u8 "giam_cuong_7")
                ltac:(vm_compute; reflexivity)) as (P1 & _ & P3 & _).
  pose proof (@infer_book_and_volume_rule Sample.lib Sample.long_volume_json
                (u8 "x.json") (u8 "book_" ++ Sample.long_digits)
                ltac:(vm_compute; reflexivity)) as (L1 & _).
  pose proof (@infer_book_and_volume_rule Sample.lib (JObj [])
                (u8 "output/report.json") (u8 "report")
                ltac:(vm_compute; reflexivity)) as (_ & Q2 & _ & Q4).
  specialize (P1 ltac:(vm_compute; reflexivity)).
  destruct P1 as (P1 & _ & P1').
  specialize (P1 ltac:(vm_compute; discriminate)).
  specialize (P1' ltac:(vm_compute; reflexivity)).
  specialize (L1 ltac:(vm_compute; reflexivity)).
  destruct L1 as (_ & L1 & _).
  specialize (L1 ltac:(vm_compute; reflexivity)).
  specialize (Q2 ltac:(vm_compute; reflexivity)).
  specialize (P3 eq_refl). specialize (Q4 eq_refl).
  vm_compute in P1, P1', Q2, P3, Q4 |- *.
  repeat split; assumption.
Defined.

(** The rule as the specification words it gives the stem ["7"] an empty
    book code; the code gives it the book code ["7"]. *)
Lemma infer_single_segment_differs :
  candidate_stem (H := Sample.lib) (JObj []) (u8 "output/7.json") = Ok (u8 "7")
  /\ nat_literal (last (split underscore (u8 "7")) []) = true
  /\ inferred_by_rule (u8 "7") = (u8 "", 7)
  /\ infer_book_and_volume (H := Sample.lib) (JObj []) (u8 "output/7.json")
     = Ok (u8 "7", 7)
  /\ infer_book_and_volume (H := Sample.lib) (JObj []) (u8 "output/7.json")
     <> Ok (inferred_by_rule (u8 "7")).
Proof.
  repeat split; try (vm_compute; reflexivity).
  vm_compute. discriminate.
Qed.

(** A last segment of digits that [int] does not read: superscript two
    passes [str.isdigit] and [int] raises [ValueError]. *)
Example infer_superscript_two :
  infer_book_and_volume (H := Sample.lib) (JObj []) (u8 "output/a_².json")
  = raise ValueError.
Proof. vm_compute. reflexivity. Qed.

(** C10, as the code has it: a stem that is one segment of digits only has
    an empty joined prefix. With at most 4300 digits the inference falls back
    to the whole stem as the book code, with the integer the stem denotes as
    the volume; with more digits [int] refuses the stem and the inference
    raises [ValueError]. In neither case is an empty book code returned. *)
Theorem infer_all_digits_stem `{Library} (json_data : json) (json_path : path)
    (stem : str) :
  candidate_stem json_data json_path = Ok stem ->
  nat_literal stem = true ->
  split underscore stem = [stem]
  /\ join (u8 "_") (removelast (split underscore stem)) = []
  /\ (len stem <= int_max_str_digits ->
      infer_book_and_volume json_data json_path = Ok (stem, decimal_value stem))
  /\ (int_max_str_digits < len stem ->
      infer_book_and_volume json_data json_path = raise ValueError).
Proof.
  intros Hstem Hl.
  assert (Hs : split underscore stem = [stem]).
  { apply split_no_sep, ascii_digits_no_underscore.
    unfold nat_literal in Hl. apply andb_true_iff in Hl. tauto. }
  split; [exact Hs|]. split; [now rewrite Hs|]. split; intros Hmax.
  - rewrite (infer_literal _ _ Hstem); rewrite Hs; [reflexivity|exact Hl|exact Hmax].
  - apply (infer_long_literal _ _ Hstem); rewrite Hs; [exact Hl|exact Hmax].
Qed.

Lemma infer_all_digits_stem_witness :
  infer_book_and_volume (H := Sample.lib) (JObj []) (u8 "output/7.json")
  = Ok (u8 "7", 7)
  /\ infer_book_and_volume (H := Sample.lib) Sample.long_stem_json (u8 "x.json")
     = raise ValueError.
Proof.
  pose proof (@infer_all_digits_stem Sample.lib (JObj []) (u8 "output/7.json")
                (u8 "7") ltac:(vm_compute; reflexivity)
                ltac:(vm_compute; reflexivity)) as (_ & _ & P & _).
  pose proof (@infer_all_digits_stem Sample.lib Sample.long_stem_json (u8 "x.json")
                Sample.long_digits ltac:(vm_compute; reflexivity)
                ltac:(vm_compute; reflexivity)) as (_ & _ & _ & Q).
  split.
  - exact (P ltac:(vm_compute; discriminate)).
  - exact (Q ltac:(vm_compute; reflexivity)).
Defined.

(** The claim as worded gives every stem of digits its own value as the
    volume; for a stem of 4301 digits the code raises instead. *)
Lemma infer_long_digit_stem_raises :
  candidate_stem (H := Sample.lib) Sample.long_stem_json (u8 "x.json") = Ok Sample.long_digits
  /\ nat_literal Sample.long_digits = true
  /\ len Sample.long_digits = 4301
  /\ infer_book_and_volume (H := Sample.lib) Sample.long_stem_json (u8 "x.json")
     = raise ValueError
  /\ infer_book_and_volume (H := Sample.lib) Sample.long_stem_json (u8 "x.json")
     <> Ok (Sample.long_digits, decimal_value Sample.long_digits).
Proof.
  repeat split; try (vm_compute; reflexivity).
  vm_compute. discriminate.
Qed.

End Inference.

(** ** Runs of programs *)

Module RunFacts.

Section Run.
Variable E : Type -> Type.

Lemma run_vis (w : world E) {A X} (ev : E X) (k : X -> prog E A) :
  run w (Vis ev k)
  = (Entry ev (w _ ev) :: fst (run w (k (w _ ev))), snd (run w (k (w _ ev)))).
Proof. simpl. now destruct (run w (k (w X ev))). Qed.

Lemma run_pbind (w : world E) {A B} (p : prog E A) (f : A -> prog E B) :
  run w (pbind p f)
  = match snd (run w p) with
    | Returned a => (fst (run w p) ++ fst (run w (f a)), snd (run w (f a)))
    | Raised e => (fst (run w p), Raised e)
    | Exited msg => (fst (run w p), Exited msg)
    end.
Proof.
  induction p as [a|e|msg|X ev k IH]; cbn [pbind].
  - simpl. now destruct (run w (f a)).
  - reflexivity.
  - reflexivity.
  - rewrite !run_vis. cbn [fst snd]. rewrite IH.
    now destruct (snd (run w (k (w X ev)))).
Qed.

Lemma run_call (w : world E) {X} (ev : E X) :
  run w (call ev) = ([Entry ev (w _ ev)], Returned (w _ ev)).
Proof. reflexivity. Qed.

Lemma run_call_r (w : world E) {X} (ev : E (result X)) :
  run w (call_r ev)
  = ([Entry ev (w _ ev)],
     match w _ ev with Ok x => Returned x | Raise e => Raised e end).
Proof. unfold call_r. rewrite run_vis. now destruct (w _ ev). Qed.

Lemma run_lift (w : world E) {A} (r : result A) :
  run w (lift E r)
  = ([], match r with Ok a => Returned a | Raise e => Raised e end).
Proof. now destruct r. Qed.
End Run.

End RunFacts.

(** ** The record builder: the entry point *)

Module EntryPoint.
Import Spec RunFacts ConvertExcel.

Section Main.
Context `{Library}.

Lemma ensure_json_path_quiet (w : world event) (args : Args.Namespace) :
  forallb (fun e => negb (touches_files e))
    (fst (run w (ensure_json_path args))) = true
  /\ csv_written (fst (run w (ensure_json_path args))) = [].
Proof.
  unfold ensure_json_path. destruct (Args.json_path args); [now split|].
  rewrite run_pbind, run_call. cbn [fst snd app].
  destruct (is_empty _); now split.
Qed.

Lemma csv_written_app (t1 t2 : list (entry event)) :
  csv_written (t1 ++ t2) = csv_written t1 ++ csv_written t2.
Proof. unfold csv_written. apply flat_map_app. Qed.

Lemma csv_pbind {A B} (w : world event) (p : prog event A) (f : A -> prog event B) :
  csv_written (fst (run w (pbind p f)))
  = csv_written (fst (run w p))
    ++ match snd (run w p) with
       | Returned a => csv_written (fst (run w (f a)))
       | _ => []
       end.
Proof.
  rewrite run_pbind. destruct (snd (run w p)); cbn [fst].
  - apply csv_written_app.
  - now rewrite app_nil_r.
  - now rewrite app_nil_r.
Qed.

(** The spreadsheet export and the closing messages write no CSV. *)
Lemma write_excel_no_csv (w : world event) rows columns output_path :
  csv_written (fst (run w (write_excel rows columns output_path))) = [].
Proof.
  unfold write_excel. rewrite csv_pbind, run_call. cbn [fst snd csv_written flat_map app].
  match goal with
  | |- context [match ?x with Some _ => _ | None => _ end] => destruct x
  end.
  - now rewrite run_call.
  - rewrite csv_pbind, !run_call_r. cbn [fst snd csv_written flat_map app].
    match goal with
    | |- context [match ?x with Ok _ => _ | Raise _ => _ end] => destruct x
    end; reflexivity.
Qed.

Lemma tail_no_csv (w : world event) (flag : bool) rows columns excel_path s1 s2 :
  csv_written (fst (run w
    ((if flag then write_excel rows columns excel_path else Ret tt) ;;;
     call (Print s1) ;;;
     if flag then call (Print s2) else Ret tt))) = [].
Proof.
  rewrite csv_pbind.
  assert (Hx : csv_written (fst (run w
                 (if flag then write_excel rows columns excel_path else Ret tt)))
               = []).
  { destruct flag; [apply write_excel_no_csv|reflexivity]. }
  rewrite Hx. cbn [app].
  destruct (snd (run w _)); try reflexivity.
  rewrite csv_pbind, run_call. cbn [fst snd csv_written flat_map app].
  destruct flag; [now rewrite run_call|reflexivity].
Qed.

End Main.

(** C5: once the path of the input JSON is settled, if no file exists there
    the run ends in [sys.exit] with the message ["Input JSON not found: "]
    followed by the path, having read and written no file. If the file
    exists, is read and parsed, the inference returns and [load_rows] returns
    no row, the run prints the empty-result message on stderr and returns
    normally, having created no directory and written no file. *)
Theorem main_missing_or_empty `{Library} (w : world event)
    (args : Args.Namespace) (t0 : list (entry event)) (p : path) :
  run w (ensure_json_path args) = (t0, Returned p) ->
  (w _ (Exists p) = false ->
     run w (main args)
     = (t0 ++ [Entry (Exists p) false],
        Exited (u8 "Input JSON not found: " ++ path_str p))
     /\ forallb (fun e => negb (touches_files e))
          (fst (run w (main args))) = true)
  /\ (forall text json_data inferred,
        w _ (Exists p) = true ->
        w _ (ReadText p (u8 "utf-8")) = Ok text ->
        json_loads text = Ok json_data ->
        infer_book_and_volume json_data p = Ok inferred ->
        load_rows json_data (chosen_book_code args (fst inferred))
          (chosen_volume args (snd inferred)) (Args.page args)
          (Args.include_empty args) (Args.volume_pad args)
          (Args.page_pad args) (Args.column_pad args) = Ok [] ->
        run w (main args)
        = (t0 ++ [Entry (Exists p) true;
                  Entry (ReadText p (u8 "utf-8")) (Ok text);
                  Entry (PrintErr
                           (u8 "No rows generated (all OCR entries were empty)."))
                    tt],
           Returned tt)
        /\ forallb (fun e => negb (writes_files e))
             (fst (run w (main args))) = true).
Proof.
  intros Hens.
  pose proof (ensure_json_path_quiet w args) as [Hq _].
  rewrite Hens in Hq. cbn [fst] in Hq.
  split.
  - intros Hex.
    assert (E : run w (main args)
                = (t0 ++ [Entry (Exists p) false],
                   Exited (u8 "Input JSON not found: " ++ path_str p))).
    { unfold main. rewrite run_pbind, Hens. cbn [fst snd].
      rewrite run_pbind, run_call, Hex. cbn [fst snd negb]. reflexivity. }
    split; [exact E|]. rewrite E. cbn [fst].
    rewrite forallb_app, Hq. reflexivity.
  - intros text json_data inferred Hex Hread Hloads Hinf Hrows.
    assert (E : run w (main args)
                = (t0 ++ [Entry (Exists p) true;
                          Entry (ReadText p (u8 "utf-8")) (Ok text);
                          Entry (PrintErr
                            (u8 "No rows generated (all OCR entries were empty)."))
                            tt],
                   Returned tt)).
    { unfold main. rewrite run_pbind, Hens. cbn [fst snd].
      rewrite run_pbind, run_call, Hex. cbn [fst snd negb].
      rewrite run_pbind, run_call_r, Hread. cbn [fst snd].
      rewrite run_pbind, run_lift, Hloads. cbn [fst snd].
      rewrite run_pbind, run_lift, Hinf. cbn [fst snd].
      unfold chosen_book_code, chosen_volume in Hrows.
      rewrite run_pbind, run_lift, Hrows. cbn [fst snd].
      rewrite run_call. destruct (w unit _). reflexivity. }
    split; [exact E|]. rewrite E. cbn [fst].
    rewrite forallb_app.
    assert (Hq' : forallb (fun e => negb (writes_files e)) t0 = true).
    { clear - Hq. induction t0 as [|e t IH]; [reflexivity|].
      simpl in Hq |- *. apply andb_true_iff in Hq. destruct Hq as [He Ht].
      rewrite (IH Ht), andb_true_r.
      destruct e as [X ev x]. destruct ev; simpl in *; try reflexivity;
        discriminate. }
    rewrite Hq'. reflexivity.
Qed.

End EntryPoint.

Module EntryPointExamples.
Import Spec ConvertExcel EntryPoint.

Lemma main_missing_or_empty_witness :
  run (Sample.world_of false None) (main (H := Sample.lib) (Sample.args false))
  = ([Entry (Exists (u8 "output/giam_cuong_7_res.json")) false],
     Exited (u8 "Input JSON not found: output/giam_cuong_7_res.json"))
  /\ run (Sample.world_of true None)
       (main (H := Sample.blank_lib) (Sample.args false))
     = ([Entry (Exists (u8 "output/giam_cuong_7_res.json")) true;
         Entry (ReadText (u8 "output/giam_cuong_7_res.json") (u8 "utf-8"))
           (Ok Sample.file_text);
         Entry (PrintErr (u8 "No rows generated (all OCR entries were empty).")) tt],
        Returned tt).
Proof.
  split.
  - pose proof (proj1 (proj1
      (@main_missing_or_empty Sample.lib
         (Sample.world_of false None)
         (Sample.args false) []
         (u8 "output/giam_cuong_7_res.json") ltac:(vm_compute; reflexivity))
      ltac:(vm_compute; reflexivity))) as P.
    vm_compute in P |- *. exact P.
  - pose proof (proj1 (proj2
      (@main_missing_or_empty Sample.blank_lib
         (Sample.world_of true None)
         (Sample.args false) []
         (u8 "output/giam_cuong_7_res.json") ltac:(vm_compute; reflexivity))
      Sample.file_text Sample.blank_json (u8 "giam_cuong_7_res", 1)
      ltac:(vm_compute; reflexivity) ltac:(vm_compute; reflexivity) ltac:(vm_compute; reflexivity)
      ltac:(vm_compute; reflexivity) ltac:(vm_compute; reflexivity))) as P.
    vm_compute in P |- *. exact P.
Defined.

Example main_csv_output :
  csv_written (fst (run (Sample.world_of true None)
                      (main (H := Sample.lib) (Sample.args true))))
  = [(u8 "output/LSE_001_004.csv",
      u8 "ID,Image_name,Han Char,Image Box" ++ Sample.crlf
      ++ u8 "LSE_001.004.001.01,LSE_001_page_001.png,天地,[[1, 2], [3, 4]]"
      ++ Sample.crlf
      ++ u8 "LSE_001.004.001.03,LSE_001_page_001.png,玄黃," ++ Sample.crlf)].
Proof. vm_compute. reflexivity. Qed.

End EntryPointExamples.

(** ** The PDF page renderers *)

Module PdfPages.
Import Spec RunFacts Fitz.

Lemma out_of_range (page_number count : Z) :
  count <= page_number ->
  (0 <=? page_number) && (page_number <? count) = false.
Proof.
  intros Hc. destruct (Z.ltb_spec page_number count); [lia|].
  apply andb_false_r.
Qed.

(** C8: when the requested page index is equal to or beyond the page count of
    the PDF, [convert_pdf_page_to_image] opens the document, prints that the
    page number is out of range and returns, without loading or rendering a
    page or saving an image; [convert_pdf_to_image], for a PDF that exists,
    raises [ValueError] without loading or rendering a page, and with a
    zoom that passes the zoom check the error is the one about the page
    number, the document being opened before and closed after. *)
Theorem page_index_out_of_range :
  (forall (w : world ConvertImage.event) (pdf_path : str) (page_number : Z)
          (output_image_path : str) (zoom : float) (doc : document),
      w _ (ConvertImage.FitzOpen pdf_path) = Ok doc ->
      page_count doc <= page_number ->
      run w (ConvertImage.convert_pdf_page_to_image pdf_path page_number
               output_image_path zoom)
      = ([Entry (ConvertImage.FitzOpen pdf_path) (Ok doc);
          Entry (ConvertImage.Print
                   (u8 "Error: Page number " ++ str_int page_number
                      ++ u8 " is out of range.")) tt],
         Returned tt)
      /\ forallb (fun e => negb (renders_or_saves e))
           (fst (run w (ConvertImage.convert_pdf_page_to_image pdf_path
                          page_number output_image_path zoom))) = true)
  /\ (forall (w : world PdfToPreprocessedImage.event) (pdf_path : str)
             (page_num : Z) (zoom : float) (doc : document),
        w _ (PdfToPreprocessedImage.OsPathExists pdf_path) = true ->
        w _ (PdfToPreprocessedImage.FitzOpen pdf_path) = Ok doc ->
        page_count doc <= page_num ->
        (exists msg,
           snd (run w (PdfToPreprocessedImage.convert_pdf_to_image pdf_path
                         page_num zoom))
           = Raised (Exn ValueError (Some msg)))
        /\ forallb (fun e => negb (renders e))
             (fst (run w (PdfToPreprocessedImage.convert_pdf_to_image pdf_path
                            page_num zoom))) = true
        /\ (PrimFloat.leb zoom 0%float = false ->
             run w (PdfToPreprocessedImage.convert_pdf_to_image pdf_path
                      page_num zoom)
             = ([Entry (PdfToPreprocessedImage.OsPathExists pdf_path) true;
                 Entry (PdfToPreprocessedImage.FitzOpen pdf_path) (Ok doc);
                 Entry (PdfToPreprocessedImage.Close doc) tt],
                Raised (Exn ValueError
                  (Some (u8 "Số trang không hợp lệ. PDF có "
                           ++ str_int (page_count doc) ++ u8 " trang, "
                           ++ u8 "nhưng bạn yêu cầu trang "
                           ++ str_int (page_num + 1) ++ u8 ".")))))).
Proof.
  split.
  - intros w pdf_path page_number output_image_path zoom doc Hopen Hrange.
    assert (E : run w (ConvertImage.convert_pdf_page_to_image pdf_path page_number
                         output_image_path zoom)
                = ([Entry (ConvertImage.FitzOpen pdf_path) (Ok doc);
                    Entry (ConvertImage.Print
                             (u8 "Error: Page number " ++ str_int page_number
                                ++ u8 " is out of range.")) tt],
                   Returned tt)).
    { unfold ConvertImage.convert_pdf_page_to_image.
      cbn [try_except pbind call_r]. rewrite run_vis, Hopen.
      cbn [try_except pbind]. rewrite (out_of_range Hrange).
      cbn [try_except pbind call]. rewrite run_vis.
      cbn [run fst snd]. now destruct (w unit _). }
    split; [exact E|]. rewrite E. reflexivity.
  - intros w pdf_path page_num zoom doc Hexists Hopen Hrange.
    unfold PdfToPreprocessedImage.convert_pdf_to_image.
    cbn [pbind call]. rewrite run_vis, Hexists. cbn [negb fst snd].
    destruct (PrimFloat.leb zoom 0).
    + split; [eexists; reflexivity|]. split; [reflexivity|discriminate].
    + cbn [pbind call_r]. rewrite run_vis, Hopen. cbn [fst snd pbind].
      rewrite (out_of_range Hrange). cbn [negb try_finally pbind call].
      rewrite run_vis. cbn [run fst snd].
      split; [eexists; reflexivity|]. split; [reflexivity|].
      intros _. now destruct (w unit _).
Qed.

Lemma page_index_out_of_range_witness :
  run Sample.pdf_world
    (ConvertImage.convert_pdf_page_to_image (u8 "data/giam_cuong.pdf") 5
       (u8 "content/giam_cuong.png") 2%float)
  = ([Entry (ConvertImage.FitzOpen (u8 "data/giam_cuong.pdf")) (Ok Sample.five_pages);
      Entry (ConvertImage.Print (u8 "Error: Page number 5 is out of range.")) tt],
     Returned tt)
  /\ run Sample.pdf_array_world
       (PdfToPreprocessedImage.convert_pdf_to_image
          (u8 "data/giam_cuong.pdf") 5 2%float)
     = ([Entry (PdfToPreprocessedImage.OsPathExists (u8 "data/giam_cuong.pdf")) true;
         Entry (PdfToPreprocessedImage.FitzOpen (u8 "data/giam_cuong.pdf"))
           (Ok Sample.five_pages);
         Entry (PdfToPreprocessedImage.Close Sample.five_pages) tt],
        Raised (Exn ValueError
          (Some (u8 "Số trang không hợp lệ. PDF có 5 trang, nhưng bạn yêu cầu trang 6.")))).
Proof.
  split.
  - pose proof (proj1 (proj1 page_index_out_of_range Sample.pdf_world
             (u8 "data/giam_cuong.pdf") 5 (u8 "content/giam_cuong.png") 2%float
             Sample.five_pages eq_refl ltac:(simpl; lia))) as P.
    vm_compute in P |- *. exact P.
  - pose proof (proj2 (proj2 (proj2 page_index_out_of_range Sample.pdf_array_world
             (u8 "data/giam_cuong.pdf") 5 2%float
             Sample.five_pages eq_refl eq_refl ltac:(simpl; lia))) eq_refl) as P.
    vm_compute in P |- *. exact P.
Defined.

End PdfPages.

(** ** More on IDs and rows *)

Module MoreRows.
Import Spec Extra PyFacts LoopFacts RecordBuilder ConvertExcel.

(** *** Separators *)

Lemma prefix_sep_unique (sep : char) (a a' r r' : str) :
  lacks sep a = true -> lacks sep a' = true ->
  a ++ sep :: r = a' ++ sep :: r' -> a = a' /\ r = r'.
Proof.
  revert a'. induction a as [|x a IH]; intros a' Ha Ha' E.
  - destruct a' as [|y a']; simpl in E.
    + injection E as E. now split.
    + injection E as E1 E2. subst y. simpl in Ha'.
      rewrite N.eqb_refl in Ha'. discriminate.
  - destruct a' as [|y a']; simpl in E.
    + injection E as E1 E2. subst x. simpl in Ha.
      rewrite N.eqb_refl in Ha. discriminate.
    + injection E as E1 E2. subst y. simpl in Ha, Ha'.
      apply andb_true_iff in Ha. apply andb_true_iff in Ha'.
      destruct (IH a' (proj2 Ha) (proj2 Ha') E2) as [-> ->]. now split.
Qed.

Lemma lacks_cons (c x : char) (s : str) :
  lacks c (x :: s) = negb (x =? c)%N && lacks c s.
Proof. reflexivity. Qed.

Lemma lacks_rev (sep : char) (s : str) : lacks sep (rev s) = lacks sep s.
Proof. unfold lacks. apply forallb_rev. Qed.

Lemma suffix_sep_unique (sep : char) (x x' c c' : str) :
  lacks sep c = true -> lacks sep c' = true ->
  x ++ sep :: c = x' ++ sep :: c' -> x = x' /\ c = c'.
Proof.
  intros Hc Hc' E. apply (f_equal (@rev char)) in E.
  rewrite !rev_app_distr in E. simpl in E. rewrite <- !app_assoc in E.
  simpl in E.
  apply prefix_sep_unique in E; try now rewrite lacks_rev.
  destruct E as [E1 E2].
  apply (f_equal (@rev char)) in E1. apply (f_equal (@rev char)) in E2.
  rewrite !rev_involutive in E1, E2. now split.
Qed.

(** *** Padded renderings *)

Lemma lacks_digits (c : char) (s : str) :
  is_ascii_digit c = false -> ascii_digits s = true -> lacks c s = true.
Proof.
  intros Hc. induction s as [|x s IH]; simpl; [reflexivity|].
  intros Hs. apply andb_true_iff in Hs. destruct Hs as [Hx Hs].
  rewrite (IH Hs), andb_true_r. apply negb_true_iff, N.eqb_neq.
  intros ->. rewrite Hx in Hc. discriminate.
Qed.

Lemma ascii_digits_repeat_zero (k : nat) : ascii_digits (repeat zero_char k) = true.
Proof. induction k; simpl; [reflexivity|assumption]. Qed.

Lemma zero_padded_nonneg (n w : Z) :
  0 <= n ->
  zero_padded n w
  = repeat zero_char (Z.to_nat (w - len (str_N (Z.abs_N n)))) ++ str_N (Z.abs_N n).
Proof.
  intros Hn. unfold zero_padded.
  destruct (Z.ltb_spec n 0) as [Hlt|_]; [lia|].
  change (len (@nil char)) with 0. now rewrite Z.sub_0_r.
Qed.

Lemma zero_padded_neg (n w : Z) :
  n < 0 ->
  zero_padded n w
  = minus_sign
      :: repeat zero_char (Z.to_nat (w - 1 - len (str_N (Z.abs_N n))))
      ++ str_N (Z.abs_N n).
Proof.
  intros Hn. unfold zero_padded.
  destruct (Z.ltb_spec n 0) as [_|Hge]; [|lia]. reflexivity.
Qed.

Lemma zero_padded_digits (n w : Z) :
  0 <= n -> ascii_digits (zero_padded n w) = true /\ zero_padded n w <> [].
Proof.
  intros Hn. rewrite zero_padded_nonneg by assumption. split.
  - unfold ascii_digits. rewrite forallb_app.
    fold (ascii_digits (repeat zero_char (Z.to_nat (w - len (str_N (Z.abs_N n)))))).
    fold (ascii_digits (str_N (Z.abs_N n))).
    now rewrite ascii_digits_repeat_zero, str_N_ascii.
  - intros E. apply app_eq_nil in E. destruct E as [_ E].
    now apply str_N_nonempty in E.
Qed.

Lemma zero_padded_lacks (c : char) (n w : Z) :
  is_ascii_digit c = false -> c <> minus_sign -> lacks c (zero_padded n w) = true.
Proof.
  intros Hc Hm. destruct (Z.lt_ge_cases n 0) as [Hn|Hn].
  - rewrite zero_padded_neg by assumption. rewrite lacks_cons.
    apply andb_true_iff. split.
    + apply negb_true_iff, N.eqb_neq. congruence.
    + apply lacks_digits; [assumption|].
      unfold ascii_digits. rewrite forallb_app.
      fold (ascii_digits (str_N (Z.abs_N n))). rewrite str_N_ascii, andb_true_r.
      apply ascii_digits_repeat_zero.
  - apply lacks_digits; [assumption|]. now apply zero_padded_digits.
Qed.

(** Zero padding to one width never makes two integers look alike. *)
Lemma zero_padded_inj (i j w : Z) : zero_padded i w = zero_padded j w -> i = j.
Proof.
  intros E.
  destruct (Z.lt_ge_cases i 0) as [Hi|Hi], (Z.lt_ge_cases j 0) as [Hj|Hj].
  - rewrite !zero_padded_neg in E by assumption. injection E as E.
    apply (f_equal decimal_value) in E.
    rewrite !decimal_value_zeros, !str_N_value in E. lia.
  - exfalso. rewrite zero_padded_neg in E by assumption.
    destruct (zero_padded_digits w Hj) as [Hd Hne].
    destruct (zero_padded j w) as [|c r]; [discriminate|].
    injection E as E _. subst c. simpl in Hd. discriminate.
  - exfalso. rewrite (zero_padded_neg w Hj) in E.
    destruct (zero_padded_digits w Hi) as [Hd Hne].
    destruct (zero_padded i w) as [|c r]; [discriminate|].
    injection E as E _. subst c. simpl in Hd. discriminate.
  - rewrite <- !zfill_str_int_zero_padded in E.
    now apply zfill_str_int_inj in E.
Qed.

Lemma build_id_parts (book_code : str) (volume page column_idx vp pp cp : Z) :
  build_id book_code volume page column_idx vp pp cp
  = ((book_code ++ 46%N :: zero_padded volume vp) ++ 46%N :: zero_padded page pp)
      ++ 46%N :: zero_padded column_idx cp.
Proof.
  unfold build_id. rewrite !zfill_str_int_zero_padded.
  change (u8 ".") with [46%N]. rewrite <- !app_assoc. reflexivity.
Qed.

(** X1: with the pad widths fixed, an ID determines the book code, the
    volume, the page and the column it was built from. *)
Theorem build_id_injective (book_code book_code' : str)
    (volume volume' page page' column_idx column_idx' : Z)
    (volume_pad page_pad column_pad : Z) :
  build_id book_code volume page column_idx volume_pad page_pad column_pad
  = build_id book_code' volume' page' column_idx' volume_pad page_pad column_pad ->
  book_code = book_code' /\ volume = volume' /\ page = page'
  /\ column_idx = column_idx'.
Proof.
  rewrite !build_id_parts. intros E.
  assert (Hdot : forall n w, lacks 46%N (zero_padded n w) = true).
  { intros n w. apply zero_padded_lacks; [reflexivity|discriminate]. }
  apply suffix_sep_unique in E; try apply Hdot. destruct E as [E Ec].
  apply suffix_sep_unique in E; try apply Hdot. destruct E as [E Ep].
  apply suffix_sep_unique in E; try apply Hdot. destruct E as [E Ev].
  repeat split; [assumption|now apply zero_padded_inj in Ev
                |now apply zero_padded_inj in Ep|now apply zero_padded_inj in Ec].
Qed.

Lemma build_id_injective_witness :
  u8 "LSE_001" = u8 "LSE_001" /\ 4 = 4 /\ 1 = 1 /\ 12 = 12.
Proof.
  exact (@build_id_injective (u8 "LSE_001") (u8 "LSE_001") 4 4 1 1 12 12 3 3 2
           eq_refl).
Defined.

(** *** Trimming *)

Lemma lstrip_idem (s : str) : lstrip (lstrip s) = lstrip s.
Proof.
  induction s as [|c r IH]; simpl; [reflexivity|].
  destruct (isspace c) eqn:Hc; [assumption|]. simpl. now rewrite Hc.
Qed.

Lemma lstrip_suffix (s : str) :
  exists p, s = p ++ lstrip s /\ forallb isspace p = true.
Proof.
  induction s as [|c r (p & Hp & Hs)]; simpl.
  - now exists [].
  - destruct (isspace c) eqn:Hc.
    + exists (c :: p). simpl. rewrite Hc, Hs. split; [now f_equal|reflexivity].
    + now exists [].
Qed.

Lemma lstrip_length (s : str) : (List.length (lstrip s) <= List.length s)%nat.
Proof.
  induction s as [|c r IH]; simpl; [lia|].
  destruct (isspace c); simpl; lia.
Qed.

Lemma lstrip_fixed_head (c : char) (r : str) :
  lstrip (c :: r) = c :: r -> isspace c = false.
Proof.
  simpl. destruct (isspace c); [|reflexivity]. intros E.
  pose proof (lstrip_length r) as Hl. rewrite E in Hl. simpl in Hl. lia.
Qed.

(** What [strip] returns neither starts nor ends with whitespace. *)
Lemma strip_trimmed (s : str) :
  lstrip (strip s) = strip s /\ lstrip (rev (strip s)) = rev (strip s).
Proof.
  unfold strip, rstrip. rewrite rev_involutive. split; [|apply lstrip_idem].
  set (t := lstrip s). set (y := lstrip (rev t)).
  destruct (lstrip_suffix (rev t)) as (p & Hp & _). fold y in Hp.
  apply (f_equal (@rev char)) in Hp. rewrite rev_involutive, rev_app_distr in Hp.
  destruct (rev y) as [|c r] eqn:Hy; [reflexivity|].
  simpl in Hp.
  assert (Ht : lstrip t = t) by apply lstrip_idem.
  rewrite Hp in Ht. apply lstrip_fixed_head in Ht.
  simpl. now rewrite Ht.
Qed.

Lemma strip_idem (s : str) : strip (strip s) = strip s.
Proof.
  destruct (strip_trimmed s) as [H1 H2].
  unfold strip at 1. unfold rstrip. rewrite H1, H2. apply rev_involutive.
Qed.

(** *** Rows *)

Section Loop.
Context `{Library}.
Variables (rec_polys : json) (book_code : str) (volume page : Z)
  (volume_pad page_pad column_pad : Z) (image_name : str).

Local Abbreviation loop flag :=
  (for_each rec_polys book_code volume page flag
     volume_pad page_pad column_pad image_name).

Lemma for_each_filtered (items : list json) : forall idx acc out,
  loop true items idx acc = Ok out ->
  loop false items idx (filter has_han_char acc) = Ok (filter has_han_char out).
Proof.
  induction items as [|text rest IH]; intros idx acc out E; simpl in E |- *.
  - now injection E as <-.
  - rewrite andb_false_r in E. rewrite andb_true_r.
    destruct (box_at rec_polys idx) as [box|e]; simpl in E; [|discriminate].
    apply IH in E. rewrite filter_app in E. simpl in E.
    unfold has_han_char at 2 in E. cbn [Han_Char] in E.
    destruct (is_empty (cleaned_text text)); simpl in E |- *.
    + now rewrite app_nil_r in E.
    + exact E.
Qed.

Lemma for_each_no_survivor (flag : bool) (items : list json) : forall idx acc,
  filter (fun it => kept flag (snd it)) (enumerate items idx) = [] ->
  loop flag items idx acc = Ok acc.
Proof.
  induction items as [|text rest IH]; intros idx acc E; simpl in E |- *.
  - reflexivity.
  - rewrite skip_iff_not_kept.
    destruct (kept flag text); [discriminate|]. simpl. now apply IH.
Qed.

Lemma for_each_unsized (flag : bool) (e : exn) (items : list json) :
  py_len rec_polys = Raise e ->
  forall idx acc,
    filter (fun it => kept flag (snd it)) (enumerate items idx) <> [] ->
    loop flag items idx acc = Raise e.
Proof.
  intros Hlen. induction items as [|text rest IH]; intros idx acc E;
    simpl in E |- *.
  - contradiction.
  - rewrite skip_iff_not_kept.
    destruct (kept flag text); simpl.
    + unfold box_at. now rewrite Hlen.
    + now apply IH.
Qed.

Lemma for_each_texts (flag : bool) (items : list json) : forall idx acc out,
  loop flag items idx acc = Ok out ->
  exists new,
    out = acc ++ new /\
    Forall (fun r => exists text,
              kept flag text = true /\ Han_Char r = cleaned_text text) new.
Proof.
  intros idx acc out E. apply for_each_ok in E.
  destruct E as (new & -> & HF). exists new. split; [reflexivity|].
  assert (Hk : Forall (fun it => kept flag (snd it) = true)
                 (filter (fun it => kept flag (snd it)) (enumerate items idx))).
  { apply Forall_forall. intros it Hin. now apply filter_In in Hin. }
  revert Hk. induction HF as [|it r l new' (box & _ & ->) _ IH]; intros Hk.
  - constructor.
  - constructor.
    + exists (snd it). split; [now apply Forall_inv in Hk|reflexivity].
    + apply IH. now apply Forall_inv_tail in Hk.
Qed.
End Loop.

Section LoadRows.
Context `{Library}.
Variables (json_data : json) (book_code : str) (volume page : Z)
  (volume_pad page_pad column_pad : Z).

Local Abbreviation rows_of flag :=
  (load_rows json_data book_code volume page flag
     volume_pad page_pad column_pad).

(** X2: the include-empty flag only adds rows. When the call with the flag
    returns, the call without it returns exactly its rows with non-empty
    text, in the same order and with the same IDs, boxes and image name. *)
Theorem load_rows_flag_filters (all : list row) :
  rows_of true = Ok all ->
  rows_of false = Ok (filter has_han_char all).
Proof.
  unfold load_rows. intros E.
  destruct (dict_get json_data (u8 "rec_texts") (JArr [])); [|discriminate].
  cbn [bind] in E |- *.
  destruct (dict_get json_data (u8 "rec_polys") (JArr [])); [|discriminate].
  cbn [bind] in E |- *.
  destruct (py_iter a); [|discriminate]. cbn [bind] in E |- *.
  now apply for_each_filtered in E.
Qed.

(** X3: the text of every returned row is trimmed (stripping it again changes
    nothing, so it neither starts nor ends with whitespace), and without the
    include-empty flag it is never empty. *)
Theorem load_rows_texts_trimmed (flag : bool) (rows : list row) :
  rows_of flag = Ok rows ->
  Forall (fun r => strip (Han_Char r) = Han_Char r
                   /\ lstrip (Han_Char r) = Han_Char r
                   /\ lstrip (rev (Han_Char r)) = rev (Han_Char r)
                   /\ (flag = false -> Han_Char r <> [])) rows.
Proof.
  unfold load_rows. intros E.
  destruct (dict_get json_data (u8 "rec_texts") (JArr [])); [|discriminate].
  cbn [bind] in E.
  destruct (dict_get json_data (u8 "rec_polys") (JArr [])); [|discriminate].
  cbn [bind] in E.
  destruct (py_iter a); [|discriminate]. cbn [bind] in E.
  apply for_each_texts in E. destruct E as (new & -> & HF). simpl.
  eapply Forall_impl; [|exact HF]. cbv beta.
  intros r (text & Hk & ->).
  assert (Hc : exists s, cleaned_text text = strip s).
  { destruct text; try (now exists []). now eexists. }
  destruct Hc as [s Hs]. rewrite Hs.
  destruct (strip_trimmed s) as [H1 H2].
  repeat split; try assumption; [apply strip_idem|].
  intros ->. rewrite <- Hs. unfold kept, has_text in Hk. simpl in Hk.
  destruct text; try discriminate. simpl.
  destruct (strip s0); [discriminate|discriminate].
Qed.

(** X4: the polygons are looked at only for an entry that gives a row. When
    no entry of [rec_texts] survives (the key is missing, the list is empty,
    or all entries are blank and the flag is off), [load_rows] returns the
    empty list whatever is stored under [rec_polys]. *)
Theorem load_rows_no_survivor (flag : bool) (items : list json) (rec_polys : json) :
  items_of json_data = Ok items ->
  dict_get json_data (u8 "rec_polys") (JArr []) = Ok rec_polys ->
  survivors flag items = [] ->
  rows_of flag = Ok [].
Proof.
  unfold load_rows, items_of, survivors. intros Hi Hp Hs.
  destruct (dict_get json_data (u8 "rec_texts") (JArr [])); [|discriminate].
  cbn [bind] in Hi |- *. rewrite Hp. cbn [bind]. rewrite Hi. cbn [bind].
  now apply for_each_no_survivor.
Qed.

(** X5: when an entry survives and what is stored under [rec_polys] has no
    length (null, a boolean or a number), [load_rows] raises [TypeError]. *)
Theorem load_rows_unsized_polys (flag : bool) (items : list json) (rec_polys : json) :
  items_of json_data = Ok items ->
  dict_get json_data (u8 "rec_polys") (JArr []) = Ok rec_polys ->
  unsized rec_polys = true ->
  survivors flag items <> [] ->
  rows_of flag = raise TypeError.
Proof.
  unfold load_rows, items_of, survivors. intros Hi Hp Hu Hs.
  destruct (dict_get json_data (u8 "rec_texts") (JArr [])); [|discriminate].
  cbn [bind] in Hi |- *. rewrite Hp. cbn [bind]. rewrite Hi. cbn [bind].
  apply for_each_unsized; [|assumption].
  destruct rec_polys; try discriminate; reflexivity.
Qed.
End LoadRows.

Lemma load_rows_flag_filters_witness :
  exists all,
    load_rows (H := Sample.lib) Sample.ocr_json (u8 "LSE_001") 4 1 true 3 3 2
      = Ok all
    /\ load_rows (H := Sample.lib) Sample.ocr_json (u8 "LSE_001") 4 1 false 3 3 2
       = Ok (filter has_han_char all)
    /\ List.length all = 3%nat
    /\ List.length (filter has_han_char all) = 2%nat.
Proof.
  eexists. split; [vm_compute; reflexivity|]. split.
  - apply (@load_rows_flag_filters Sample.lib Sample.ocr_json (u8 "LSE_001") 4 1
             3 3 2).
    vm_compute. reflexivity.
  - split; vm_compute; reflexivity.
Defined.

Lemma load_rows_texts_trimmed_witness :
  Forall (fun r => strip (Han_Char r) = Han_Char r
                   /\ lstrip (Han_Char r) = Han_Char r
                   /\ lstrip (rev (Han_Char r)) = rev (Han_Char r)
                   /\ (false = false -> Han_Char r <> []))
    [ {| ID := u8 "LSE_001.004.001.01"; Image_name := u8 "LSE_001_page_001.png";
         Han_Char := u8 "天地"; Image_Box := u8 "[[1, 2], [3, 4]]" |};
      {| ID := u8 "LSE_001.004.001.03"; Image_name := u8 "LSE_001_page_001.png";
         Han_Char := u8 "玄黃"; Image_Box := u8 "" |} ].
Proof.
  pose proof (@load_rows_texts_trimmed Sample.lib Sample.ocr_json (u8 "LSE_001")
                4 1 3 3 2 false _ ltac:(vm_compute; reflexivity)) as P.
  vm_compute in P |- *. exact P.
Defined.

Lemma load_rows_no_survivor_witness :
  load_rows (H := Sample.lib) null_polys_blank_json (u8 "LSE_001") 4 1 false 3 3 2
  = Ok [].
Proof.
  exact (@load_rows_no_survivor Sample.lib null_polys_blank_json (u8 "LSE_001")
           4 1 3 3 2 false [JStr (u8 "  "); JInt 7] JNull
           ltac:(vm_compute; reflexivity) ltac:(vm_compute; reflexivity)
           ltac:(vm_compute; reflexivity)).
Defined.

Lemma load_rows_unsized_polys_witness :
  load_rows (H := Sample.lib) null_polys_json (u8 "LSE_001") 4 1 false 3 3 2
  = raise TypeError.
Proof.
  exact (@load_rows_unsized_polys Sample.lib null_polys_json (u8 "LSE_001")
           4 1 3 3 2 false [JStr (u8 "天")] JNull
           ltac:(vm_compute; reflexivity) ltac:(vm_compute; reflexivity)
           ltac:(reflexivity) ltac:(vm_compute; discriminate)).
Defined.

End MoreRows.

(** ** More on the inference *)

Module MoreInference.
Import Spec Extra PyFacts RecordBuilder Inference MoreRows ConvertExcel.

Lemma split_snoc_segment (sep : char) (d : str) :
  lacks sep d = true ->
  forall p, split sep (p ++ sep :: d) = split sep p ++ [d].
Proof.
  intros Hd. induction p as [|c p IH]; simpl.
  - rewrite N.eqb_refl. now rewrite (split_no_sep sep d Hd).
  - destruct (c =? sep)%N.
    + now rewrite IH.
    + rewrite IH. pose proof (split_nonempty sep p) as Hn.
      destruct (split sep p); [contradiction|reflexivity].
Qed.

Section Infer.
Context `{Library}.
Variables (json_data : json) (json_path : path) (stem : str).
Hypothesis Hstem : candidate_stem json_data json_path = Ok stem.

Lemma infer_book_nonempty (book : str) (vol : Z) :
  infer_book_and_volume json_data json_path = Ok (book, vol) ->
  stem <> [] -> book <> [].
Proof.
  unfold infer_book_and_volume. rewrite Hstem. cbn [bind]. intros E Hne.
  destruct (negb (len (split underscore stem) =? 0)
            && isdigit (last (split underscore stem) [])).
  - destruct (py_int (last (split underscore stem) [])); [|discriminate].
    cbn [bind] in E. injection E as <- _.
    destruct (join (u8 "_") (removelast (split underscore stem))) eqn:Ej;
      simpl; [assumption|discriminate].
  - now injection E as <- _.
Qed.
End Infer.

(** X6: for a non-empty candidate stem the inferred book code is never
    empty, so the book code [main] settles on is not empty either: the
    [--base-book-code] value can only be reached when the stem is empty and
    no book code was given. *)
Theorem inferred_book_code_nonempty `{Library} (json_data : json)
    (json_path : path) (stem book : str) (vol : Z) (args : Args.Namespace) :
  candidate_stem json_data json_path = Ok stem ->
  infer_book_and_volume json_data json_path = Ok (book, vol) ->
  stem <> [] ->
  book <> [] /\ chosen_book_code args book <> []
  /\ (Args.book_code args = None -> Args.book_code_arg args = None ->
      chosen_book_code args book = book).
Proof.
  intros Hstem Hinf Hne.
  pose proof (infer_book_nonempty _ _ Hstem Hinf Hne) as Hb.
  split; [assumption|]. unfold chosen_book_code, or_str. split.
  - destruct (Args.book_code args) as [[|? ?]|]; try discriminate;
      destruct (Args.book_code_arg args) as [[|? ?]|]; try discriminate;
      destruct book; try discriminate; contradiction.
  - intros -> ->. destruct book; [contradiction|reflexivity].
Qed.

Lemma inferred_book_code_nonempty_witness :
  u8 "giam_cuong" <> []
  /\ chosen_book_code (Sample.args false) (u8 "giam_cuong") <> []
  /\ (Args.book_code (Sample.args false) = None ->
      Args.book_code_arg (Sample.args false) = None ->
      chosen_book_code (Sample.args false) (u8 "giam_cuong") = u8 "giam_cuong").
Proof.
  exact (@inferred_book_code_nonempty Sample.lib Sample.ocr_json
           (u8 "output/giam_cuong_7_res.json") (u8 "giam_cuong_7")
           (u8 "giam_cuong") 7 (Sample.args false)
           ltac:(vm_compute; reflexivity) ltac:(vm_compute; reflexivity)
           ltac:(discriminate)).
Defined.

(** X7: the name [main] gives its output, [<book code>_<zero-padded
    volume>], reads back: from a stem of that form, with a non-empty book
    code, a non-negative volume and a padded volume of at most 4300 digits
    (what [int] reads), the inference returns that book code and that
    volume, whatever underscores the book code holds. *)
Theorem infer_reads_back_base_name `{Library} (json_data : json)
    (json_path : path) (book_code : str) (volume volume_pad : Z) :
  candidate_stem json_data json_path
  = Ok (book_code ++ u8 "_" ++ zfill (str_int volume) volume_pad) ->
  book_code <> [] -> 0 <= volume ->
  len (zfill (str_int volume) volume_pad) <= int_max_str_digits ->
  infer_book_and_volume json_data json_path = Ok (book_code, volume).
Proof.
  intros Hstem Hb Hv Hmax.
  rewrite zfill_str_int_zero_padded in Hstem, Hmax.
  destruct (zero_padded_digits volume_pad Hv) as [Hd Hne].
  assert (Hs : split underscore (book_code ++ u8 "_" ++ zero_padded volume volume_pad)
               = split underscore book_code ++ [zero_padded volume volume_pad]).
  { change (u8 "_") with [underscore]. simpl app at 2.
    apply split_snoc_segment. now apply ascii_digits_no_underscore. }
  rewrite (infer_literal _ _ Hstem); rewrite Hs, last_last.
  - rewrite removelast_last. change (u8 "_") with [underscore].
    rewrite join_split.
    rewrite <- zfill_str_int_zero_padded, (zfill_str_int_value volume_pad Hv).
    destruct book_code; [contradiction|reflexivity].
  - unfold nat_literal. rewrite Hd, andb_true_r.
    destruct (zero_padded volume volume_pad); [contradiction|reflexivity].
  - exact Hmax.
Qed.

Lemma infer_reads_back_base_name_witness :
  infer_book_and_volume (H := Sample.lib)
    (JObj [(u8 "input_path", JStr (u8 "output/LSE_001_004.csv"))])
    (u8 "x.json")
  = Ok (u8 "LSE_001", 4).
Proof.
  exact (@infer_reads_back_base_name Sample.lib
           (JObj [(u8 "input_path", JStr (u8 "output/LSE_001_004.csv"))])
           (u8 "x.json") (u8 "LSE_001") 4 3
           ltac:(vm_compute; reflexivity) ltac:(discriminate) ltac:(lia)
           ltac:(vm_compute; discriminate)).
Defined.

End MoreInference.

(** ** More on the entry point *)

Module MoreEntryPoint.
Import Spec Extra RunFacts EntryPoint ConvertExcel.

Section Main.
Context `{Library}.
Variables (w : world event) (args : Args.Namespace)
  (t0 : list (entry event)) (p : path).
Hypothesis Hens : run w (ensure_json_path args) = (t0, Returned p).
Hypothesis Hex : @w _ (Exists p) = true.

Lemma main_read_failure (e : exn) :
  @w _ (ReadText p (u8 "utf-8")) = Raise e ->
  run w (main args)
  = (t0 ++ [Entry (Exists p) true; Entry (ReadText p (u8 "utf-8")) (Raise e)],
     Raised e).
Proof.
  intros Hread. unfold main. rewrite run_pbind, Hens. cbn [fst snd].
  rewrite run_pbind, run_call, Hex. cbn [fst snd negb].
  rewrite run_pbind, run_call_r, Hread. reflexivity.
Qed.

Variable text : str.
Hypothesis Hread : @w _ (ReadText p (u8 "utf-8")) = Ok text.

(** The run of [main] once the file is read: the rest runs on the text. *)
Lemma main_after_read :
  run w (main args)
  = match json_loads text with
    | Raise e => (t0 ++ read_calls p text, Raised e)
    | Ok json_data =>
        match infer_book_and_volume json_data p with
        | Raise e => (t0 ++ read_calls p text, Raised e)
        | Ok inferred =>
            match main_rows args json_data inferred with
            | Raise e => (t0 ++ read_calls p text, Raised e)
            | Ok [] =>
                (t0 ++ read_calls p text
                   ++ [Entry (PrintErr
                         (u8 "No rows generated (all OCR entries were empty)."))
                         tt],
                 Returned tt)
            | Ok (r :: rows) =>
                let book := chosen_book_code args (fst inferred) in
                let vol := chosen_volume args (snd inferred) in
                let rest :=
                  run w
                    (write_csv (r :: rows) columns (csv_path args book vol) ;;;
                     (if Args.write_excel args
                      then write_excel (r :: rows) columns (excel_path args book vol)
                      else Ret tt) ;;;
                     call (Print (u8 "CSV written to "
                                    ++ path_str (csv_path args book vol))) ;;;
                     if Args.write_excel args
                     then call (Print (u8 "Excel written to "
                                         ++ path_str (excel_path args book vol)))
                     else Ret tt) in
                (t0 ++ read_calls p text ++ fst rest, snd rest)
            end
        end
    end.
Proof.
  unfold main. rewrite run_pbind, Hens. cbn [fst snd].
  rewrite run_pbind, run_call, Hex. cbn [fst snd negb].
  rewrite run_pbind, run_call_r, Hread. cbn [fst snd].
  rewrite run_pbind, run_lift. cbn [fst snd].
  destruct (json_loads text) as [json_data|e]; [|reflexivity].
  rewrite run_pbind, run_lift. cbn [fst snd].
  destruct (infer_book_and_volume json_data p) as [inferred|e]; [|reflexivity].
  rewrite run_pbind, run_lift. cbn [fst snd]. unfold main_rows.
  unfold chosen_book_code, chosen_volume.
  destruct (load_rows json_data _ _ _ _ _ _ _) as [[|r rows]|e]; [| |reflexivity].
  - rewrite run_call. destruct (@w unit _). reflexivity.
  - cbn zeta. unfold read_calls. cbn [app]. reflexivity.
Qed.
End Main.

Lemma quiet_no_writes `{Library} (t : list (entry event)) :
  forallb (fun e => negb (touches_files e)) t = true ->
  forallb (fun e => negb (writes_files e)) t = true.
Proof.
  induction t as [|e t IH]; [reflexivity|]. simpl. intros Hq.
  apply andb_true_iff in Hq. destruct Hq as [He Ht].
  rewrite (IH Ht), andb_true_r.
  destruct e as [X ev x]. destruct ev; simpl in *; try reflexivity; discriminate.
Qed.

(** X8: once the input file is found, every failure before the rows are
    complete leaves [main] with an uncaught exception and no directory or
    file created or changed: a failed read, a JSON that does not parse, a
    failed inference (also when book code and volume are given on the command
    line), and a failing [load_rows]. *)
Theorem main_aborts_before_writing `{Library} (w : world event)
    (args : Args.Namespace) (t0 : list (entry event)) (p : path) :
  run w (ensure_json_path args) = (t0, Returned p) ->
  w _ (Exists p) = true ->
  (forall e, w _ (ReadText p (u8 "utf-8")) = Raise e ->
     run w (main args)
     = (t0 ++ [Entry (Exists p) true; Entry (ReadText p (u8 "utf-8")) (Raise e)],
        Raised e))
  /\ (forall text e,
        w _ (ReadText p (u8 "utf-8")) = Ok text ->
        json_loads text = Raise e ->
        run w (main args) = (t0 ++ read_calls p text, Raised e))
  /\ (forall text json_data e,
        w _ (ReadText p (u8 "utf-8")) = Ok text ->
        json_loads text = Ok json_data ->
        infer_book_and_volume json_data p = Raise e ->
        run w (main args) = (t0 ++ read_calls p text, Raised e))
  /\ (forall text json_data inferred e,
        w _ (ReadText p (u8 "utf-8")) = Ok text ->
        json_loads text = Ok json_data ->
        infer_book_and_volume json_data p = Ok inferred ->
        main_rows args json_data inferred = Raise e ->
        run w (main args) = (t0 ++ read_calls p text, Raised e))
  /\ forallb (fun e => negb (writes_files e)) t0 = true.
Proof.
  intros Hens Hex. repeat split.
  - intros e Hread. apply (@main_read_failure _ w args t0 p Hens Hex _ Hread).
  - intros text e Hread Hl.
    rewrite (@main_after_read _ w args t0 p Hens Hex _ Hread), Hl. reflexivity.
  - intros text j e Hread Hl Hi.
    rewrite (@main_after_read _ w args t0 p Hens Hex _ Hread), Hl, Hi. reflexivity.
  - intros text j i e Hread Hl Hi Hr.
    rewrite (@main_after_read _ w args t0 p Hens Hex _ Hread), Hl, Hi, Hr.
    reflexivity.
  - apply quiet_no_writes.
    pose proof (ensure_json_path_quiet w args) as [Hq _].
    now rewrite Hens in Hq.
Qed.

Lemma main_aborts_before_writing_witness :
  run (Sample.world_of true None) (main (H := numeric_lib) (Sample.args false))
  = (read_calls (u8 "output/giam_cuong_7_res.json") Sample.file_text,
     Raised (Exn TypeError None)).
Proof.
  pose proof (proj1 (proj2 (proj2
    (@main_aborts_before_writing numeric_lib (Sample.world_of true None)
       (Sample.args false) [] (u8 "output/giam_cuong_7_res.json")
       ltac:(vm_compute; reflexivity) ltac:(vm_compute; reflexivity))))
    Sample.file_text numeric_input_path_json (Exn TypeError None)
    ltac:(vm_compute; reflexivity) ltac:(vm_compute; reflexivity)
    ltac:(vm_compute; reflexivity)) as P.
  vm_compute in P |- *. exact P.
Defined.

Section Output.
Context `{Library}.
Variables (w : world event) (args : Args.Namespace)
  (t0 : list (entry event)) (p : path) (text : str) (json_data : json)
  (inferred : str * Z) (r : row) (rows : list row).
Hypothesis Hens : run w (ensure_json_path args) = (t0, Returned p).
Hypothesis Hex : @w _ (Exists p) = true.
Hypothesis Hread : @w _ (ReadText p (u8 "utf-8")) = Ok text.
Hypothesis Hloads : json_loads text = Ok json_data.
Hypothesis Hinfer : infer_book_and_volume json_data p = Ok inferred.
Hypothesis Hrows : main_rows args json_data inferred = Ok (r :: rows).

Local Abbreviation out :=
  (csv_path args (chosen_book_code args (fst inferred))
     (chosen_volume args (snd inferred))).
Local Abbreviation xlsx :=
  (excel_path args (chosen_book_code args (fst inferred))
     (chosen_volume args (snd inferred))).

Lemma main_with_rows :
  run w (main args)
  = (t0 ++ read_calls p text
       ++ fst (run w
            (write_csv (r :: rows) columns out ;;;
             (if Args.write_excel args
              then write_excel (r :: rows) columns xlsx else Ret tt) ;;;
             call (Print (u8 "CSV written to " ++ path_str out)) ;;;
             if Args.write_excel args
             then call (Print (u8 "Excel written to " ++ path_str xlsx))
             else Ret tt)),
     snd (run w
            (write_csv (r :: rows) columns out ;;;
             (if Args.write_excel args
              then write_excel (r :: rows) columns xlsx else Ret tt) ;;;
             call (Print (u8 "CSV written to " ++ path_str out)) ;;;
             if Args.write_excel args
             then call (Print (u8 "Excel written to " ++ path_str xlsx))
             else Ret tt))).
Proof.
  rewrite (@main_after_read _ w args t0 p Hens Hex _ Hread), Hloads, Hinfer, Hrows.
  reflexivity.
Qed.

(** The three ways [write_csv] fails. *)
Lemma write_csv_failures (columns : list str) (output_path : path) :
  (forall e, @w _ (Mkdir (path_parent output_path)) = Raise e ->
     run w (write_csv (r :: rows) columns output_path)
     = ([Entry (Mkdir (path_parent output_path)) (Raise e)], Raised e))
  /\ (forall e, @w _ (Mkdir (path_parent output_path)) = Ok tt ->
        @w _ (OpenWrite output_path (u8 "utf-8-sig")) = Raise e ->
        run w (write_csv (r :: rows) columns output_path)
        = ([Entry (Mkdir (path_parent output_path)) (Ok tt);
            Entry (OpenWrite output_path (u8 "utf-8-sig")) (Raise e)], Raised e))
  /\ (forall csv, @w _ (Mkdir (path_parent output_path)) = Ok tt ->
        @w _ (OpenWrite output_path (u8 "utf-8-sig")) = Ok tt ->
        csv_text columns (r :: rows) = Ok csv ->
        @w _ (Write output_path csv) = Ok tt ->
        run w (write_csv (r :: rows) columns output_path)
        = (csv_calls output_path csv, Returned tt)).
Proof.
  unfold write_csv. repeat split.
  - intros e Hm. rewrite run_pbind, run_call_r, Hm. reflexivity.
  - intros e Hm Ho. rewrite run_pbind, run_call_r, Hm. cbn [fst snd].
    rewrite run_pbind, run_call_r, Ho. reflexivity.
  - intros csv Hm Ho Hc Hw. rewrite run_pbind, run_call_r, Hm. cbn [fst snd].
    rewrite run_pbind, run_call_r, Ho. cbn [fst snd].
    rewrite run_pbind, run_lift, Hc. cbn [fst snd].
    rewrite run_call_r, Hw. reflexivity.
Qed.

(** Two ways [write_excel] ends: pandas is missing, or [to_excel] fails. *)
Lemma write_excel_outcomes (columns : list str) (output_path : path) :
  (forall exc, @w _ ImportPandas = Some exc ->
     run w (write_excel (r :: rows) columns output_path)
     = ([Entry ImportPandas (Some exc);
         Entry (PrintErr
                  (u8 "[WARN] pandas is required to write Excel files ("
                     ++ exc ++ u8 "). Skipping .xlsx export.")) tt],
        Returned tt))
  /\ (forall e, @w _ ImportPandas = None ->
        @w _ (Mkdir (path_parent output_path)) = Ok tt ->
        @w _ (ToExcel output_path columns (r :: rows)) = Raise e ->
        run w (write_excel (r :: rows) columns output_path)
        = ([Entry ImportPandas None;
            Entry (Mkdir (path_parent output_path)) (Ok tt);
            Entry (ToExcel output_path columns (r :: rows)) (Raise e)],
           Raised e)).
Proof.
  unfold write_excel. split.
  - intros exc Hp. rewrite run_pbind, run_call.
    repeat match goal with
    | |- context [@w ?T ImportPandas] =>
        replace (@w T ImportPandas) with (Some exc) by (symmetry; exact Hp)
    end.
    cbn [fst snd]. rewrite run_call. cbn [fst snd app].
    now destruct (@w unit _).
  - intros e Hp Hm Ht. rewrite run_pbind, run_call.
    repeat match goal with
    | |- context [@w ?T ImportPandas] =>
        replace (@w T ImportPandas) with (@None str) by (symmetry; exact Hp)
    end.
    cbn [fst snd]. rewrite run_pbind, run_call_r, Hm. cbn [fst snd].
    rewrite run_call_r, Ht. reflexivity.
Qed.
End Output.

(** X9: with at least one row, successful output operations and no
    [--write-excel], [main] creates the parent directory, opens
    [<output-dir>/<book code>_<zero-padded volume>.csv] as utf-8-sig, writes
    the CSV text of the rows to it, prints where it is and returns; it makes
    no other call that changes a file. *)
Theorem main_writes_csv `{Library} (w : world event) (args : Args.Namespace)
    (t0 : list (entry event)) (p : path) (text : str) (json_data : json)
    (inferred : str * Z) (r : row) (rows : list row) (csv : str) :
  run w (ensure_json_path args) = (t0, Returned p) ->
  w _ (Exists p) = true ->
  w _ (ReadText p (u8 "utf-8")) = Ok text ->
  json_loads text = Ok json_data ->
  infer_book_and_volume json_data p = Ok inferred ->
  main_rows args json_data inferred = Ok (r :: rows) ->
  let out := csv_path args (chosen_book_code args (fst inferred))
               (chosen_volume args (snd inferred)) in
  w _ (Mkdir (path_parent out)) = Ok tt ->
  w _ (OpenWrite out (u8 "utf-8-sig")) = Ok tt ->
  csv_text columns (r :: rows) = Ok csv ->
  w _ (Write out csv) = Ok tt ->
  Args.write_excel args = false ->
  run w (main args)
  = (t0 ++ read_calls p text ++ csv_calls out csv
       ++ [Entry (Print (u8 "CSV written to " ++ path_str out)) tt],
     Returned tt).
Proof.
  intros Hens Hex Hread Hl Hi Hr out Hm Ho Hc Hw Hx.
  rewrite (@main_with_rows _ w args t0 p text json_data inferred r rows
             Hens Hex Hread Hl Hi Hr).
  fold out. rewrite Hx.
  destruct (@write_csv_failures _ w r rows columns out) as (_ & _ & Hok).
  specialize (Hok csv Hm Ho Hc Hw).
  rewrite run_pbind, Hok. cbn [fst snd pbind].
  rewrite run_pbind, run_call. cbn [fst snd run].
  destruct (w unit _). reflexivity.
Qed.

Lemma main_writes_csv_witness :
  run (Sample.world_of true None) (main (H := Sample.lib) (Sample.args false))
  = (read_calls (u8 "output/giam_cuong_7_res.json") Sample.file_text
       ++ csv_calls (H := Sample.lib) (u8 "output/LSE_001_004.csv")
            (u8 "ID,Image_name,Han Char,Image Box" ++ Sample.crlf
             ++ u8 "LSE_001.004.001.01,LSE_001_page_001.png,天地,[[1, 2], [3, 4]]"
             ++ Sample.crlf
             ++ u8 "LSE_001.004.001.03,LSE_001_page_001.png,玄黃," ++ Sample.crlf)
       ++ [Entry (Print (u8 "CSV written to output/LSE_001_004.csv")) tt],
     Returned tt).
Proof.
  pose proof (@main_writes_csv Sample.lib (Sample.world_of true None)
                (Sample.args false) [] (u8 "output/giam_cuong_7_res.json")
                Sample.file_text Sample.ocr_json (u8 "giam_cuong", 7) _ _ _
                ltac:(vm_compute; reflexivity) ltac:(vm_compute; reflexivity)
                ltac:(vm_compute; reflexivity) ltac:(vm_compute; reflexivity)
                ltac:(vm_compute; reflexivity) ltac:(vm_compute; reflexivity)
                ltac:(vm_compute; reflexivity) ltac:(vm_compute; reflexivity)
                ltac:(vm_compute; reflexivity) ltac:(vm_compute; reflexivity)
                ltac:(vm_compute; reflexivity)) as P.
  vm_compute in P |- *. exact P.
Defined.

(** X10: with [--write-excel] and pandas missing, [main] still writes the
    CSV, warns on stderr that the spreadsheet is skipped, makes no spreadsheet
    call, and then prints both closing messages, the one saying the Excel
    file was written included. *)
Theorem main_excel_without_pandas `{Library} (w : world event)
    (args : Args.Namespace) (t0 : list (entry event)) (p : path) (text : str)
    (json_data : json) (inferred : str * Z) (r : row) (rows : list row)
    (csv exc : str) :
  run w (ensure_json_path args) = (t0, Returned p) ->
  w _ (Exists p) = true ->
  w _ (ReadText p (u8 "utf-8")) = Ok text ->
  json_loads text = Ok json_data ->
  infer_book_and_volume json_data p = Ok inferred ->
  main_rows args json_data inferred = Ok (r :: rows) ->
  let out := csv_path args (chosen_book_code args (fst inferred))
               (chosen_volume args (snd inferred)) in
  let xlsx := excel_path args (chosen_book_code args (fst inferred))
                (chosen_volume args (snd inferred)) in
  w _ (Mkdir (path_parent out)) = Ok tt ->
  w _ (OpenWrite out (u8 "utf-8-sig")) = Ok tt ->
  csv_text columns (r :: rows) = Ok csv ->
  w _ (Write out csv) = Ok tt ->
  Args.write_excel args = true ->
  w _ ImportPandas = Some exc ->
  run w (main args)
  = (t0 ++ read_calls p text ++ csv_calls out csv
       ++ [Entry ImportPandas (Some exc);
           Entry (PrintErr
                    (u8 "[WARN] pandas is required to write Excel files ("
                       ++ exc ++ u8 "). Skipping .xlsx export.")) tt;
           Entry (Print (u8 "CSV written to " ++ path_str out)) tt;
           Entry (Print (u8 "Excel written to " ++ path_str xlsx)) tt],
     Returned tt).
Proof.
  intros Hens Hex Hread Hl Hi Hr out xlsx Hm Ho Hc Hw Hx Hp.
  rewrite (@main_with_rows _ w args t0 p text json_data inferred r rows
             Hens Hex Hread Hl Hi Hr).
  fold out. fold xlsx. rewrite Hx.
  destruct (@write_csv_failures _ w r rows columns out) as (_ & _ & Hok).
  specialize (Hok csv Hm Ho Hc Hw).
  rewrite run_pbind, Hok. cbn [fst snd].
  destruct (@write_excel_outcomes _ w r rows columns xlsx) as [Hwx _].
  rewrite run_pbind, (Hwx exc Hp). cbn [fst snd].
  rewrite run_pbind, run_call. cbn [fst snd]. rewrite run_call.
  repeat match goal with |- context [w unit ?e] => destruct (w unit e) end.
  reflexivity.
Qed.

Lemma main_excel_without_pandas_witness :
  snd (run (Sample.world_of true (Some (u8 "No module named pandas")))
         (main (H := Sample.lib) (Sample.args true)))
  = Returned tt
  /\ List.map (fun e => negb (writes_files e))
       (skipn 5 (fst (run (Sample.world_of true (Some (u8 "No module named pandas")))
                        (main (H := Sample.lib) (Sample.args true)))))
     = [true; true; true; true].
Proof.
  pose proof (@main_excel_without_pandas Sample.lib
                (Sample.world_of true (Some (u8 "No module named pandas")))
                (Sample.args true) [] (u8 "output/giam_cuong_7_res.json")
                Sample.file_text Sample.ocr_json (u8 "giam_cuong", 7) _ _ _ _
                ltac:(vm_compute; reflexivity) ltac:(vm_compute; reflexivity)
                ltac:(vm_compute; reflexivity) ltac:(vm_compute; reflexivity)
                ltac:(vm_compute; reflexivity) ltac:(vm_compute; reflexivity)
                ltac:(vm_compute; reflexivity) ltac:(vm_compute; reflexivity)
                ltac:(vm_compute; reflexivity) ltac:(vm_compute; reflexivity)
                ltac:(vm_compute; reflexivity) ltac:(vm_compute; reflexivity)) as P.
  rewrite P. split; vm_compute; reflexivity.
Defined.

(** X11: the CSV is written before anything is done about the spreadsheet.
    With [--write-excel] and pandas installed, when [to_excel] raises, the
    exception leaves [main] uncaught after the CSV text was written, and
    neither closing message is printed. *)
Theorem main_excel_failure_keeps_csv `{Library} (w : world event)
    (args : Args.Namespace) (t0 : list (entry event)) (p : path) (text : str)
    (json_data : json) (inferred : str * Z) (r : row) (rows : list row)
    (csv : str) (e : exn) :
  run w (ensure_json_path args) = (t0, Returned p) ->
  w _ (Exists p) = true ->
  w _ (ReadText p (u8 "utf-8")) = Ok text ->
  json_loads text = Ok json_data ->
  infer_book_and_volume json_data p = Ok inferred ->
  main_rows args json_data inferred = Ok (r :: rows) ->
  let out := csv_path args (chosen_book_code args (fst inferred))
               (chosen_volume args (snd inferred)) in
  let xlsx := excel_path args (chosen_book_code args (fst inferred))
                (chosen_volume args (snd inferred)) in
  w _ (Mkdir (path_parent out)) = Ok tt ->
  w _ (OpenWrite out (u8 "utf-8-sig")) = Ok tt ->
  csv_text columns (r :: rows) = Ok csv ->
  w _ (Write out csv) = Ok tt ->
  Args.write_excel args = true ->
  w _ ImportPandas = None ->
  w _ (Mkdir (path_parent xlsx)) = Ok tt ->
  w _ (ToExcel xlsx columns (r :: rows)) = Raise e ->
  run w (main args)
  = (t0 ++ read_calls p text ++ csv_calls out csv
       ++ [Entry ImportPandas None;
           Entry (Mkdir (path_parent xlsx)) (Ok tt);
           Entry (ToExcel xlsx columns (r :: rows)) (Raise e)],
     Raised e)
  /\ csv_written (fst (run w (main args))) = [(out, csv)].
Proof.
  intros Hens Hex Hread Hl Hi Hr out xlsx Hm Ho Hc Hw Hx Hp Hmx Hte.
  assert (E : run w (main args)
              = (t0 ++ read_calls p text ++ csv_calls out csv
                   ++ [Entry ImportPandas None;
                       Entry (Mkdir (path_parent xlsx)) (Ok tt);
                       Entry (ToExcel xlsx columns (r :: rows)) (Raise e)],
                 Raised e)).
  { rewrite (@main_with_rows _ w args t0 p text json_data inferred r rows
               Hens Hex Hread Hl Hi Hr).
    fold out. fold xlsx. rewrite Hx.
    destruct (@write_csv_failures _ w r rows columns out) as (_ & _ & Hok).
    specialize (Hok csv Hm Ho Hc Hw).
    rewrite run_pbind, Hok. cbn [fst snd].
    destruct (@write_excel_outcomes _ w r rows columns xlsx) as [_ Hwx].
    rewrite run_pbind, (Hwx e Hp Hmx Hte). reflexivity. }
  split; [exact E|]. rewrite E. cbn [fst].
  rewrite !csv_written_app.
  pose proof (ensure_json_path_quiet w args) as [_ Hq].
  rewrite Hens in Hq. cbn [fst] in Hq. rewrite Hq. reflexivity.
Qed.

Lemma main_excel_failure_keeps_csv_witness :
  snd (run failing_excel_world (main (H := Sample.lib) (Sample.args true)))
  = Raised excel_failure
  /\ List.map fst
       (csv_written (fst (run failing_excel_world
                            (main (H := Sample.lib) (Sample.args true)))))
     = [u8 "output/LSE_001_004.csv"].
Proof.
  pose proof (@main_excel_failure_keeps_csv Sample.lib failing_excel_world
                (Sample.args true) [] (u8 "output/giam_cuong_7_res.json")
                Sample.file_text Sample.ocr_json (u8 "giam_cuong", 7) _ _ _
                excel_failure
                ltac:(vm_compute; reflexivity) ltac:(vm_compute; reflexivity)
                ltac:(vm_compute; reflexivity) ltac:(vm_compute; reflexivity)
                ltac:(vm_compute; reflexivity) ltac:(vm_compute; reflexivity)
                ltac:(vm_compute; reflexivity) ltac:(vm_compute; reflexivity)
                ltac:(vm_compute; reflexivity) ltac:(vm_compute; reflexivity)
                ltac:(vm_compute; reflexivity) ltac:(vm_compute; reflexivity)
                ltac:(vm_compute; reflexivity) ltac:(vm_compute; reflexivity))
    as [P Q].
  split; [rewrite P|rewrite Q]; vm_compute; reflexivity.
Defined.

(** X12: [main] writes the CSV only into a directory it could create and a
    file it could open: when creating the parent directory fails, or opening
    the CSV file fails, the exception leaves [main] uncaught, no text is
    written and no closing message is printed. *)
Theorem main_csv_failure `{Library} (w : world event)
    (args : Args.Namespace) (t0 : list (entry event)) (p : path) (text : str)
    (json_data : json) (inferred : str * Z) (r : row) (rows : list row) :
  run w (ensure_json_path args) = (t0, Returned p) ->
  w _ (Exists p) = true ->
  w _ (ReadText p (u8 "utf-8")) = Ok text ->
  json_loads text = Ok json_data ->
  infer_book_and_volume json_data p = Ok inferred ->
  main_rows args json_data inferred = Ok (r :: rows) ->
  let out := csv_path args (chosen_book_code args (fst inferred))
               (chosen_volume args (snd inferred)) in
  (forall e, w _ (Mkdir (path_parent out)) = Raise e ->
     run w (main args)
     = (t0 ++ read_calls p text ++ [Entry (Mkdir (path_parent out)) (Raise e)],
        Raised e))
  /\ (forall e, w _ (Mkdir (path_parent out)) = Ok tt ->
        w _ (OpenWrite out (u8 "utf-8-sig")) = Raise e ->
        run w (main args)
        = (t0 ++ read_calls p text
             ++ [Entry (Mkdir (path_parent out)) (Ok tt);
                 Entry (OpenWrite out (u8 "utf-8-sig")) (Raise e)],
           Raised e)).
Proof.
  intros Hens Hex Hread Hl Hi Hr out.
  destruct (@write_csv_failures _ w r rows columns out) as (Hm & Ho & _).
  split.
  - intros e He.
    rewrite (@main_with_rows _ w args t0 p text json_data inferred r rows
               Hens Hex Hread Hl Hi Hr).
    fold out. rewrite run_pbind, (Hm e He). reflexivity.
  - intros e Hd He.
    rewrite (@main_with_rows _ w args t0 p text json_data inferred r rows
               Hens Hex Hread Hl Hi Hr).
    fold out. rewrite run_pbind, (Ho e Hd He). reflexivity.
Qed.

Lemma main_csv_failure_witness :
  run readonly_world (main (H := Sample.lib) (Sample.args false))
  = (read_calls (u8 "output/giam_cuong_7_res.json") Sample.file_text
       ++ [Entry (Mkdir (u8 "output")) (Raise mkdir_failure)],
     Raised mkdir_failure).
Proof.
  pose proof (proj1 (@main_csv_failure Sample.lib readonly_world
                (Sample.args false) [] (u8 "output/giam_cuong_7_res.json")
                Sample.file_text Sample.ocr_json (u8 "giam_cuong", 7) _ _
                ltac:(vm_compute; reflexivity) ltac:(vm_compute; reflexivity)
                ltac:(vm_compute; reflexivity) ltac:(vm_compute; reflexivity)
                ltac:(vm_compute; reflexivity) ltac:(vm_compute; reflexivity))
                mkdir_failure ltac:(vm_compute; reflexivity)) as P.
  vm_compute in P |- *. exact P.
Defined.

Lemma trace_pbind_prefix {E : Type -> Type} {A B : Type} (w : world E)
    (p : prog E A) (f : A -> prog E B) :
  exists rest, fst (run w (pbind p f)) = fst (run w p) ++ rest.
Proof.
  rewrite run_pbind. destruct (snd (run w p)); cbn [fst].
  - eexists. reflexivity.
  - exists []. now rewrite app_nil_r.
  - exists []. now rewrite app_nil_r.
Qed.

(** X13: started without a path, [main] asks for one on stdin; when stdin is
    at its end or the line is blank, it exits with ["JSON path is required to
    proceed."] having made no other call; otherwise it goes on with the
    trimmed line as the path, and the first thing it does is to test that
    the file exists. *)
Theorem main_requires_a_path `{Library} (w : world event) (args : Args.Namespace) :
  Args.json_path args = None ->
  let prompt :=
    Input (u8 "Enter path to OCR JSON (e.g. output/giam_cuong_7_res.json): ") in
  let line := match w _ prompt with Some s => strip s | None => [] end in
  (line = [] ->
     run w (main args)
     = ([Entry prompt (w _ prompt)],
        Exited (u8 "JSON path is required to proceed.")))
  /\ (line <> [] ->
        run w (ensure_json_path args)
        = ([Entry prompt (w _ prompt)], Returned (Path line))
        /\ exists rest,
             fst (run w (main args))
             = Entry prompt (w _ prompt)
                 :: Entry (Exists (Path line)) (w _ (Exists (Path line))) :: rest).
Proof.
  intros Hnone prompt line.
  assert (Hens : run w (ensure_json_path args)
                 = ([Entry prompt (w _ prompt)],
                    if is_empty line
                    then Exited (u8 "JSON path is required to proceed.")
                    else Returned (Path line))).
  { unfold ensure_json_path. rewrite Hnone. rewrite run_pbind, run_call.
    cbn [fst snd]. fold prompt. fold line. now destruct (is_empty line). }
  split.
  - intros Hl. unfold main. rewrite run_pbind, Hens, Hl. reflexivity.
  - intros Hl. destruct line as [|c l] eqn:El; [contradiction|].
    cbn [is_empty] in Hens. split; [exact Hens|].
    unfold main. rewrite run_pbind, Hens. cbn [fst snd].
    match goal with
    | |- context [run w (pbind (call ?ev) ?k)] =>
        destruct (trace_pbind_prefix w (call ev) k) as [rest Hrest]
    end.
    rewrite Hrest, run_call. exists rest. reflexivity.
Qed.

Lemma main_requires_a_path_witness :
  run (stdin_world (Some (u8 "   "))) (main (H := Sample.lib) no_args)
  = ([Entry (Input (u8 "Enter path to OCR JSON (e.g. output/giam_cuong_7_res.json): "))
        (Some (u8 "   "))],
     Exited (u8 "JSON path is required to proceed."))
  /\ run (stdin_world (Some (u8 " out/a_3.json ")))
       (ensure_json_path (H := Sample.lib) no_args)
     = ([Entry (Input (u8 "Enter path to OCR JSON (e.g. output/giam_cuong_7_res.json): "))
           (Some (u8 " out/a_3.json "))],
        Returned (u8 "out/a_3.json")).
Proof.
  split.
  - pose proof (proj1 (@main_requires_a_path Sample.lib
                  (stdin_world (Some (u8 "   "))) no_args eq_refl)
                  ltac:(vm_compute; reflexivity)) as P.
    vm_compute in P |- *. exact P.
  - pose proof (proj1 (proj2 (@main_requires_a_path Sample.lib
                  (stdin_world (Some (u8 " out/a_3.json "))) no_args eq_refl)
                  ltac:(vm_compute; discriminate))) as P.
    vm_compute in P |- *. exact P.
Defined.

End MoreEntryPoint.

(** ** The same input twice *)

Module SameInput.
Import Spec Extra RunFacts EntryPoint MoreEntryPoint ConvertExcel.

Section OneRun.
Context `{Library}.
Variables (w : world event) (args : Args.Namespace)
  (t0 : list (entry event)) (p : path) (text : str) (json_data : json)
  (inferred : str * Z) (r : row) (rows : list row) (csv : str).
Hypothesis Hens : run w (ensure_json_path args) = (t0, Returned p).
Hypothesis Hex : @w _ (Exists p) = true.
Hypothesis Hread : @w _ (ReadText p (u8 "utf-8")) = Ok text.
Hypothesis Hloads : json_loads text = Ok json_data.
Hypothesis Hinfer : infer_book_and_volume json_data p = Ok inferred.
Hypothesis Hrows : main_rows args json_data inferred = Ok (r :: rows).
Hypothesis Hcsv : csv_text columns (r :: rows) = Ok csv.

Local Abbreviation out :=
  (csv_path args (chosen_book_code args (fst inferred))
     (chosen_volume args (snd inferred))).

Hypothesis Hmk : @w _ (Mkdir (path_parent out)) = Ok tt.
Hypothesis Hop : @w _ (OpenWrite out (u8 "utf-8-sig")) = Ok tt.
Hypothesis Hwr : @w _ (Write out csv) = Ok tt.

(** A run with rows writes the CSV text of the rows, once, and no other
    CSV, however the spreadsheet export ends. *)
Lemma main_csv_written : csv_written (fst (run w (main args))) = [(out, csv)].
Proof.
  rewrite (@main_with_rows _ w args t0 p text json_data inferred r rows
             Hens Hex Hread Hloads Hinfer Hrows).
  cbn [fst]. rewrite !csv_written_app.
  pose proof (ensure_json_path_quiet w args) as [_ Hq].
  rewrite Hens in Hq. cbn [fst] in Hq. rewrite Hq.
  change (csv_written (read_calls p text)) with (@nil (path * str)).
  cbn [app]. rewrite csv_pbind.
  destruct (@write_csv_failures _ w r rows columns out) as (_ & _ & Hok).
  rewrite (Hok csv Hmk Hop Hcsv Hwr). cbn [fst snd].
  rewrite tail_no_csv. reflexivity.
Qed.
End OneRun.

(** C7: two runs of the record builder over the same JSON text with the same
    parameter values (book code, volume, page, pads, include-empty flag)
    make the same row sequence and write the same CSV text, each once, to a
    file of the same name [<book code>_<zero-padded volume>.csv] under its
    output directory, whatever else differs between the runs: where the JSON
    was read from, the output directory, [--write-excel], whether pandas is
    there and how the spreadsheet export ends. The runs are those where the
    first has at least one row and creating, opening and writing the CSV
    file succeed. *)
Theorem same_input_same_csv `{Library} (w1 w2 : world event)
    (args1 args2 : Args.Namespace) (t1 t2 : list (entry event)) (p1 p2 : path)
    (text : str) (json_data : json) (inferred1 inferred2 : str * Z)
    (r : row) (rows : list row) (csv : str) :
  run w1 (ensure_json_path args1) = (t1, Returned p1) ->
  run w2 (ensure_json_path args2) = (t2, Returned p2) ->
  w1 _ (Exists p1) = true ->
  w2 _ (Exists p2) = true ->
  w1 _ (ReadText p1 (u8 "utf-8")) = Ok text ->
  w2 _ (ReadText p2 (u8 "utf-8")) = Ok text ->
  json_loads text = Ok json_data ->
  infer_book_and_volume json_data p1 = Ok inferred1 ->
  infer_book_and_volume json_data p2 = Ok inferred2 ->
  chosen_book_code args1 (fst inferred1) = chosen_book_code args2 (fst inferred2) ->
  chosen_volume args1 (snd inferred1) = chosen_volume args2 (snd inferred2) ->
  Args.page args1 = Args.page args2 ->
  Args.include_empty args1 = Args.include_empty args2 ->
  Args.volume_pad args1 = Args.volume_pad args2 ->
  Args.page_pad args1 = Args.page_pad args2 ->
  Args.column_pad args1 = Args.column_pad args2 ->
  main_rows args1 json_data inferred1 = Ok (r :: rows) ->
  csv_text columns (r :: rows) = Ok csv ->
  let out1 := csv_path args1 (chosen_book_code args1 (fst inferred1))
                (chosen_volume args1 (snd inferred1)) in
  let out2 := csv_path args2 (chosen_book_code args2 (fst inferred2))
                (chosen_volume args2 (snd inferred2)) in
  w1 _ (Mkdir (path_parent out1)) = Ok tt ->
  w1 _ (OpenWrite out1 (u8 "utf-8-sig")) = Ok tt ->
  w1 _ (Write out1 csv) = Ok tt ->
  w2 _ (Mkdir (path_parent out2)) = Ok tt ->
  w2 _ (OpenWrite out2 (u8 "utf-8-sig")) = Ok tt ->
  w2 _ (Write out2 csv) = Ok tt ->
  main_rows args2 json_data inferred2 = Ok (r :: rows)
  /\ csv_written (fst (run w1 (main args1))) = [(out1, csv)]
  /\ csv_written (fst (run w2 (main args2))) = [(out2, csv)]
  /\ base_name args1 (chosen_book_code args1 (fst inferred1))
       (chosen_volume args1 (snd inferred1))
     = base_name args2 (chosen_book_code args2 (fst inferred2))
         (chosen_volume args2 (snd inferred2)).
Proof.
  intros Hens1 Hens2 Hex1 Hex2 Hrd1 Hrd2 Hloads Hinf1 Hinf2 Hbook Hvol Hpage
    Hflag Hvp Hpp Hcp Hrows Hcsv out1 out2 Hmk1 Hop1 Hwr1 Hmk2 Hop2 Hwr2.
  assert (Hrows2 : main_rows args2 json_data inferred2 = Ok (r :: rows)).
  { rewrite <- Hrows. unfold main_rows.
    now rewrite Hbook, Hvol, Hpage, Hflag, Hvp, Hpp, Hcp. }
  split; [exact Hrows2|]. split; [|split].
  - exact (@main_csv_written _ w1 args1 t1 p1 text json_data inferred1 r rows
             csv Hens1 Hex1 Hrd1 Hloads Hinf1 Hrows Hcsv Hmk1 Hop1 Hwr1).
  - exact (@main_csv_written _ w2 args2 t2 p2 text json_data inferred2 r rows
             csv Hens2 Hex2 Hrd2 Hloads Hinf2 Hrows2 Hcsv Hmk2 Hop2 Hwr2).
  - unfold base_name. now rewrite Hbook, Hvol, Hvp.
Qed.

Lemma same_input_same_csv_witness :
  csv_written (fst (run (Sample.world_of true (Some (u8 "No module named pandas")))
                      (main (H := Sample.lib) (Sample.args true))))
  = [(u8 "output/LSE_001_004.csv",
      u8 "ID,Image_name,Han Char,Image Box" ++ Sample.crlf
      ++ u8 "LSE_001.004.001.01,LSE_001_page_001.png,天地,[[1, 2], [3, 4]]"
      ++ Sample.crlf
      ++ u8 "LSE_001.004.001.03,LSE_001_page_001.png,玄黃," ++ Sample.crlf)]
  /\ csv_written (fst (run (Sample.world_of true None)
                         (main (H := Sample.lib) other_args)))
     = [(u8 "elsewhere/LSE_001_004.csv",
         u8 "ID,Image_name,Han Char,Image Box" ++ Sample.crlf
         ++ u8 "LSE_001.004.001.01,LSE_001_page_001.png,天地,[[1, 2], [3, 4]]"
         ++ Sample.crlf
         ++ u8 "LSE_001.004.001.03,LSE_001_page_001.png,玄黃," ++ Sample.crlf)].
Proof.
  pose proof (@same_input_same_csv Sample.lib
                (Sample.world_of true (Some (u8 "No module named pandas")))
                (Sample.world_of true None) (Sample.args true) other_args
                [] [] (u8 "output/giam_cuong_7_res.json")
                (u8 "output/giam_cuong_7_res.json")
                Sample.file_text Sample.ocr_json (u8 "giam_cuong", 7)
                (u8 "giam_cuong", 7) _ _ _
                ltac:(vm_compute; reflexivity) ltac:(vm_compute; reflexivity)
                ltac:(vm_compute; reflexivity) ltac:(vm_compute; reflexivity)
                ltac:(vm_compute; reflexivity) ltac:(vm_compute; reflexivity)
                ltac:(vm_compute; reflexivity) ltac:(vm_compute; reflexivity)
                ltac:(vm_compute; reflexivity) ltac:(vm_compute; reflexivity)
                ltac:(vm_compute; reflexivity) ltac:(vm_compute; reflexivity)
                ltac:(vm_compute; reflexivity) ltac:(vm_compute; reflexivity)
                ltac:(vm_compute; reflexivity) ltac:(vm_compute; reflexivity)
                ltac:(vm_compute; reflexivity) ltac:(vm_compute; reflexivity)
                ltac:(vm_compute; reflexivity) ltac:(vm_compute; reflexivity)
                ltac:(vm_compute; reflexivity) ltac:(vm_compute; reflexivity)
                ltac:(vm_compute; reflexivity) ltac:(vm_compute; reflexivity))
    as (_ & P1 & P2 & _).
  split; [vm_compute in P1 |- *; exact P1|vm_compute in P2 |- *; exact P2].
Defined.

End SameInput.

(** ** More on runs: handlers, and programs that never exit *)

Module RunMore.
Import PdfExtra RunFacts.

Section Runs.
Variable E : Type -> Type.

Lemma run_try_except (w : world E) {A} (p : prog E A)
    (h : exn -> option (prog E A)) :
  run w (try_except p h)
  = match snd (run w p) with
    | Returned a => (fst (run w p), Returned a)
    | Raised e =>
        match h e with
        | Some q => (fst (run w p) ++ fst (run w q), snd (run w q))
        | None => (fst (run w p), Raised e)
        end
    | Exited msg => (fst (run w p), Exited msg)
    end.
Proof.
  induction p as [a|e|msg|X ev k IH]; cbn [try_except].
  - reflexivity.
  - cbn [run fst snd app]. destruct (h e) as [q|]; [|reflexivity].
    now destruct (run w q).
  - reflexivity.
  - rewrite !run_vis. cbn [fst snd]. rewrite IH.
    destruct (snd (run w (k (w X ev)))) as [a|e|msg]; try reflexivity.
    now destruct (h e).
Qed.

Lemma run_try_finally (w : world E) {A} (p : prog E A) (f : prog E unit) :
  run w (try_finally p f)
  = (fst (run w p) ++ fst (run w f),
     match snd (run w f) with
     | Returned _ => snd (run w p)
     | Raised e => Raised e
     | Exited msg => Exited msg
     end).
Proof.
  induction p as [a|e|msg|X ev k IH]; cbn [try_finally].
  - rewrite run_pbind. cbn [run fst snd app]. destruct (snd (run w f));
      rewrite ?app_nil_r; reflexivity.
  - rewrite run_pbind. cbn [run fst snd app]. destruct (snd (run w f));
      rewrite ?app_nil_r; reflexivity.
  - rewrite run_pbind. cbn [run fst snd app]. destruct (snd (run w f));
      rewrite ?app_nil_r; reflexivity.
  - rewrite !run_vis. cbn [fst snd]. rewrite IH. reflexivity.
Qed.

Lemma no_exit_run (w : world E) {A} (p : prog E A) (msg : str) :
  no_exit p -> snd (run w p) <> Exited msg.
Proof.
  induction p as [a|e|m|X ev k IH]; cbn [no_exit]; intros Hp.
  - discriminate.
  - discriminate.
  - destruct Hp.
  - rewrite run_vis. cbn [snd]. apply IH, Hp.
Qed.

Lemma no_exit_pbind {A B} (p : prog E A) (f : A -> prog E B) :
  no_exit p -> (forall a, no_exit (f a)) -> no_exit (pbind p f).
Proof.
  intros Hp Hf. induction p as [a|e|m|X ev k IH]; cbn [pbind no_exit] in *;
    auto.
Qed.

Lemma no_exit_call {X} (ev : E X) : no_exit (call ev).
Proof. intros x. exact I. Qed.

Lemma no_exit_call_r {X} (ev : E (result X)) : no_exit (call_r ev).
Proof. intros [x|e]; exact I. Qed.

Lemma no_exit_lift {A} (r : result A) : no_exit (lift E r).
Proof. destruct r; exact I. Qed.

Lemma no_exit_try_except {A} (p : prog E A) (h : exn -> option (prog E A)) :
  no_exit p -> (forall e q, h e = Some q -> no_exit q) ->
  no_exit (try_except p h).
Proof.
  intros Hp Hh. induction p as [a|e|m|X ev k IH];
    cbn [try_except no_exit] in *; auto.
  destruct (h e) as [q|] eqn:Hq; [eauto|exact I].
Qed.

Lemma no_exit_try_finally {A} (p : prog E A) (f : prog E unit) :
  no_exit p -> no_exit f -> no_exit (try_finally p f).
Proof.
  intros Hp Hf. induction p as [a|e|m|X ev k IH];
    cbn [try_finally no_exit] in *; auto.
  - apply no_exit_pbind; [assumption|]. intros _. exact I.
  - apply no_exit_pbind; [assumption|]. intros _. exact I.
  - destruct Hp.
Qed.

Lemma no_exit_for_each {A} (xs : list A) (body : A -> prog E unit) :
  (forall x, no_exit (body x)) -> no_exit (ConvertImageAll.for_each xs body).
Proof.
  intros Hb. induction xs as [|x xs IH]; cbn [ConvertImageAll.for_each].
  - exact I.
  - apply no_exit_pbind; auto.
Qed.

(** A program that never exits, under handlers that catch every exception
    and return, returns. *)
Lemma try_except_returns (w : world E) {A} (p : prog E A)
    (h : exn -> option (prog E A)) :
  no_exit p ->
  (forall e, exists q a, h e = Some q /\ snd (run w q) = Returned a) ->
  exists a, snd (run w (try_except p h)) = Returned a.
Proof.
  intros Hp Hh. rewrite run_try_except.
  destruct (snd (run w p)) as [a|e|msg] eqn:Ho.
  - now exists a.
  - destruct (Hh e) as (q & a & Hq & Ha). rewrite Hq. now exists a.
  - now apply no_exit_run in Ho.
Qed.
End Runs.

End RunMore.

(** ** More on the PDF page renderers *)

Module MorePdf.
Import Spec Extra PdfExtra RunFacts RunMore Fitz.

(** One step of a run: an answered call, or a case on an answer. *)
Ltac run_step :=
  first
    [ rewrite run_vis; cbn [fst snd]
    | progress cbn [try_except try_finally pbind call_r call lift run fst snd]
    | match goal with
      | |- context [match ?x with Ok _ => _ | Raise _ => _ end] => destruct x
      | |- context [match exn_cls ?e with TypeError => _ | _ => _ end] =>
          destruct (exn_cls e)
      | |- context [if ?b then _ else _] => destruct b
      end ].

Ltac run_all := repeat run_step.

(** The same, with cases on the answers of the calls only. *)
Ltac run_answers :=
  repeat first
    [ rewrite run_vis; cbn [fst snd]
    | progress cbn [try_except try_finally pbind call_r call lift run fst snd
                    returned]
    | match goal with
      | |- context [match ?x with Ok _ => _ | Raise _ => _ end] => destruct x
      end ].

(** X14: when a call of [convert_pdf_page_to_image] raises (opening,
    loading, rendering, building or saving the image), nothing further is
    attempted: the one text the function prints is the report of that
    exception, ["Error: PDF file not found at <pdf_path>"] for a
    [FileNotFoundError] and ["An error occurred: <text>"] otherwise, and the
    document is not closed. A [FileNotFoundError] of [img.save], for a
    missing output folder, is thus reported as the PDF not being found. *)
Theorem convert_pdf_page_to_image_reports_failure
    (w : world ConvertImage.event)
    (pdf_path : str) (page_number : Z) (output_image_path : str) (zoom : float)
    (e : exn) :
  page_failure
    (fst (run w (ConvertImage.convert_pdf_page_to_image pdf_path page_number
                   output_image_path zoom))) = Some e ->
  printed
    (fst (run w (ConvertImage.convert_pdf_page_to_image pdf_path page_number
                   output_image_path zoom))) = [page_report pdf_path e]
  /\ existsb page_closed
       (fst (run w (ConvertImage.convert_pdf_page_to_image pdf_path page_number
                      output_image_path zoom))) = false.
Proof.
  unfold ConvertImage.convert_pdf_page_to_image.
  repeat first
    [ rewrite run_vis; cbn [fst snd]
    | progress cbn [try_except pbind call_r call]
    | match goal with
      | |- context [match ?x with Ok _ => _ | Raise _ => _ end] => destruct x
      | |- context [if ?b then _ else _] => destruct b
      end ];
    cbn [page_failure raised_of run fst snd]; try discriminate;
    intros [= ->]; unfold page_report; destruct (exn_cls e);
    rewrite run_call; now cbn.
Qed.

Lemma convert_pdf_page_to_image_reports_failure_witness :
  printed
    (fst (run missing_folder_world
            (ConvertImage.convert_pdf_page_to_image (u8 "data/giam_cuong.pdf") 0
               (u8 "content/giam_cuong.png") 2%float)))
  = [u8 "Error: PDF file not found at data/giam_cuong.pdf"]
  /\ existsb page_closed
       (fst (run missing_folder_world
               (ConvertImage.convert_pdf_page_to_image (u8 "data/giam_cuong.pdf")
                  0 (u8 "content/giam_cuong.png") 2%float))) = false.
Proof.
  pose proof (@convert_pdf_page_to_image_reports_failure missing_folder_world
                (u8 "data/giam_cuong.pdf") 0 (u8 "content/giam_cuong.png")
                2%float missing_folder ltac:(vm_compute; reflexivity)) as P.
  vm_compute in P |- *. exact P.
Defined.

(** X15: [convert_pdf_page_to_image] closes the document only after it has
    saved the image: in a run where no image was saved (the page is out of
    range, or opening, loading, rendering or saving failed) the document it
    opened is never closed. *)
Theorem convert_pdf_page_to_image_closes_only_saved
    (w : world ConvertImage.event)
    (pdf_path : str) (page_number : Z) (output_image_path : str) (zoom : float) :
  existsb page_saved
    (fst (run w (ConvertImage.convert_pdf_page_to_image pdf_path page_number
                   output_image_path zoom))) = false ->
  existsb page_closed
    (fst (run w (ConvertImage.convert_pdf_page_to_image pdf_path page_number
                   output_image_path zoom))) = false.
Proof.
  unfold ConvertImage.convert_pdf_page_to_image.
  run_all; cbn [existsb page_closed page_saved orb]; intros Hs;
    solve [reflexivity | discriminate].
Qed.

Lemma convert_pdf_page_to_image_closes_only_saved_witness :
  existsb page_closed
    (fst (run Sample.pdf_world
            (ConvertImage.convert_pdf_page_to_image (u8 "book.pdf") 9
               (u8 "page.png") 2%float))) = false.
Proof.
  exact (@convert_pdf_page_to_image_closes_only_saved Sample.pdf_world
           (u8 "book.pdf") 9 (u8 "page.png") 2%float
           ltac:(vm_compute; reflexivity)).
Defined.

Lemma negative_out_of_range (page_number count : Z) :
  page_number < 0 -> (0 <=? page_number) && (page_number <? count) = false.
Proof. intros Hn. destruct (Z.leb_spec 0 page_number); [lia|reflexivity]. Qed.

(** X16: a negative page index is rejected like one beyond the last page:
    [convert_pdf_page_to_image] opens the document, prints that the page
    number is out of range and returns; [convert_pdf_to_image], for a PDF
    that exists and a zoom above zero, opens the document, closes it and
    raises the [ValueError] about the page number. Neither counts from the
    end as Python indexing would, and neither loads a page. *)
Theorem negative_page_index :
  (forall (w : world ConvertImage.event) (pdf_path : str) (page_number : Z)
          (output_image_path : str) (zoom : float) (doc : document),
      w _ (ConvertImage.FitzOpen pdf_path) = Ok doc ->
      page_number < 0 ->
      run w (ConvertImage.convert_pdf_page_to_image pdf_path page_number
               output_image_path zoom)
      = ([Entry (ConvertImage.FitzOpen pdf_path) (Ok doc);
          Entry (ConvertImage.Print
                   (u8 "Error: Page number " ++ str_int page_number
                      ++ u8 " is out of range.")) tt],
         Returned tt))
  /\ (forall (w : world PdfToPreprocessedImage.event) (pdf_path : str)
             (page_num : Z) (zoom : float) (doc : document),
        w _ (PdfToPreprocessedImage.OsPathExists pdf_path) = true ->
        PrimFloat.leb zoom 0%float = false ->
        w _ (PdfToPreprocessedImage.FitzOpen pdf_path) = Ok doc ->
        page_num < 0 ->
        run w (PdfToPreprocessedImage.convert_pdf_to_image pdf_path
                 page_num zoom)
        = ([Entry (PdfToPreprocessedImage.OsPathExists pdf_path) true;
            Entry (PdfToPreprocessedImage.FitzOpen pdf_path) (Ok doc);
            Entry (PdfToPreprocessedImage.Close doc) tt],
           Raised (Exn ValueError
             (Some (u8 "Số trang không hợp lệ. PDF có "
                      ++ str_int (page_count doc) ++ u8 " trang, "
                      ++ u8 "nhưng bạn yêu cầu trang "
                      ++ str_int (page_num + 1) ++ u8 "."))))).
Proof.
  split.
  - intros w pdf_path page_number output_image_path zoom doc Hopen Hneg.
    unfold ConvertImage.convert_pdf_page_to_image.
    cbn [try_except pbind call_r call]. rewrite run_vis, Hopen.
    cbn [try_except pbind]. rewrite negative_out_of_range by assumption.
    cbn [try_except pbind call]. rewrite run_vis. cbn [run fst snd].
    now destruct (w unit _).
  - intros w pdf_path page_num zoom doc Hfound Hzoom Hopen Hneg.
    unfold PdfToPreprocessedImage.convert_pdf_to_image.
    cbn [pbind call]. rewrite run_vis, Hfound. cbn [negb pbind].
    rewrite Hzoom. cbn [pbind call_r]. rewrite run_vis, Hopen.
    cbn [pbind]. rewrite negative_out_of_range by assumption.
    cbn [negb try_finally pbind call]. rewrite run_vis. cbn [run fst snd pbind].
    now destruct (w unit _).
Qed.

Lemma negative_page_index_witness :
  run Sample.pdf_world
    (ConvertImage.convert_pdf_page_to_image (u8 "book.pdf") (-1)
       (u8 "page.png") 2%float)
  = ([Entry (ConvertImage.FitzOpen (u8 "book.pdf")) (Ok Sample.five_pages);
      Entry (ConvertImage.Print (u8 "Error: Page number -1 is out of range.")) tt],
     Returned tt)
  /\ snd (run Sample.pdf_array_world
            (PdfToPreprocessedImage.convert_pdf_to_image (u8 "book.pdf")
               (-1) 2%float))
     = Raised (Exn ValueError
         (Some (u8 "Số trang không hợp lệ. PDF có 5 trang, nhưng bạn yêu cầu trang 0."))).
Proof.
  destruct negative_page_index as [P Q]. split.
  - pose proof (P Sample.pdf_world (u8 "book.pdf") (-1) (u8 "page.png")
                  2%float Sample.five_pages
                  ltac:(vm_compute; reflexivity) ltac:(lia)) as R.
    vm_compute in R |- *. exact R.
  - pose proof (Q Sample.pdf_array_world (u8 "book.pdf") (-1) 2%float
                  Sample.five_pages ltac:(vm_compute; reflexivity)
                  ltac:(vm_compute; reflexivity)
                  ltac:(vm_compute; reflexivity) ltac:(lia)) as R.
    apply (f_equal snd) in R. vm_compute in R |- *. exact R.
Defined.

(** X17: in every run of [convert_pdf_to_image] the document is closed as
    many times as it was opened: once when [fitz.open] succeeded, whether
    the page was then rendered or an exception went out, and never
    otherwise. *)
Theorem convert_pdf_to_image_closes_what_it_opens
    (w : world PdfToPreprocessedImage.event) (pdf_path : str) (page_num : Z)
    (zoom : float) :
  closes (fst (run w (PdfToPreprocessedImage.convert_pdf_to_image pdf_path
                        page_num zoom)))
  = opens (fst (run w (PdfToPreprocessedImage.convert_pdf_to_image pdf_path
                         page_num zoom)))
  /\ (opens (fst (run w (PdfToPreprocessedImage.convert_pdf_to_image pdf_path
                           page_num zoom))) <= 1)%nat.
Proof.
  unfold PdfToPreprocessedImage.convert_pdf_to_image.
  run_all; cbn; split; solve [reflexivity | repeat constructor].
Qed.

(** X18: [convert_pdf_to_image] checks the file, then the zoom, before it
    touches the PDF library: for a missing file it raises
    [FileNotFoundError] whatever the zoom and the page, and for a file that
    exists and a zoom of zero or less it raises [ValueError] whatever the
    page; the only call in either run is [os.path.exists]. *)
Theorem convert_pdf_to_image_checks_first
    (w : world PdfToPreprocessedImage.event) (pdf_path : str) (page_num : Z)
    (zoom : float) :
  (w _ (PdfToPreprocessedImage.OsPathExists pdf_path) = false ->
   run w (PdfToPreprocessedImage.convert_pdf_to_image pdf_path page_num zoom)
   = ([Entry (PdfToPreprocessedImage.OsPathExists pdf_path) false],
      Raised (Exn FileNotFoundError
                (Some (u8 "Không tìm thấy tệp PDF tại: " ++ pdf_path)))))
  /\ (w _ (PdfToPreprocessedImage.OsPathExists pdf_path) = true ->
      PrimFloat.leb zoom 0%float = true ->
      run w (PdfToPreprocessedImage.convert_pdf_to_image pdf_path page_num zoom)
      = ([Entry (PdfToPreprocessedImage.OsPathExists pdf_path) true],
         Raised (Exn ValueError (Some (u8 "Giá trị zoom phải lớn hơn 0."))))).
Proof.
  unfold PdfToPreprocessedImage.convert_pdf_to_image. split.
  - intros Hfound. cbn [pbind call]. rewrite run_vis, Hfound. reflexivity.
  - intros Hfound Hzoom. cbn [pbind call]. rewrite run_vis, Hfound.
    cbn [negb]. rewrite Hzoom. reflexivity.
Qed.

Lemma convert_pdf_to_image_checks_first_witness :
  run Sample.pdf_array_world
    (PdfToPreprocessedImage.convert_pdf_to_image (u8 "book.pdf") 0 0%float)
  = ([Entry (PdfToPreprocessedImage.OsPathExists (u8 "book.pdf")) true],
     Raised (Exn ValueError (Some (u8 "Giá trị zoom phải lớn hơn 0.")))).
Proof.
  pose proof (proj2 (convert_pdf_to_image_checks_first Sample.pdf_array_world
                       (u8 "book.pdf") 0 0%float)
                ltac:(vm_compute; reflexivity) ltac:(vm_compute; reflexivity))
    as R.
  vm_compute in R |- *. exact R.
Defined.

(** X19: when the document opens, the page index is in range and each step
    succeeds, [convert_pdf_page_to_image] loads that page, renders it at
    the given zoom, saves the image to the output path, reports the page by
    its number counted from one, and closes the document, in this order;
    the script's [main] does so for page index 6 at zoom 2.0. *)
Theorem convert_pdf_page_to_image_success (w : world ConvertImage.event)
    (pdf_path : str) (page_number : Z) (output_image_path : str) (zoom : float)
    (doc : document) (pg : page) (pix : pixmap) (img : image) :
  w _ (ConvertImage.FitzOpen pdf_path) = Ok doc ->
  0 <= page_number < page_count doc ->
  w _ (ConvertImage.LoadPage doc page_number) = Ok pg ->
  w _ (ConvertImage.GetPixmap pg zoom) = Ok pix ->
  w _ (ConvertImage.FromBytes pix) = Ok img ->
  w _ (ConvertImage.Save img output_image_path) = Ok tt ->
  run w (ConvertImage.convert_pdf_page_to_image pdf_path page_number
           output_image_path zoom)
  = ([Entry (ConvertImage.FitzOpen pdf_path) (Ok doc);
      Entry (ConvertImage.LoadPage doc page_number) (Ok pg);
      Entry (ConvertImage.GetPixmap pg zoom) (Ok pix);
      Entry (ConvertImage.FromBytes pix) (Ok img);
      Entry (ConvertImage.Save img output_image_path) (Ok tt);
      Entry (ConvertImage.Print (u8 "Successfully converted page "
                                   ++ str_int (page_number + 1) ++ u8 " to "
                                   ++ output_image_path)) tt;
      Entry (ConvertImage.Close doc) tt],
     Returned tt).
Proof.
  intros Hopen Hrange Hload Hpix Himg Hsave.
  unfold ConvertImage.convert_pdf_page_to_image.
  cbn [try_except pbind call_r call]. rewrite run_vis, Hopen.
  cbn [try_except pbind fst snd].
  destruct (Z.leb_spec 0 page_number); [|lia].
  destruct (Z.ltb_spec page_number (page_count doc)); [|lia].
  cbn [andb try_except pbind call_r call].
  rewrite run_vis, Hload. cbn [try_except pbind fst snd].
  rewrite run_vis, Hpix. cbn [try_except pbind fst snd].
  rewrite run_vis, Himg. cbn [try_except pbind fst snd].
  rewrite run_vis, Hsave. cbn [try_except pbind fst snd].
  rewrite run_vis. cbn [try_except call fst snd]. rewrite run_vis.
  cbn [try_except run fst snd].
  repeat match goal with |- context [w unit ?ev] => destruct (w unit ev) end.
  reflexivity.
Qed.

Lemma convert_pdf_page_to_image_success_witness :
  run seven_pages_world ConvertImageAll.main
  = ([Entry (ConvertImage.FitzOpen (u8 "data/giam_cuong.pdf")) (Ok seven_pages);
      Entry (ConvertImage.LoadPage seven_pages 6) (Ok 7%N);
      Entry (ConvertImage.GetPixmap 7%N 2%float) (Ok 7%N);
      Entry (ConvertImage.FromBytes 7%N) (Ok 7%N);
      Entry (ConvertImage.Save 7%N (u8 "content/giam_cuong.png")) (Ok tt);
      Entry (ConvertImage.Print
               (u8 "Successfully converted page 7 to content/giam_cuong.png")) tt;
      Entry (ConvertImage.Close seven_pages) tt],
     Returned tt).
Proof.
  pose proof (@convert_pdf_page_to_image_success seven_pages_world
                ConvertImageAll.PDF_FILE ConvertImageAll.PAGE_TO_CONVERT
                ConvertImageAll.OUTPUT_FILE 2%float seven_pages 7%N 7%N 7%N
                ltac:(vm_compute; reflexivity)
                ltac:(unfold ConvertImageAll.PAGE_TO_CONVERT; simpl; lia)
                ltac:(vm_compute; reflexivity) ltac:(vm_compute; reflexivity)
                ltac:(vm_compute; reflexivity) ltac:(vm_compute; reflexivity))
    as P.
  vm_compute in P |- *. exact P.
Defined.

(** *** Every page *)

Section AllPages.
Variable os_path_join : str -> str -> str.
Variable w : world ConvertImageAll.event.
Variables (doc : document) (output_folder format : str) (zoom : float).

Local Abbreviation body :=
  (ConvertImageAll.save_page os_path_join doc output_folder format zoom).
Local Abbreviation name :=
  (ConvertImageAll.output_filename os_path_join output_folder format).
Local Abbreviation ok := (page_ok os_path_join w doc output_folder format zoom).
Local Abbreviation written :=
  (page_written os_path_join w doc output_folder format zoom).

Lemma saved_files_app (a b : list (entry ConvertImageAll.event)) :
  saved_files (a ++ b) = saved_files a ++ saved_files b.
Proof. apply flat_map_app. Qed.

Lemma all_closed_app (a b : list (entry ConvertImageAll.event)) :
  all_closed (a ++ b) = all_closed a || all_closed b.
Proof. apply existsb_app. Qed.

Lemma save_page_no_exit (page_num : Z) : no_exit (body page_num).
Proof.
  unfold ConvertImageAll.save_page.
  repeat (apply no_exit_pbind; [apply no_exit_call_r|intros ?]).
  apply no_exit_call_r.
Qed.

(** What one turn of the loop saves: the file of the page, when the four
    steps before the print succeed. *)
Lemma save_page_trace (page_num : Z) :
  saved_files (fst (run w (body page_num)))
  = (if written page_num then [name page_num] else [])
  /\ all_closed (fst (run w (body page_num))) = false
  /\ (ok page_num = true -> written page_num = true).
Proof.
  unfold page_ok, page_written, ConvertImageAll.save_page.
  run_answers; cbn; repeat split; congruence.
Qed.

Lemma pages_loop (pages : list Z) :
  saved_files (fst (run w (ConvertImageAll.for_each pages body)))
  = List.map name (saved_until ok written pages)
  /\ all_closed (fst (run w (ConvertImageAll.for_each pages body))) = false
  /\ returned (snd (run w (ConvertImageAll.for_each pages body)))
     = forallb ok pages.
Proof.
  induction pages as [|x pages (IH1 & IH2 & IH3)];
    cbn [ConvertImageAll.for_each saved_until forallb List.map].
  - now cbn.
  - destruct (save_page_trace x) as (Hs & Hc & Hw). rewrite run_pbind.
    unfold page_ok in Hw |- *.
    destruct (snd (run w (body x))) as [u|e|msg] eqn:Ho; cbn [returned] in *.
    + cbn [fst snd]. rewrite saved_files_app, all_closed_app, Hs, Hc, IH1, IH2.
      rewrite (Hw eq_refl). now rewrite IH3.
    + cbn [fst snd returned andb]. rewrite Hs, Hc.
      now destruct (written x).
    + now apply no_exit_run in Ho; [|apply save_page_no_exit].
Qed.
End AllPages.

(** X20: once the output folder is there and the PDF is open,
    [convert_all_pdf_pages_to_images] saves the files of the pages in page
    order up to the first page where a step fails: the pages before it,
    that page too when its image was saved and only the ["Saved ..."] print
    failed, and nothing after it. It closes the document exactly when no
    step of any page fails, so a failure in the middle leaves the earlier
    files on disk and the document open. *)
Theorem convert_all_saves_leading_pages (os_path_join : str -> str -> str)
    (w : world ConvertImageAll.event) (pdf_path output_folder format : str)
    (zoom : float) (doc : document) :
  w _ (ConvertImageAll.OsPathExists output_folder) = true
  \/ w _ (ConvertImageAll.Makedirs output_folder) = Ok tt ->
  w _ (ConvertImageAll.FitzOpen pdf_path) = Ok doc ->
  saved_files
    (fst (run w (ConvertImageAll.convert_all_pdf_pages_to_images os_path_join
                   pdf_path output_folder format zoom)))
  = List.map (ConvertImageAll.output_filename os_path_join output_folder format)
      (saved_until (page_ok os_path_join w doc output_folder format zoom)
         (page_written os_path_join w doc output_folder format zoom)
         (ConvertImageAll.range (page_count doc)))
  /\ all_closed
       (fst (run w (ConvertImageAll.convert_all_pdf_pages_to_images os_path_join
                      pdf_path output_folder format zoom)))
     = forallb (page_ok os_path_join w doc output_folder format zoom)
         (ConvertImageAll.range (page_count doc)).
Proof.
  intros Hdir Hopen.
  destruct (pages_loop os_path_join w doc output_folder format zoom
              (ConvertImageAll.range (page_count doc))) as (L1 & L2 & L3).
  unfold ConvertImageAll.convert_all_pdf_pages_to_images.
  rewrite run_try_except.
  match goal with |- context [run w ?p] => set (P := p) end.
  assert (HP : exists pre post,
    saved_files pre = [] /\ all_closed pre = false /\
    saved_files post = [] /\
    run w P
    = match snd (run w (ConvertImageAll.for_each
                          (ConvertImageAll.range (page_count doc))
                          (ConvertImageAll.save_page os_path_join doc
                             output_folder format zoom))) with
      | Returned _ =>
          (pre ++ fst (run w (ConvertImageAll.for_each
                                (ConvertImageAll.range (page_count doc))
                                (ConvertImageAll.save_page os_path_join doc
                                   output_folder format zoom)))
               ++ Entry (ConvertImageAll.Close doc) tt :: post,
           match w _ (ConvertImageAll.Print
                        (10%N :: u8 "All pages converted and saved in the '"
                           ++ output_folder ++ u8 "' folder.")) with
           | Ok u => Returned u
           | Raise e => Raised e
           end)
      | Raised e =>
          (pre ++ fst (run w (ConvertImageAll.for_each
                                (ConvertImageAll.range (page_count doc))
                                (ConvertImageAll.save_page os_path_join doc
                                   output_folder format zoom))),
           Raised e)
      | Exited msg => ([], Exited msg)
      end).
  { subst P. cbn [pbind call]. rewrite run_vis. cbn [fst snd].
    destruct (w _ (ConvertImageAll.OsPathExists output_folder)) eqn:Hfound.
    - cbn [negb pbind call_r]. rewrite run_vis, Hopen. cbn [fst snd pbind].
      exists [Entry (ConvertImageAll.OsPathExists output_folder) true;
              Entry (ConvertImageAll.FitzOpen pdf_path) (Ok doc)].
      exists [Entry (ConvertImageAll.Print
                       (10%N :: u8 "All pages converted and saved in the '"
                          ++ output_folder ++ u8 "' folder."))
                (w _ (ConvertImageAll.Print
                        (10%N :: u8 "All pages converted and saved in the '"
                           ++ output_folder ++ u8 "' folder.")))].
      split; [reflexivity|]. split; [reflexivity|]. split; [reflexivity|].
      rewrite run_pbind.
      destruct (snd (run w (ConvertImageAll.for_each _ _))) as [u|e|msg] eqn:Ho.
      + cbn [pbind call]. rewrite !run_vis. cbn [fst snd app].
        rewrite run_call_r. cbn [fst snd].
        repeat match goal with |- context [w unit ?ev] => destruct (w unit ev) end.
        reflexivity.
      + reflexivity.
      + apply no_exit_run in Ho; [destruct Ho|].
        apply no_exit_for_each. intros x. apply save_page_no_exit.
    - destruct Hdir as [Hdir|Hdir]; [discriminate|].
      cbn [negb pbind call_r]. rewrite run_vis, Hdir. cbn [fst snd pbind].
      rewrite run_vis, Hopen. cbn [fst snd pbind].
      exists [Entry (ConvertImageAll.OsPathExists output_folder) false;
              Entry (ConvertImageAll.Makedirs output_folder) (Ok tt);
              Entry (ConvertImageAll.FitzOpen pdf_path) (Ok doc)].
      exists [Entry (ConvertImageAll.Print
                       (10%N :: u8 "All pages converted and saved in the '"
                          ++ output_folder ++ u8 "' folder."))
                (w _ (ConvertImageAll.Print
                        (10%N :: u8 "All pages converted and saved in the '"
                           ++ output_folder ++ u8 "' folder.")))].
      split; [reflexivity|]. split; [reflexivity|]. split; [reflexivity|].
      rewrite run_pbind.
      destruct (snd (run w (ConvertImageAll.for_each _ _))) as [u|e|msg] eqn:Ho.
      + cbn [pbind call]. rewrite !run_vis. cbn [fst snd app].
        rewrite run_call_r. cbn [fst snd].
        repeat match goal with |- context [w unit ?ev] => destruct (w unit ev) end.
        reflexivity.
      + reflexivity.
      + apply no_exit_run in Ho; [destruct Ho|].
        apply no_exit_for_each. intros x. apply save_page_no_exit. }
  destruct HP as (pre & post & Hpre1 & Hpre2 & Hpost & HP). rewrite HP. clear HP.
  assert (Hh : forall e0 q t,
    match exn_cls e0 with
    | FileNotFoundError =>
        Some (call_r (ConvertImageAll.Print
                        (u8 "Error: PDF file not found at " ++ pdf_path)))
    | _ => Some (call_r (ConvertImageAll.Print
                           (u8 "An error occurred: " ++ exn_text e0)))
    end = Some q ->
    saved_files (t ++ fst (run w q)) = saved_files t
    /\ all_closed (t ++ fst (run w q)) = all_closed t).
  { intros e0 q t Hq. rewrite saved_files_app, all_closed_app.
    destruct (exn_cls e0); injection Hq as <-; rewrite run_call_r;
      cbn [fst saved_files all_closed flat_map existsb app];
      (destruct (w _ _); cbn; now rewrite app_nil_r, orb_false_r). }
  destruct (snd (run w (ConvertImageAll.for_each _ _))) as [u|e|msg] eqn:Ho;
    cbn [returned] in L3.
  - cbn [fst snd].
    assert (Hall : saved_files
                     (pre ++ fst (run w (ConvertImageAll.for_each
                                           (ConvertImageAll.range (page_count doc))
                                           (ConvertImageAll.save_page os_path_join
                                              doc output_folder format zoom)))
                          ++ Entry (ConvertImageAll.Close doc) tt :: post)
                   = List.map (ConvertImageAll.output_filename os_path_join
                                 output_folder format)
                       (saved_until
                          (page_ok os_path_join w doc output_folder format zoom)
                          (page_written os_path_join w doc output_folder format
                             zoom)
                          (ConvertImageAll.range (page_count doc)))
                   /\ all_closed
                        (pre ++ fst (run w (ConvertImageAll.for_each
                                              (ConvertImageAll.range (page_count doc))
                                              (ConvertImageAll.save_page
                                                 os_path_join doc output_folder
                                                 format zoom)))
                             ++ Entry (ConvertImageAll.Close doc) tt :: post)
                      = true).
    { rewrite !saved_files_app, !all_closed_app, Hpre1, Hpre2, L1, L2.
      change (saved_files (Entry (ConvertImageAll.Close doc) tt :: post))
        with (saved_files post).
      rewrite Hpost. cbn. now rewrite app_nil_r. }
    destruct Hall as [Hs Hc]. rewrite <- L3.
    destruct (w _ (ConvertImageAll.Print _)) as [u'|e'].
    + cbn [fst]. now split.
    + match goal with
      | |- context [match ?h with Some _ => _ | None => _ end] =>
          destruct h as [q|] eqn:Hq
      end.
      * cbn [fst]. destruct (Hh _ _ (pre ++ fst (run w (ConvertImageAll.for_each
                                               (ConvertImageAll.range (page_count doc))
                                               (ConvertImageAll.save_page
                                                  os_path_join doc output_folder
                                                  format zoom)))
                                      ++ Entry (ConvertImageAll.Close doc) tt :: post)
                              Hq) as [H1 H2].
        rewrite H1, H2. now split.
      * cbn [fst]. now split.
  - cbn [fst snd]. rewrite <- L3.
    match goal with
    | |- context [match ?h with Some _ => _ | None => _ end] =>
        destruct h as [q|] eqn:Hq
    end.
    + cbn [fst]. destruct (Hh _ _ (pre ++ fst (run w (ConvertImageAll.for_each
                                               (ConvertImageAll.range (page_count doc))
                                               (ConvertImageAll.save_page
                                                  os_path_join doc output_folder
                                                  format zoom)))) Hq) as [H1 H2].
      rewrite H1, H2, saved_files_app, all_closed_app, Hpre1, Hpre2, L1, L2.
      now split.
    + cbn [fst]. rewrite saved_files_app, all_closed_app, Hpre1, Hpre2, L1, L2.
      now split.
  - apply no_exit_run in Ho; [destruct Ho|].
    apply no_exit_for_each. intros x. apply save_page_no_exit.
Qed.

Lemma convert_all_saves_leading_pages_witness :
  (saved_files
     (fst (run second_page_fails
             (ConvertImageAll.convert_all_pdf_pages_to_images sample_join
                (u8 "book.pdf") (u8 "out") (u8 "png") 2%float)))
   = [u8 "out/page_001.png"]
   /\ all_closed
        (fst (run second_page_fails
                (ConvertImageAll.convert_all_pdf_pages_to_images sample_join
                   (u8 "book.pdf") (u8 "out") (u8 "png") 2%float)))
      = false)
  /\ (saved_files
        (fst (run second_print_fails
                (ConvertImageAll.convert_all_pdf_pages_to_images sample_join
                   (u8 "book.pdf") (u8 "out") (u8 "png") 2%float)))
      = [u8 "out/page_001.png"; u8 "out/page_002.png"]
      /\ all_closed
           (fst (run second_print_fails
                   (ConvertImageAll.convert_all_pdf_pages_to_images sample_join
                      (u8 "book.pdf") (u8 "out") (u8 "png") 2%float)))
         = false).
Proof.
  pose proof (@convert_all_saves_leading_pages sample_join second_page_fails
                (u8 "book.pdf") (u8 "out") (u8 "png") 2%float three_pages
                ltac:(right; vm_compute; reflexivity)
                ltac:(vm_compute; reflexivity)) as P.
  pose proof (@convert_all_saves_leading_pages sample_join second_print_fails
                (u8 "book.pdf") (u8 "out") (u8 "png") 2%float three_pages
                ltac:(left; vm_compute; reflexivity)
                ltac:(vm_compute; reflexivity)) as Q.
  split; [vm_compute in P |- *; exact P|vm_compute in Q |- *; exact Q].
Defined.

(** X21: [convert_all_pdf_pages_to_images] catches every exception of the
    file system, the PDF library, PIL and its own prints inside the [try]:
    an exception leaves it only when the print of the error report in a
    handler fails, and it is then the exception of that print. When the
    console takes every text, it returns normally whatever else fails. *)
Theorem convert_all_catches_failures (os_path_join : str -> str -> str)
    (w : world ConvertImageAll.event) (pdf_path output_folder format : str)
    (zoom : float) :
  (forall e,
      snd (run w (ConvertImageAll.convert_all_pdf_pages_to_images os_path_join
                    pdf_path output_folder format zoom)) = Raised e ->
      w _ (ConvertImageAll.Print (u8 "Error: PDF file not found at " ++ pdf_path))
      = Raise e
      \/ exists e0, w _ (ConvertImageAll.Print
                           (u8 "An error occurred: " ++ exn_text e0)) = Raise e)
  /\ (forall msg,
        snd (run w (ConvertImageAll.convert_all_pdf_pages_to_images os_path_join
                      pdf_path output_folder format zoom)) <> Exited msg)
  /\ ((forall s, w _ (ConvertImageAll.Print s) = Ok tt) ->
      snd (run w (ConvertImageAll.convert_all_pdf_pages_to_images os_path_join
                    pdf_path output_folder format zoom)) = Returned tt).
Proof.
  unfold ConvertImageAll.convert_all_pdf_pages_to_images.
  rewrite run_try_except.
  match goal with |- context [run w ?p] => set (P := p) end.
  assert (Hn : no_exit P).
  { subst P.
    apply no_exit_pbind; [apply no_exit_call|intros found].
    apply no_exit_pbind;
      [destruct (negb found); [apply no_exit_call_r|exact I]|intros _].
    apply no_exit_pbind; [apply no_exit_call_r|intros doc].
    apply no_exit_pbind;
      [apply no_exit_for_each; intros x; apply save_page_no_exit|intros _].
    apply no_exit_pbind; [apply no_exit_call|intros _]. apply no_exit_call_r. }
  destruct (snd (run w P)) as [[]|e0|msg] eqn:Ho.
  - cbn [snd]. repeat split; intros; discriminate || reflexivity.
  - destruct (exn_cls e0); rewrite run_call_r; cbn [snd];
      (split; [|split]);
      try (intros e He;
           match type of He with
           | match ?x with Ok _ => _ | Raise _ => _ end = _ =>
               destruct x as [u|e1] eqn:Hx; [discriminate|];
               injection He as <-; solve [now left | right; now exists e0]
           end);
      try (intros msg Hm;
           match type of Hm with
           | match ?x with Ok _ => _ | Raise _ => _ end = _ =>
               destruct x; discriminate
           end);
      try (intros Hall; rewrite Hall; reflexivity).
  - now apply no_exit_run in Ho.
Qed.

Lemma convert_all_catches_failures_witness :
  snd (run second_page_fails
         (ConvertImageAll.convert_all_pdf_pages_to_images sample_join
            (u8 "book.pdf") (u8 "out") (u8 "png") 2%float)) = Returned tt.
Proof.
  exact (proj2 (proj2 (@convert_all_catches_failures sample_join second_page_fails
                         (u8 "book.pdf") (u8 "out") (u8 "png") 2%float))
           (fun s => eq_refl)).
Defined.

Lemma range_NoDup (n : Z) : NoDup (ConvertImageAll.range n).
Proof.
  unfold ConvertImageAll.range.
  apply NoDup_map_NoDup_ForallPairs; [|apply seq_NoDup].
  intros a b _ _. apply Nat2Z.inj.
Qed.

(** X22: provided [os.path.join] keeps apart different names under the
    same folder, the files [convert_all_pdf_pages_to_images] names for the
    pages of a document are all different, whatever the number of pages
    and the format: no page overwrites the file of another, also past page
    999 where the number outgrows its three digits. *)
Theorem output_filenames_distinct (os_path_join : str -> str -> str)
    (output_folder format : str) (n : Z) :
  (forall a b, os_path_join output_folder a = os_path_join output_folder b ->
               a = b) ->
  NoDup (List.map
           (ConvertImageAll.output_filename os_path_join output_folder format)
           (ConvertImageAll.range n)).
Proof.
  intros Hjoin. apply NoDup_map_NoDup_ForallPairs; [|apply range_NoDup].
  intros i j _ _ E. unfold ConvertImageAll.output_filename in E.
  apply Hjoin in E. apply app_inv_head in E.
  rewrite !RecordBuilder.zfill_str_int_zero_padded in E.
  change (u8 "." ++ format) with (46%N :: format) in E.
  apply MoreRows.prefix_sep_unique in E.
  - destruct E as [E _]. apply MoreRows.zero_padded_inj in E. lia.
  - apply MoreRows.zero_padded_lacks; [reflexivity|discriminate].
  - apply MoreRows.zero_padded_lacks; [reflexivity|discriminate].
Qed.

Lemma output_filenames_distinct_witness :
  NoDup [u8 "out/page_001.png"; u8 "out/page_002.png"; u8 "out/page_003.png"].
Proof.
  pose proof (@output_filenames_distinct sample_join (u8 "out") (u8 "png") 3
                ltac:(intros a b E; apply app_inv_head in E; now injection E))
    as P.
  vm_compute in P |- *. exact P.
Defined.

End MorePdf.

(** ** The prompt for a page number *)

Module MorePrompt.
Import Spec Extra PdfExtra PyFacts RunFacts RunMore Fitz.

Section Int.
Context `{Library}.

Lemma token_of_digit (c : char) :
  is_ascii_digit c = true -> PyInt.token_of c = PyInt.Digit (Z.of_N c - 48).
Proof.
  intros Hc. unfold PyInt.token_of. rewrite Hc.
  apply is_ascii_digit_iff in Hc.
  destruct (N.ltb_spec c 127) as [_|Hge]; [|lia]. f_equal. lia.
Qed.

Lemma int_tail_digits (s : str) : forall acc,
  ascii_digits s = true ->
  PyInt.int_tail (List.map PyInt.token_of s) acc
  = Some (fold_left (fun acc c => 10 * acc + (Z.of_N c - 48)) s acc).
Proof.
  induction s as [|c r IH]; intros acc Hs; [reflexivity|].
  apply andb_true_iff in Hs. destruct Hs as [Hc Hr].
  cbn [List.map]. rewrite (token_of_digit _ Hc).
  cbn [PyInt.int_tail fold_left]. now apply IH.
Qed.

Lemma filter_digit_tokens (s : str) :
  ascii_digits s = true ->
  filter PyInt.is_digit (List.map PyInt.token_of s) = List.map PyInt.token_of s.
Proof.
  induction s as [|c r IH]; intros Hs; [reflexivity|].
  apply andb_true_iff in Hs. destruct Hs as [Hc Hr].
  cbn [List.map]. rewrite (token_of_digit _ Hc). cbn [filter PyInt.is_digit].
  now rewrite IH.
Qed.

(** [int] on a string of ASCII digits not longer than the limit. *)
Lemma int_of_str_digits (s : str) :
  s <> [] -> ascii_digits s = true -> len s <= PyInt.max_str_digits ->
  PyInt.int_of_str s = Ok (decimal_value s).
Proof.
  intros Hne Hs Hlen. unfold PyInt.int_of_str.
  rewrite (filter_digit_tokens _ Hs). unfold len in *. rewrite length_map.
  destruct (Z.leb_spec (Z.of_nat (List.length s)) PyInt.max_str_digits);
    [|lia].
  destruct s as [|c r]; [contradiction|].
  apply andb_true_iff in Hs. destruct Hs as [Hc Hr].
  cbn [List.map]. rewrite (token_of_digit _ Hc).
  cbn [PyInt.skip_blanks PyInt.int_signed PyInt.int_body].
  rewrite (int_tail_digits _ _ Hr). reflexivity.
Qed.

(** [int(str(k))] is [k]. *)
Lemma int_of_str_str_int (k : Z) :
  0 <= k -> len (str_int k) <= PyInt.max_str_digits ->
  PyInt.int_of_str (str_int k) = Ok k.
Proof.
  intros Hk Hlen. rewrite str_int_nonneg in * by assumption.
  rewrite int_of_str_digits; auto using str_N_nonempty, str_N_ascii.
  rewrite str_N_value. f_equal. lia.
Qed.

(** The one exception [int] raises. *)
Lemma int_of_str_error (s : str) (e : exn) :
  PyInt.int_of_str s = Raise e -> exn_cls e = ValueError.
Proof.
  unfold PyInt.int_of_str.
  destruct (PyInt.int_signed _); [destruct (_ <=? _)|]; try discriminate;
    now intros [= <-].
Qed.

Variable w : world PdfMain.event.
Variable total_pages : Z.

Local Abbreviation prompt :=
  (PdfMain.Input (u8 "Nhập số trang muốn chuyển đổi (1-"
                    ++ str_int total_pages ++ u8 "): ")).

(** The four ways the prompt ends. *)
Lemma prompt_run :
  run w (PdfMain._prompt_page_number total_pages)
  = match @w _ prompt with
    | None => ([Entry prompt None], Raised PdfMain.EOFError)
    | Some line =>
        if ConvertExcel.is_empty (strip line)
        then ([Entry prompt (Some line);
               Entry (PdfMain.Print (u8 "Bạn chưa nhập số trang.")) tt],
              Returned None)
        else
          match PyInt.int_of_str (strip line) with
          | Ok page_number =>
              if (0 <=? page_number - 1) && (page_number - 1 <? total_pages)
              then ([Entry prompt (Some line)], Returned (Some (page_number - 1)))
              else ([Entry prompt (Some line);
                     Entry (PdfMain.Print
                              (u8 "Số trang nằm ngoài phạm vi cho phép.")) tt],
                    Returned None)
          | Raise _ =>
              ([Entry prompt (Some line);
                Entry (PdfMain.Print
                         (u8 "Giá trị trang không hợp lệ. Vui lòng nhập số nguyên."))
                      tt],
               Returned None)
          end
    end.
Proof.
  unfold PdfMain._prompt_page_number. cbn [pbind call try_except].
  rewrite run_vis. cbn [fst snd].
  destruct (@w _ prompt) as [line|]; [|reflexivity].
  cbn [try_except]. destruct (ConvertExcel.is_empty (strip line)).
  - cbn [pbind call try_except]. rewrite run_vis. cbn [run fst snd].
    now destruct (@w unit _).
  - destruct (PyInt.int_of_str (strip line)) as [n|e] eqn:Hint.
    + cbn [lift pbind]. destruct ((0 <=? n - 1) && (n - 1 <? total_pages)).
      * reflexivity.
      * cbn [negb pbind call try_except]. rewrite run_vis. cbn [run fst snd].
        now destruct (@w unit _).
    + cbn [lift pbind try_except]. rewrite (int_of_str_error _ Hint).
      cbn [pbind call]. rewrite run_vis. cbn [run fst snd].
      now destruct (@w unit _).
Qed.
(** [ValueError] stays inside; the prompt does not exit. *)
Lemma prompt_raises_only_eof :
  (forall e,
      snd (run w (PdfMain._prompt_page_number total_pages)) = Raised e ->
      e = PdfMain.EOFError)
  /\ (forall msg,
        snd (run w (PdfMain._prompt_page_number total_pages)) <> Exited msg).
Proof.
  rewrite prompt_run.
  destruct (@w _ prompt) as [line|]; cbn [snd].
  - destruct (ConvertExcel.is_empty (strip line)); cbn [snd].
    + split; intros; discriminate.
    + destruct (PyInt.int_of_str (strip line)) as [n|e]; cbn [snd].
      * destruct ((0 <=? n - 1) && (n - 1 <? total_pages)); cbn [snd];
          split; intros; discriminate.
      * split; intros; discriminate.
  - split; intros; [congruence|discriminate].
Qed.

(** A page number of the document, as [str] renders it, is let through. *)
Lemma prompt_typed_run (line : str) (k : Z) :
  @w _ prompt = Some line ->
  strip line = str_int k ->
  len (strip line) <= PyInt.max_str_digits ->
  1 <= k <= total_pages ->
  run w (PdfMain._prompt_page_number total_pages)
  = ([Entry prompt (Some line)], Returned (Some (k - 1))).
Proof.
  intros Hline Hk Hlen Hrange. rewrite prompt_run, Hline, Hk.
  rewrite Hk in Hlen. rewrite int_of_str_str_int by (assumption || lia).
  assert (Hne : ConvertExcel.is_empty (str_int k) = false).
  { rewrite str_int_nonneg by lia.
    pose proof (str_N_nonempty (Z.to_N k)) as Hn.
    now destruct (str_N (Z.to_N k)). }
  rewrite Hne.
  destruct (Z.leb_spec 0 (k - 1)); [|lia].
  destruct (Z.ltb_spec (k - 1) total_pages); [|lia]. reflexivity.
Qed.
End Int.

(** X23: an index [_prompt_page_number] returns lies within the document,
    [0 <= index < total_pages], whatever was typed. *)
Theorem prompt_index_in_range `{Library} (w : world PdfMain.event)
    (total_pages : Z) (page_index : Z) :
  snd (run w (PdfMain._prompt_page_number total_pages))
  = Returned (Some page_index) ->
  0 <= page_index < total_pages.
Proof.
  rewrite prompt_run.
  destruct (w _ _) as [line|]; cbn [snd]; [|discriminate].
  destruct (ConvertExcel.is_empty (strip line)); cbn [snd]; [discriminate|].
  destruct (PyInt.int_of_str (strip line)) as [n|e]; cbn [snd]; [|discriminate].
  destruct (Z.leb_spec 0 (n - 1)), (Z.ltb_spec (n - 1) total_pages);
    cbn [andb snd]; try discriminate.
  intros [= <-]. lia.
Qed.

Lemma prompt_index_in_range_witness :
  snd (run (console_world (Some (u8 " 3 ")))
         (PdfMain._prompt_page_number (H := Sample.lib) 5))
  = Returned (Some 2)
  /\ 0 <= 2 < 5.
Proof.
  assert (E : snd (run (console_world (Some (u8 " 3 ")))
                     (PdfMain._prompt_page_number (H := Sample.lib) 5))
              = Returned (Some 2)) by (vm_compute; reflexivity).
  split; [exact E|].
  exact (@prompt_index_in_range Sample.lib
           (console_world (Some (u8 " 3 "))) 5 2 E).
Defined.

(** X24: when the trimmed line is the decimal rendering of a page number
    [k] of the document, [1 <= k <= total_pages] (and is no longer than
    [int] accepts), [_prompt_page_number] returns the index [k - 1] and
    prints nothing: reading the number back with [int] undoes [str]. *)
Theorem prompt_accepts_page_number `{Library} (w : world PdfMain.event)
    (total_pages : Z) (line : str) (k : Z) :
  w _ (PdfMain.Input (u8 "Nhập số trang muốn chuyển đổi (1-"
                        ++ str_int total_pages ++ u8 "): ")) = Some line ->
  strip line = str_int k ->
  len (strip line) <= PyInt.max_str_digits ->
  1 <= k <= total_pages ->
  run w (PdfMain._prompt_page_number total_pages)
  = ([Entry (PdfMain.Input (u8 "Nhập số trang muốn chuyển đổi (1-"
                              ++ str_int total_pages ++ u8 "): "))
            (Some line)],
     Returned (Some (k - 1))).
Proof.
  intros Hline Hk Hlen Hrange. rewrite prompt_run, Hline, Hk.
  rewrite Hk in Hlen.
  assert (Hne : ConvertExcel.is_empty (str_int k) = false).
  { rewrite str_int_nonneg by lia.
    pose proof (str_N_nonempty (Z.to_N k)) as Hn.
    now destruct (str_N (Z.to_N k)). }
  rewrite Hne, int_of_str_str_int by (assumption || lia).
  destruct (Z.leb_spec 0 (k - 1)); [|lia].
  destruct (Z.ltb_spec (k - 1) total_pages); [|lia]. reflexivity.
Qed.

Lemma prompt_accepts_page_number_witness :
  snd (run (console_world (Some (u8 "  5")))
         (PdfMain._prompt_page_number (H := Sample.lib) 5))
  = Returned (Some 4).
Proof.
  pose proof (@prompt_accepts_page_number Sample.lib
                (console_world (Some (u8 "  5"))) 5 (u8 "  5") 5
                ltac:(vm_compute; reflexivity) ltac:(vm_compute; reflexivity)
                ltac:(vm_compute; discriminate) ltac:(lia)) as P.
  apply (f_equal snd) in P. vm_compute in P |- *. exact P.
Defined.

End MorePrompt.

(** ** The entry point of Source/pdf_to_preprocessed_image.py *)

Module MoreScript.
Import Spec Extra PdfExtra PyFacts RunFacts RunMore MorePrompt Fitz.

Lemma run_embed (w : world PdfMain.event) {A}
    (p : prog PdfToPreprocessedImage.event A) :
  run w (PdfMain.embed p)
  = (List.map conv_entry (fst (run (conv_world w) p)),
     snd (run (conv_world w) p)).
Proof.
  induction p as [a|e|msg|X ev k IH]; cbn [PdfMain.embed]; try reflexivity.
  rewrite !run_vis. cbn [fst snd List.map conv_entry]. rewrite IH.
  reflexivity.
Qed.

Lemma no_exit_embed {A} (p : prog PdfToPreprocessedImage.event A) :
  no_exit p -> no_exit (PdfMain.embed p).
Proof.
  induction p as [a|e|msg|X ev k IH]; cbn [PdfMain.embed no_exit]; auto.
Qed.

Lemma convert_pdf_to_image_no_exit (pdf_path : str) (page_num : Z)
    (zoom : float) :
  no_exit (PdfToPreprocessedImage.convert_pdf_to_image pdf_path page_num zoom).
Proof.
  unfold PdfToPreprocessedImage.convert_pdf_to_image.
  apply no_exit_pbind; [apply no_exit_call|intros found].
  destruct (negb found); [exact I|].
  destruct (PrimFloat.leb zoom 0); [exact I|].
  apply no_exit_pbind; [apply no_exit_call_r|intros doc].
  apply no_exit_try_finally; [|apply no_exit_call].
  destruct (negb _); [exact I|].
  repeat (apply no_exit_pbind; [apply no_exit_call_r|intros ?]). exact I.
Qed.

Lemma imwrites_app (a b : list (entry PdfMain.event)) :
  imwrites (a ++ b) = imwrites a ++ imwrites b.
Proof. apply flat_map_app. Qed.

Lemma loaded_pages_app (a b : list (entry PdfMain.event)) :
  loaded_pages (a ++ b) = loaded_pages a ++ loaded_pages b.
Proof. apply flat_map_app. Qed.

Lemma imwrites_conv (t : list (entry PdfToPreprocessedImage.event)) :
  imwrites (List.map conv_entry t) = [].
Proof. induction t as [|[X ev x] t IH]; [reflexivity|exact IH]. Qed.

Section Script.
Context `{Library}.
Variables (os_path_join : str -> str -> str) (os_path_basename : str -> str)
  (os_path_splitext_root : str -> str).
Variable w : world PdfMain.event.

Local Abbreviation INPUT := (PdfMain.INPUT_PDF_PATH os_path_join).
Local Abbreviation raw :=
  (PdfMain.raw_output_path os_path_join os_path_basename os_path_splitext_root).
Local Abbreviation processed :=
  (PdfMain.processed_output_path os_path_join os_path_basename
     os_path_splitext_root).
Local Abbreviation convert_and_save :=
  (PdfMain.convert_and_save os_path_join os_path_basename
     os_path_splitext_root).
Local Abbreviation main :=
  (PdfMain.main os_path_join os_path_basename os_path_splitext_root).

Lemma preprocess_no_exit (image_data : option ndarray) :
  no_exit (PdfMain.preprocess_image_for_ocr image_data).
Proof.
  destruct image_data as [image_data|]; [|exact I].
  unfold PdfMain.preprocess_image_for_ocr.
  repeat (apply no_exit_pbind; [apply no_exit_call_r|intros ?]). exact I.
Qed.

Lemma preprocess_quiet (image_data : option ndarray) :
  imwrites (fst (run w (PdfMain.preprocess_image_for_ocr image_data))) = []
  /\ loaded_pages (fst (run w (PdfMain.preprocess_image_for_ocr image_data)))
     = [].
Proof.
  destruct image_data as [image_data|]; [|now cbn].
  unfold PdfMain.preprocess_image_for_ocr.
  repeat first
    [ rewrite run_vis; cbn [fst snd]
    | progress cbn [pbind call_r run fst snd]
    | match goal with
      | |- context [match ?x with Ok _ => _ | Raise _ => _ end] => destruct x
      end ]; now cbn.
Qed.

Lemma convert_and_save_no_exit (page_index : Z) :
  no_exit (convert_and_save page_index).
Proof.
  unfold PdfMain.convert_and_save. apply no_exit_try_except.
  - apply no_exit_pbind;
      [apply no_exit_embed, convert_pdf_to_image_no_exit|intros image_data].
    apply no_exit_pbind; [apply preprocess_no_exit|intros out].
    apply no_exit_pbind; [apply no_exit_call_r|intros saved].
    destruct (negb saved); [exact I|].
    apply no_exit_pbind; [apply no_exit_call_r|intros saved'].
    destruct (negb saved'); [exact I|].
    repeat (apply no_exit_pbind; [apply no_exit_call|intros ?]).
    apply no_exit_call.
  - intros e q. destruct (exn_cls e); intros [= <-]; apply no_exit_call.
Qed.

Lemma convert_and_save_returns (page_index : Z) :
  snd (run w (convert_and_save page_index)) = Returned tt.
Proof.
  unfold PdfMain.convert_and_save.
  match goal with
  | |- snd (run w (try_except ?p ?h)) = _ =>
      destruct (@try_except_returns _ w _ p h) as [[] Ha]
  end.
  - apply no_exit_pbind;
      [apply no_exit_embed, convert_pdf_to_image_no_exit|intros image_data].
    apply no_exit_pbind; [apply preprocess_no_exit|intros out].
    apply no_exit_pbind; [apply no_exit_call_r|intros saved].
    destruct (negb saved); [exact I|].
    apply no_exit_pbind; [apply no_exit_call_r|intros saved'].
    destruct (negb saved'); [exact I|].
    repeat (apply no_exit_pbind; [apply no_exit_call|intros ?]).
    apply no_exit_call.
  - intros e. destruct (exn_cls e); eexists; exists tt;
      (split; [reflexivity|]); rewrite run_call; cbn [snd];
      now destruct (@w unit _).
  - exact Ha.
Qed.

Lemma handler_quiet (e : exn) (t : list (entry PdfMain.event))
    (q : prog PdfMain.event unit) :
  match exn_cls e with
  | FileNotFoundError => Some (call (PdfMain.Print (u8 "Lỗi: " ++ exn_text e)))
  | ValueError => Some (call (PdfMain.Print (u8 "Lỗi: " ++ exn_text e)))
  | OSError => Some (call (PdfMain.Print (u8 "Lỗi khi lưu ảnh: " ++ exn_text e)))
  | _ => Some (call (PdfMain.Print (u8 "Đã xảy ra lỗi không xác định: "
                                      ++ exn_text e)))
  end = Some q ->
  imwrites (t ++ fst (run w q)) = imwrites t
  /\ loaded_pages (t ++ fst (run w q)) = loaded_pages t.
Proof.
  rewrite imwrites_app, loaded_pages_app.
  destruct (exn_cls e); intros [= <-]; cbn; now rewrite !app_nil_r.
Qed.

(** The trace of the [try] block: the calls of [convert_pdf_to_image], then
    calls that load no page and write at most the two images. *)
Lemma convert_and_save_trace (page_index : Z) :
  let t := fst (run w (convert_and_save page_index)) in
  (imwrites t = []
   \/ imwrites t = [(raw page_index, false)]
   \/ exists b, imwrites t = [(raw page_index, true); (processed page_index, b)])
  /\ (imwrites t <> [] ->
      exists image_data processed_image,
        snd (run (conv_world w)
               (PdfToPreprocessedImage.convert_pdf_to_image INPUT page_index
                  2%float)) = Returned image_data
        /\ snd (run w (PdfMain.preprocess_image_for_ocr (Some image_data)))
           = Returned processed_image)
  /\ loaded_pages t
     = loaded_pages
         (List.map conv_entry
            (fst (run (conv_world w)
                    (PdfToPreprocessedImage.convert_pdf_to_image INPUT
                       page_index 2%float)))).
Proof.
  cbv zeta. unfold PdfMain.convert_and_save.
  rewrite run_try_except, run_pbind, run_embed. cbn [fst snd].
  destruct (snd (run (conv_world w) _)) as [image_data|e|msg] eqn:HC.
  - rewrite run_pbind.
    destruct (preprocess_quiet (Some image_data)) as [Hq Hl].
    destruct (snd (run w (PdfMain.preprocess_image_for_ocr _)))
      as [out|e|msg] eqn:HP.
    + cbn [fst snd].
      pose proof (imwrites_conv
                    (fst (run (conv_world w)
                            (PdfToPreprocessedImage.convert_pdf_to_image INPUT
                               page_index 2%float)))) as Hc.
      set (T1 := List.map conv_entry _) in *.
      set (T2 := fst (run w (PdfMain.preprocess_image_for_ocr _))) in *.
      clearbody T1 T2.
      cbn [pbind call_r]. rewrite run_vis. cbn [fst snd].
      destruct (@w _ (PdfMain.Imwrite (raw page_index) image_data))
        as [[|]|e1].
      * cbn [negb pbind call_r]. rewrite run_vis. cbn [fst snd].
        destruct (@w _ (PdfMain.Imwrite (processed page_index) out))
          as [[|]|e2].
        -- cbn [negb pbind call]. rewrite !run_vis. cbn [fst snd].
           rewrite run_call. cbn [fst snd].
           rewrite !imwrites_app, !loaded_pages_app, Hc, Hq, Hl.
           cbn [imwrites loaded_pages flat_map app].
           split; [right; right; now exists true|].
           split; [intros _; eauto|now rewrite ?app_nil_r].
        -- cbn [negb pbind run fst snd exn_cls]. rewrite run_call. cbn [fst].
           rewrite !imwrites_app, !loaded_pages_app, Hc, Hq, Hl.
           cbn [imwrites loaded_pages flat_map app].
           split; [right; right; now exists false|].
           split; [intros _; eauto|now rewrite ?app_nil_r].
        -- cbn [pbind run fst snd].
           destruct (exn_cls e2); rewrite run_call; cbn [fst];
             rewrite !imwrites_app, !loaded_pages_app, Hc, Hq, Hl;
             cbn [imwrites loaded_pages flat_map app];
             (split; [right; right; now exists false|]);
             (split; [intros _; eauto|now rewrite ?app_nil_r]).
      * cbn [negb pbind run fst snd exn_cls]. rewrite run_call. cbn [fst].
        rewrite !imwrites_app, !loaded_pages_app, Hc, Hq, Hl.
        cbn [imwrites loaded_pages flat_map app].
        split; [right; now left|].
        split; [intros _; eauto|now rewrite ?app_nil_r].
      * cbn [pbind run fst snd].
        destruct (exn_cls e1); rewrite run_call; cbn [fst];
          rewrite !imwrites_app, !loaded_pages_app, Hc, Hq, Hl;
          cbn [imwrites loaded_pages flat_map app];
          (split; [right; now left|]);
          (split; [intros _; eauto|now rewrite ?app_nil_r]).
    + cbn [fst snd].
      match goal with
      | |- context [match ?h with Some _ => _ | None => _ end] =>
          destruct h as [q|] eqn:Hh
      end.
      * cbn [fst]. rewrite (proj1 (@handler_quiet e _ _ Hh)).
        rewrite (proj2 (@handler_quiet e _ _ Hh)).
        rewrite imwrites_app, loaded_pages_app, imwrites_conv, Hq, Hl.
        split; [now left|]. split; [intros Hne; now exfalso|now rewrite ?app_nil_r].
      * cbn [fst]. rewrite imwrites_app, loaded_pages_app, imwrites_conv, Hq, Hl.
        split; [now left|]. split; [intros Hne; now exfalso|now rewrite ?app_nil_r].
    + apply no_exit_run in HP; [destruct HP|apply preprocess_no_exit].
  - cbn [fst snd].
    match goal with
    | |- context [match ?h with Some _ => _ | None => _ end] =>
        destruct h as [q|] eqn:Hh
    end.
    + cbn [fst]. rewrite (proj1 (@handler_quiet e _ _ Hh)).
      rewrite (proj2 (@handler_quiet e _ _ Hh)).
      rewrite imwrites_conv.
      split; [now left|]. split; [intros Hne; now exfalso|reflexivity].
    + cbn [fst]. rewrite imwrites_conv.
      split; [now left|]. split; [intros Hne; now exfalso|reflexivity].
  - apply no_exit_run in HC; [destruct HC|apply convert_pdf_to_image_no_exit].
Qed.

(** A run of [convert_pdf_to_image] that returns has loaded the page asked
    for, and no other. *)
Lemma convert_returned_loaded (cw : world PdfToPreprocessedImage.event)
    (pdf_path : str) (page_num : Z) (zoom : float) (image_data : ndarray) :
  snd (run cw (PdfToPreprocessedImage.convert_pdf_to_image pdf_path page_num
                 zoom)) = Returned image_data ->
  loaded_pages
    (List.map conv_entry
       (fst (run cw (PdfToPreprocessedImage.convert_pdf_to_image pdf_path
                       page_num zoom)))) = [page_num].
Proof.
  unfold PdfToPreprocessedImage.convert_pdf_to_image.
  MorePdf.run_all; try discriminate; intros _; reflexivity.
Qed.

(** With the file there, the document open and the index in range, the
    page is loaded whatever happens next. *)
Lemma convert_in_range_loaded (cw : world PdfToPreprocessedImage.event)
    (pdf_path : str) (page_num : Z) (doc : document) :
  cw _ (PdfToPreprocessedImage.OsPathExists pdf_path) = true ->
  cw _ (PdfToPreprocessedImage.FitzOpen pdf_path) = Ok doc ->
  0 <= page_num < page_count doc ->
  loaded_pages
    (List.map conv_entry
       (fst (run cw (PdfToPreprocessedImage.convert_pdf_to_image pdf_path
                       page_num 2%float)))) = [page_num].
Proof.
  intros Hfound Hopen Hrange.
  unfold PdfToPreprocessedImage.convert_pdf_to_image.
  cbn [pbind call]. rewrite run_vis, Hfound. cbn [negb fst snd].
  change (PrimFloat.leb 2 0) with false. cbn [pbind call_r].
  rewrite run_vis, Hopen. cbn [fst snd pbind].
  destruct (Z.leb_spec 0 page_num); [|lia].
  destruct (Z.ltb_spec page_num (page_count doc)); [|lia].
  cbn [andb negb]. MorePdf.run_answers; reflexivity.
Qed.

Lemma prompt_quiet (total_pages : Z) :
  imwrites (fst (run w (PdfMain._prompt_page_number total_pages))) = []
  /\ loaded_pages (fst (run w (PdfMain._prompt_page_number total_pages))) = [].
Proof.
  rewrite prompt_run.
  repeat match goal with
         | |- context [match ?x with _ => _ end] => destruct x
         end; now cbn.
Qed.

Lemma read_page_count_run :
  run w (PdfMain.read_page_count os_path_join)
  = match @w _ (PdfMain.Conv (PdfToPreprocessedImage.FitzOpen INPUT)) with
    | Ok doc =>
        ([Entry (PdfMain.Conv (PdfToPreprocessedImage.FitzOpen INPUT)) (Ok doc);
          Entry (PdfMain.Conv (PdfToPreprocessedImage.Close doc)) tt],
         Returned (Some (page_count doc)))
    | Raise e =>
        ([Entry (PdfMain.Conv (PdfToPreprocessedImage.FitzOpen INPUT)) (Raise e);
          Entry (PdfMain.Print (u8 "Lỗi khi mở PDF: " ++ exn_text e)) tt],
         Returned None)
    end.
Proof.
  unfold PdfMain.read_page_count. cbn [try_except pbind call_r call].
  rewrite run_vis. cbn [fst snd].
  destruct (@w _ (PdfMain.Conv (PdfToPreprocessedImage.FitzOpen INPUT)))
    as [doc|e]; cbn [try_except pbind call]; rewrite run_vis; cbn [run fst snd];
    now destruct (@w unit _).
Qed.

(** The four ways [main] goes: it stops before the conversion and returns;
    [input] meets the end of the input; a directory cannot be made; or it
    reaches the [try] block with an index the prompt returned. *)
Lemma main_cases :
  (exists t,
      run w main = (t, Returned tt) /\ imwrites t = [] /\ loaded_pages t = []
      /\ (@w _ (PdfMain.Conv (PdfToPreprocessedImage.OsPathExists INPUT)) = false
          \/ (exists e, @w _ (PdfMain.Conv (PdfToPreprocessedImage.FitzOpen INPUT))
                        = Raise e)
          \/ (exists doc,
                 @w _ (PdfMain.Conv (PdfToPreprocessedImage.FitzOpen INPUT))
                 = Ok doc
                 /\ snd (run w (PdfMain._prompt_page_number (page_count doc)))
                    = Returned None)))
  \/ (exists t,
         run w main = (t, Raised PdfMain.EOFError)
         /\ imwrites t = [] /\ loaded_pages t = [])
  \/ (exists t e,
         run w main = (t, Raised e) /\ imwrites t = [] /\ loaded_pages t = []
         /\ (@w _ (PdfMain.Makedirs (u8 "content")) = Raise e
             \/ @w _ (PdfMain.Makedirs (u8 "Processed")) = Raise e))
  \/ (exists pre doc page_index,
         @w _ (PdfMain.Conv (PdfToPreprocessedImage.FitzOpen INPUT)) = Ok doc
         /\ snd (run w (PdfMain._prompt_page_number (page_count doc)))
            = Returned (Some page_index)
         /\ run w main
            = (pre ++ fst (run w (convert_and_save page_index)), Returned tt)
         /\ imwrites pre = [] /\ loaded_pages pre = []).
Proof.
  unfold PdfMain.main. cbn [pbind call]. rewrite run_vis. cbn [fst snd].
  destruct (@w _ (PdfMain.Conv (PdfToPreprocessedImage.OsPathExists INPUT)))
    eqn:Hfound; cbn [negb].
  - rewrite run_pbind, read_page_count_run.
    destruct (@w _ (PdfMain.Conv (PdfToPreprocessedImage.FitzOpen INPUT)))
      as [doc|e] eqn:Hopen; cbn [fst snd run app].
    + rewrite run_pbind.
      destruct (prompt_quiet (page_count doc)) as [Pq Pl].
      destruct (@prompt_raises_only_eof _ w (page_count doc)) as (P2 & P3).
      destruct (snd (run w (PdfMain._prompt_page_number (page_count doc))))
        as [[page_index|]|e|msg] eqn:Hp.
      * cbn [fst snd pbind call_r]. rewrite run_vis. cbn [fst snd].
        destruct (@w _ (PdfMain.Makedirs (u8 "content"))) as [u1|e1] eqn:Hm1.
        -- cbn [pbind]. rewrite run_vis. cbn [fst snd].
           destruct (@w _ (PdfMain.Makedirs (u8 "Processed")))
             as [u2|e2] eqn:Hm2.
           ++ right. right. right. cbn [pbind].
              eexists (_ :: _ :: _ :: fst (run w (PdfMain._prompt_page_number
                                                    (page_count doc)))
                         ++ [_; _]), doc, page_index.
              split; [reflexivity|]. split; [exact Hp|].
              rewrite convert_and_save_returns. split.
              ** cbn [app]. rewrite <- app_assoc. reflexivity.
              ** cbn [imwrites loaded_pages flat_map app].
                 fold (imwrites (fst (run w (PdfMain._prompt_page_number
                                               (page_count doc))) ++ [
                         Entry (PdfMain.Makedirs (u8 "content")) (Ok u1);
                         Entry (PdfMain.Makedirs (u8 "Processed")) (Ok u2)])).
                 fold (loaded_pages (fst (run w (PdfMain._prompt_page_number
                                               (page_count doc))) ++ [
                         Entry (PdfMain.Makedirs (u8 "content")) (Ok u1);
                         Entry (PdfMain.Makedirs (u8 "Processed")) (Ok u2)])).
                 rewrite imwrites_app, loaded_pages_app, Pq, Pl. now cbn.
           ++ right. right. left. cbn [pbind run fst snd].
              eexists. exists e2. split; [reflexivity|].
              cbn [imwrites loaded_pages flat_map app].
              fold (imwrites (fst (run w (PdfMain._prompt_page_number
                                            (page_count doc))) ++ [
                      Entry (PdfMain.Makedirs (u8 "content")) (Ok u1);
                      Entry (PdfMain.Makedirs (u8 "Processed")) (Raise e2)])).
              fold (loaded_pages (fst (run w (PdfMain._prompt_page_number
                                            (page_count doc))) ++ [
                      Entry (PdfMain.Makedirs (u8 "content")) (Ok u1);
                      Entry (PdfMain.Makedirs (u8 "Processed")) (Raise e2)])).
              rewrite imwrites_app, loaded_pages_app, Pq, Pl.
              repeat split; auto.
        -- right. right. left. cbn [pbind run fst snd].
           eexists. exists e1. split; [reflexivity|].
           cbn [imwrites loaded_pages flat_map app].
           fold (imwrites (fst (run w (PdfMain._prompt_page_number
                                         (page_count doc))) ++ [
                   Entry (PdfMain.Makedirs (u8 "content")) (Raise e1)])).
           fold (loaded_pages (fst (run w (PdfMain._prompt_page_number
                                         (page_count doc))) ++ [
                   Entry (PdfMain.Makedirs (u8 "content")) (Raise e1)])).
           rewrite imwrites_app, loaded_pages_app, Pq, Pl.
           repeat split; auto.
      * left. cbn [fst snd run]. eexists. split; [reflexivity|].
        rewrite app_nil_r. cbn [imwrites loaded_pages flat_map app].
        fold (imwrites (fst (run w (PdfMain._prompt_page_number
                                      (page_count doc))))).
        fold (loaded_pages (fst (run w (PdfMain._prompt_page_number
                                          (page_count doc))))).
        repeat split; auto. right. right. exists doc. now split.
      * right. left. rewrite (P2 e eq_refl). cbn [fst snd]. eexists.
        split; [reflexivity|]. cbn [imwrites loaded_pages flat_map app].
        fold (imwrites (fst (run w (PdfMain._prompt_page_number
                                      (page_count doc))))).
        fold (loaded_pages (fst (run w (PdfMain._prompt_page_number
                                          (page_count doc))))).
        now split.
      * now destruct (P3 msg).
    + left. eexists. split; [reflexivity|]. repeat split; eauto.
  - left. rewrite run_call. cbn [fst snd]. destruct (@w unit _). eexists.
    split; [reflexivity|]. repeat split; auto.
Qed.
End Script.

(** X25: when the PDF is not there, or is there and cannot be opened, [main]
    of pdf_to_preprocessed_image.py only reports it: after the existence
    test (and the failed open) its one further call is the print of the
    message; it does not prompt, make a directory, load a page or write an
    image. *)
Theorem main_stops_without_pdf `{Library} (os_path_join : str -> str -> str)
    (os_path_basename os_path_splitext_root : str -> str)
    (w : world PdfMain.event) :
  (w _ (PdfMain.Conv (PdfToPreprocessedImage.OsPathExists
                        (PdfMain.INPUT_PDF_PATH os_path_join))) = false ->
   fst (run w (PdfMain.main os_path_join os_path_basename
                 os_path_splitext_root))
   = [Entry (PdfMain.Conv (PdfToPreprocessedImage.OsPathExists
                             (PdfMain.INPUT_PDF_PATH os_path_join))) false;
      Entry (PdfMain.Print (u8 "Lỗi: Không tìm thấy tệp PDF tại: "
                              ++ PdfMain.INPUT_PDF_PATH os_path_join)) tt])
  /\ (forall e,
        w _ (PdfMain.Conv (PdfToPreprocessedImage.OsPathExists
                             (PdfMain.INPUT_PDF_PATH os_path_join))) = true ->
        w _ (PdfMain.Conv (PdfToPreprocessedImage.FitzOpen
                             (PdfMain.INPUT_PDF_PATH os_path_join))) = Raise e ->
        fst (run w (PdfMain.main os_path_join os_path_basename
                      os_path_splitext_root))
        = [Entry (PdfMain.Conv (PdfToPreprocessedImage.OsPathExists
                                  (PdfMain.INPUT_PDF_PATH os_path_join))) true;
           Entry (PdfMain.Conv (PdfToPreprocessedImage.FitzOpen
                                  (PdfMain.INPUT_PDF_PATH os_path_join)))
             (Raise e);
           Entry (PdfMain.Print (u8 "Lỗi khi mở PDF: " ++ exn_text e)) tt]).
Proof.
  split.
  - intros Hfound. unfold PdfMain.main. cbn [pbind call].
    rewrite run_vis, Hfound. cbn [negb fst snd]. rewrite run_call.
    cbn [fst]. now destruct (w unit _).
  - intros e Hfound Hopen. unfold PdfMain.main. cbn [pbind call].
    rewrite run_vis, Hfound. cbn [negb fst snd].
    rewrite run_pbind, read_page_count_run, Hopen. cbn [fst snd run app].
    reflexivity.
Qed.

Lemma main_stops_without_pdf_witness :
  fst (run (console_over absent_pdf)
         (PdfMain.main (H := Sample.lib) sample_join sample_basename
            sample_splitext_root))
  = [Entry (PdfMain.Conv (PdfToPreprocessedImage.OsPathExists
                            (PdfMain.INPUT_PDF_PATH sample_join))) false;
     Entry (PdfMain.Print (u8 "Lỗi: Không tìm thấy tệp PDF tại: "
                             ++ PdfMain.INPUT_PDF_PATH sample_join)) tt]
  /\ fst (run (console_over broken_pdf)
             (PdfMain.main (H := Sample.lib) sample_join sample_basename
                sample_splitext_root))
     = [Entry (PdfMain.Conv (PdfToPreprocessedImage.OsPathExists
                               (PdfMain.INPUT_PDF_PATH sample_join))) true;
        Entry (PdfMain.Conv (PdfToPreprocessedImage.FitzOpen
                               (PdfMain.INPUT_PDF_PATH sample_join)))
          (Raise broken_pdf_error);
        Entry (PdfMain.Print (u8 "Lỗi khi mở PDF: "
                                ++ exn_text broken_pdf_error)) tt].
Proof.
  split.
  - exact (proj1 (@main_stops_without_pdf Sample.lib sample_join
                    sample_basename sample_splitext_root
                    (console_over absent_pdf))
             ltac:(vm_compute; reflexivity)).
  - exact (proj2 (@main_stops_without_pdf Sample.lib sample_join
                    sample_basename sample_splitext_root
                    (console_over broken_pdf))
             broken_pdf_error ltac:(vm_compute; reflexivity)
             ltac:(vm_compute; reflexivity)).
Defined.

(** X26: [main] of pdf_to_preprocessed_image.py writes at most two images,
    both named after the one page it loaded: the raw image under
    [content], then, only when that was written, the processed image under
    [Processed]; it writes none unless a page was loaded, and it loads no
    second page. *)
Theorem main_image_writes `{Library} (os_path_join : str -> str -> str)
    (os_path_basename os_path_splitext_root : str -> str)
    (w : world PdfMain.event) :
  imwrites (fst (run w (PdfMain.main os_path_join os_path_basename
                          os_path_splitext_root))) = []
  \/ exists page_index,
       loaded_pages (fst (run w (PdfMain.main os_path_join os_path_basename
                                   os_path_splitext_root))) = [page_index]
       /\ (imwrites (fst (run w (PdfMain.main os_path_join os_path_basename
                                   os_path_splitext_root)))
           = [(PdfMain.raw_output_path os_path_join os_path_basename
                 os_path_splitext_root page_index, false)]
           \/ exists b,
                imwrites (fst (run w (PdfMain.main os_path_join
                                        os_path_basename os_path_splitext_root)))
                = [(PdfMain.raw_output_path os_path_join os_path_basename
                      os_path_splitext_root page_index, true);
                   (PdfMain.processed_output_path os_path_join os_path_basename
                      os_path_splitext_root page_index, b)]).
Proof.
  destruct (@main_cases _ os_path_join os_path_basename os_path_splitext_root w)
    as [(t & E & Hi & _)|[(t & E & Hi & _)|[(t & e & E & Hi & _)
                                 |(pre & doc & i & _ & _ & E & Hi & Hl)]]];
    rewrite E; cbn [fst]; try (now left).
  rewrite imwrites_app, loaded_pages_app, Hi, Hl. cbn [app].
  destruct (@convert_and_save_trace os_path_join os_path_basename
              os_path_splitext_root w i) as (Hw & Hsub & Hload).
  destruct Hw as [Hw|Hw]; [now left|right].
  exists i. split; [|exact Hw].
  rewrite Hload. destruct Hsub as (image_data & out & HC & _).
  - destruct Hw as [Hw|[b Hw]]; rewrite Hw; discriminate.
  - exact (convert_returned_loaded _ _ _ _ HC).
Qed.

(** X27: when the PDF is there and opens, the directories can be made, and
    the user types a page number [k] of the document, [main] of
    pdf_to_preprocessed_image.py loads page index [k - 1] and no other, so
    the index the prompt lets through always passes the range check of
    [convert_pdf_to_image]; it returns, and what it writes is named
    [<document>_<k>.png], with the number as typed. *)
Theorem main_converts_typed_page `{Library}
    (os_path_join : str -> str -> str)
    (os_path_basename os_path_splitext_root : str -> str)
    (w : world PdfMain.event) (doc : document) (line : str) (k : Z) :
  w _ (PdfMain.Conv (PdfToPreprocessedImage.OsPathExists
                       (PdfMain.INPUT_PDF_PATH os_path_join))) = true ->
  w _ (PdfMain.Conv (PdfToPreprocessedImage.FitzOpen
                       (PdfMain.INPUT_PDF_PATH os_path_join))) = Ok doc ->
  w _ (PdfMain.Input (u8 "Nhập số trang muốn chuyển đổi (1-"
                        ++ str_int (page_count doc) ++ u8 "): ")) = Some line ->
  strip line = str_int k ->
  len (strip line) <= PyInt.max_str_digits ->
  1 <= k <= page_count doc ->
  w _ (PdfMain.Makedirs (u8 "content")) = Ok tt ->
  w _ (PdfMain.Makedirs (u8 "Processed")) = Ok tt ->
  let t := fst (run w (PdfMain.main os_path_join os_path_basename
                         os_path_splitext_root)) in
  let name := os_path_splitext_root
                (os_path_basename (PdfMain.INPUT_PDF_PATH os_path_join))
              ++ u8 "_" ++ str_int k ++ u8 ".png" in
  loaded_pages t = [k - 1]
  /\ snd (run w (PdfMain.main os_path_join os_path_basename
                   os_path_splitext_root)) = Returned tt
  /\ (imwrites t = []
      \/ imwrites t = [(os_path_join (u8 "content") name, false)]
      \/ exists b, imwrites t = [(os_path_join (u8 "content") name, true);
                                 (os_path_join (u8 "Processed") name, b)]).
Proof.
  intros Hfound Hopen Hline Hk Hlen Hrange Hm1 Hm2. cbv zeta.
  pose proof (@prompt_typed_run _ w (page_count doc) line k Hline Hk
                Hlen Hrange) as Hprompt.
  destruct (@main_cases _ os_path_join os_path_basename os_path_splitext_root w)
    as [(t & E & _ & _ & [Hf|[[e He]|(doc' & Hd & Hp)]])
       |[(t & E & _)
        |[(t & e & E & _ & _ & [Hm|Hm])
         |(pre & doc' & i & Hd & Hp & E & Hi & Hl)]]].
  - congruence.
  - congruence.
  - rewrite Hopen in Hd. injection Hd as <-. rewrite Hprompt in Hp.
    discriminate.
  - exfalso. revert E. unfold PdfMain.main. cbn [pbind call].
    rewrite run_vis, Hfound. cbn [negb fst snd].
    rewrite run_pbind, read_page_count_run, Hopen. cbn [fst snd].
    rewrite run_pbind, Hprompt. cbn [fst snd pbind call_r].
    rewrite run_vis, Hm1. cbn [fst snd pbind]. rewrite run_vis, Hm2.
    cbn [fst snd pbind]. rewrite convert_and_save_returns. discriminate.
  - congruence.
  - congruence.
  - rewrite Hopen in Hd. injection Hd as <-. rewrite Hprompt in Hp.
    cbn [snd] in Hp. injection Hp as <-.
    rewrite E. cbn [fst snd].
    rewrite imwrites_app, loaded_pages_app, Hi, Hl. cbn [app].
    destruct (@convert_and_save_trace os_path_join os_path_basename
                os_path_splitext_root w (k - 1)) as (Hw & _ & Hload).
    rewrite Hload.
    rewrite (@convert_in_range_loaded (conv_world w) _ (k - 1) doc)
      by (assumption || lia).
    split; [reflexivity|]. split; [reflexivity|].
    unfold PdfMain.raw_output_path, PdfMain.processed_output_path,
      PdfMain.raw_filename in Hw.
    replace (k - 1 + 1) with k in Hw by lia. exact Hw.
Qed.

Lemma main_converts_typed_page_witness :
  loaded_pages
    (fst (run (console_world (Some (u8 " 3 ")))
            (PdfMain.main (H := Sample.lib) sample_join sample_basename
               sample_splitext_root))) = [2]
  /\ imwrites
       (fst (run (console_world (Some (u8 " 3 ")))
               (PdfMain.main (H := Sample.lib) sample_join sample_basename
                  sample_splitext_root)))
     = [(u8 "content/giam_cuong_3.png", true);
        (u8 "Processed/giam_cuong_3.png", true)].
Proof.
  pose proof (@main_converts_typed_page Sample.lib sample_join sample_basename
                sample_splitext_root (console_world (Some (u8 " 3 ")))
                Sample.five_pages (u8 " 3 ") 3
                ltac:(vm_compute; reflexivity) ltac:(vm_compute; reflexivity)
                ltac:(vm_compute; reflexivity) ltac:(vm_compute; reflexivity)
                ltac:(vm_compute; discriminate) ltac:(vm_compute; split; discriminate)
                ltac:(vm_compute; reflexivity) ltac:(vm_compute; reflexivity))
    as (P & _ & _).
  split; [vm_compute in P |- *; exact P|vm_compute; reflexivity].
Defined.

End MoreScript.
